(** * ForwardBaseSpawner: a shallow embedding of the lifecycle code

    The development follows [forwardbasespawner/forward.py],
    [forwardbasespawner/api_events.py] and
    [forwardbasespawner/api_setup_tunnel.py].

    - Python values are a small universe [pyval]; a [dict] is an
      insertion-ordered association list, as Python dictionaries are.
    - Coroutines are run to completion: an [await] is a sequencing point,
      and a method is a function from the world to a result and a world.
    - Everything the spawner asks of the outside (the subclass calls
      [_start], [_stop], [_poll], subprocesses, configured hooks, the
      Kubernetes client, the database session, the clock) is answered by an
      environment [Env]; each interaction is recorded, with its answer, in
      the world's trace.  The theorems quantify over every environment. *)

From stdpp Require Import base list strings gmap.
From Stdlib Require Import ZArith Lia Ascii String DecimalString.

Local Open Scope string_scope.

(** ** Dates and times ([datetime.datetime], naive) *)

Record datetime := Datetime {
  dt_year : Z; dt_month : Z; dt_day : Z;
  dt_hour : Z; dt_minute : Z; dt_second : Z;
  dt_microsecond : Z
}.

(** ** Python values *)

#[local] Set Warnings "-register-all".

Inductive pyval :=
| VNone
| VBool (b : bool)
| VInt (n : Z)
| VStr (s : string)
| VList (l : list pyval)
| VDict (d : list (string * pyval))
| VFunc (body : datetime -> pyval).

(** [VFunc body] is a function object such as the closure [stop_event] of
    api_events.py: calling it (and awaiting the call) at clock time [now]
    yields [body now]. *)

Abbreviation dict := (list (string * pyval)).

(** [bool(v)] *)
Definition truthy (v : pyval) : bool :=
  match v with
  | VNone => false
  | VBool b => b
  | VInt n => negb (n =? 0)%Z
  | VStr s => negb (String.eqb s "")
  | VList l => match l with [] => false | _ => true end
  | VDict d => match d with [] => false | _ => true end
  | VFunc _ => true
  end.

(** [callable(v)] *)
Definition callable (v : pyval) : bool :=
  match v with VFunc _ => true | _ => false end.

Definition is_dict (v : pyval) : bool :=
  match v with VDict _ => true | _ => false end.

(** ** Insertion-ordered dictionaries *)

Section Dict.
Context {V : Type}.

(** [d.get(k)] *)
Fixpoint dict_get (k : string) (d : list (string * V)) : option V :=
  match d with
  | [] => None
  | (k', v) :: d' => if String.eqb k k' then Some v else dict_get k d'
  end.

(** [d[k] = v]: an existing key keeps its position, a new one goes last. *)
Fixpoint dict_set (k : string) (v : V) (d : list (string * V)) : list (string * V) :=
  match d with
  | [] => [(k, v)]
  | (k', v') :: d' =>
      if String.eqb k k' then (k, v) :: d' else (k', v') :: dict_set k v d'
  end.

(** [del d[k]] (on a key that is present) *)
Fixpoint dict_del (k : string) (d : list (string * V)) : list (string * V) :=
  match d with
  | [] => []
  | (k', v') :: d' =>
      if String.eqb k k' then d' else (k', v') :: dict_del k d'
  end.

(** [d.update(other)] *)
Definition dict_update (d other : list (string * V)) : list (string * V) :=
  fold_left (fun acc kv => dict_set kv.1 kv.2 acc) other d.

(** [list(d.keys())] *)
Definition dict_keys (d : list (string * V)) : list string := d.*1.

End Dict.

(** ** Exceptions and results *)

Inductive exn :=
| AttributeError
| KeyError
| TypeError
| ValueError
| NameError
| TimeoutExpired                               (* subprocess.TimeoutExpired *)
| ApiException (status : Z) (reason : option string)   (* kubernetes client *)
| HTTPError (status : Z) (log_message : string) (reason : option string)
                                               (* tornado.web.HTTPError *)
| PyException (msg : string).                  (* raise Exception(msg), or any other *)

Inductive res (A : Type) :=
| Ok (a : A)
| Raise (e : exn).
Arguments Ok {A} a.
Arguments Raise {A} e.

(** [str(e)], up to the wording of the built-in messages. *)
Definition exn_str (e : exn) : string :=
  match e with
  | AttributeError => "AttributeError"
  | KeyError => "KeyError"
  | TypeError => "TypeError"
  | ValueError => "ValueError"
  | NameError => "NameError"
  | TimeoutExpired => "TimeoutExpired"
  | ApiException _ _ => "ApiException"
  | HTTPError _ m _ => m
  | PyException m => m
  end.

(** [traceback.format_exc()], up to the frames. *)
Definition format_exc (e : exn) : string := "Traceback (most recent call last): " ++ exn_str e.

Definition is_ok {A} (r : res A) : bool :=
  match r with Ok _ => true | Raise _ => false end.

(** ** Strings *)

Definition chars (s : string) : list ascii := list_ascii_of_string s.
Definition of_chars (l : list ascii) : string := string_of_list_ascii l.

Definition is_digit (c : ascii) : bool :=
  let n := nat_of_ascii c in (48 <=? n)%nat && (n <=? 57)%nat.

(** [str(n)] for an integer *)
Definition str_of_Z (n : Z) : string := NilZero.string_of_int (Z.to_int n).

(** Decimal rendering with at least [w] digits (the [%02d] of strftime). *)
Definition pad_left (w : nat) (s : string) : string :=
  of_chars (replicate (w - String.length s) "0"%char ++ chars s).

Definition digit_val (c : ascii) : Z := Z.of_nat (nat_of_ascii c) - 48.

(** [int(s)] for the digit groups matched by strptime; a leading blank, as
    in the [" [1-9]"] alternative of [%d], is skipped as [int] does. *)
Definition int_of_digits (l : list ascii) : Z :=
  fold_left (fun acc c => if is_digit c then (10 * acc + digit_val c)%Z else acc) l 0%Z.

(** [s.startswith(p)] *)
Definition startswith (p s : string) : bool := String.prefix p s.

(** [s.endswith(p)] *)
Definition endswith (p s : string) : bool :=
  String.prefix (of_chars (rev (chars p))) (of_chars (rev (chars s))).

(** [s[n:]] *)
Definition str_drop (n : nat) (s : string) : string := of_chars (drop n (chars s)).

(** [s.removeprefix(p)] *)
Definition removeprefix (p s : string) : string :=
  if startswith p s then str_drop (String.length p) s else s.

(** [s.split(sep)] for a one-character separator *)
Fixpoint split_chars (sep : ascii) (cur : list ascii) (l : list ascii) : list string :=
  match l with
  | [] => [of_chars (rev cur)]
  | c :: l' =>
      if Ascii.eqb c sep then of_chars (rev cur) :: split_chars sep [] l'
      else split_chars sep (c :: cur) l'
  end.

Definition str_split (sep : ascii) (s : string) : list string := split_chars sep [] (chars s).

(** What [str.strip] removes and [\s] matches, among the ASCII characters. *)
Definition is_space (c : ascii) : bool :=
  let n := nat_of_ascii c in
  ((9 <=? n) && (n <=? 13) || (28 <=? n) && (n <=? 32))%nat.

Fixpoint drop_spaces (l : list ascii) : list ascii :=
  match l with
  | c :: l' => if is_space c then drop_spaces l' else l
  | [] => []
  end.

Definition strip_chars (l : list ascii) : list ascii :=
  rev (drop_spaces (rev (drop_spaces l))).

(** Digits with single underscores between them. *)
Fixpoint digits_value (l : list ascii) (after_digit : bool) (acc : Z) : option Z :=
  match l with
  | [] => if after_digit then Some acc else None
  | c :: l' =>
      if is_digit c then digits_value l' true (10 * acc + digit_val c)%Z
      else if Ascii.eqb c "_" && after_digit then digits_value l' false acc
      else None
  end.

(** [int(s)] for a string, base ten; [None] stands for [ValueError]. *)
Definition int_of_str (s : string) : option Z :=
  match strip_chars (chars s) with
  | "-"%char :: l => Z.opp <$> digits_value l false 0%Z
  | "+"%char :: l => digits_value l false 0%Z
  | l => digits_value l false 0%Z
  end.

(** ** Regular expressions ([re]), backtracking and greedy as in Python *)

Module Re.

Inductive re :=
| Eps
| Cls (p : ascii -> bool)
| Seq (a b : re)
| Alt (a b : re)
| Star (a : re).

Definition Plus (a : re) : re := Seq a (Star a).
Definition Opt (a : re) : re := Alt a Eps.
Definition Chr (c : ascii) : re := Cls (Ascii.eqb c).

(** [run r s k]: match [r] at the head of [s], handing the rest to the
    continuation [k]; when [k] fails the next alternative is tried, longest
    repetition first. *)
Fixpoint run {X : Type} (r : re) (s : list ascii) (k : list ascii -> option X) : option X :=
  match r with
  | Eps => k s
  | Cls p =>
      match s with
      | c :: s' => if p c then k s' else None
      | [] => None
      end
  | Seq a b => run a s (fun s' => run b s' k)
  | Alt a b =>
      match run a s k with
      | Some x => Some x
      | None => run b s k
      end
  | Star a =>
      (fix loop (n : nat) (s : list ascii) (k : list ascii -> option X) : option X :=
         match n with
         | O => k s
         | S n' =>
             match run a s (fun s' =>
                              if (List.length s' <? List.length s)%nat then loop n' s' k else None) with
             | Some x => Some x
             | None => k s
             end
         end) (List.length s) s k
  end.

(** The text matched when [r] matches at the head of [s]. *)
Definition match_at (r : re) (s : list ascii) : option (list ascii) :=
  run r s (fun rest => Some (take (List.length s - List.length rest) s)).

(** [re.search(r, s).group()], or [None] *)
Fixpoint search_chars (r : re) (s : list ascii) : option (list ascii) :=
  match match_at r s with
  | Some m => Some m
  | None =>
      match s with
      | [] => None
      | _ :: s' => search_chars r s'
      end
  end.

Definition search (r : re) (s : string) : option string :=
  of_chars <$> search_chars r (chars s).

Definition digit : re := Cls is_digit.
Definition dot : re := Cls (fun c => negb (Ascii.eqb c "010"%char)).

End Re.

(** ** Event timestamps

    [_get_event_time] (forward.py, lines 731-738) searches the event's
    [html_message] for the pattern
    [([0-9]+(_[0-9]+)+).*[0-9]{2}:[0-9]{2}:[0-9]{2}(\\.[0-9]{1,3})?]
    (a raw string: the last group is a backslash, any character, and one to
    three digits). *)

Definition d2 : Re.re := Re.Seq Re.digit Re.digit.

Definition event_time_pattern : Re.re :=
  Re.Seq (Re.Seq (Re.Plus Re.digit)
                 (Re.Plus (Re.Seq (Re.Chr "_") (Re.Plus Re.digit))))
 (Re.Seq (Re.Star Re.dot)
 (Re.Seq d2 (Re.Seq (Re.Chr ":") (Re.Seq d2 (Re.Seq (Re.Chr ":") (Re.Seq d2
 (Re.Opt (Re.Seq (Re.Chr "\")
         (Re.Seq Re.dot
         (Re.Seq Re.digit (Re.Opt (Re.Seq Re.digit (Re.Opt Re.digit)))))))))))))%char.

Definition _get_event_time (event : pyval) : res string :=
  match event with
  | VDict d =>
      match dict_get "html_message" d with
      | None => Raise KeyError
      | Some (VStr message) =>
          match Re.search event_time_pattern message with
          | Some m => Ok m                 (* match.group() *)
          | None => Raise AttributeError   (* None has no attribute group *)
          end
      | Some _ => Raise TypeError          (* re.search on a non-string *)
      end
  | _ => Raise TypeError                   (* event is not subscriptable by a key *)
  end.

(** ** [datetime.strptime(s, "%Y_%m_%d %H:%M:%S")]

    The standard library turns the format into the regular expression
    [(\d\d\d\d)_(1[0-2]|0[1-9]|[1-9])_(3[0-1]|[1-2]\d|0[1-9]|[1-9]| [1-9])\s+(2[0-3]|[0-1]\d|\d):([0-5]\d|\d):(6[0-1]|[0-5]\d|\d)],
    matches it at the start of the text, refuses a text with anything left
    over, and then builds the date, which refuses a day the month does not
    have, the year 0 and a second above 59. *)

Module Strptime.
Import Re.

Definition rng (lo hi : ascii) : re :=
  Cls (fun c => (nat_of_ascii lo <=? nat_of_ascii c)%nat && (nat_of_ascii c <=? nat_of_ascii hi)%nat).

Definition reY : re := Seq digit (Seq digit (Seq digit digit)).
Definition rem : re :=
  Alt (Seq (Chr "1") (rng "0" "2")) (Alt (Seq (Chr "0") (rng "1" "9")) (rng "1" "9")).
Definition red : re :=
  Alt (Seq (Chr "3") (rng "0" "1"))
 (Alt (Seq (rng "1" "2") digit)
 (Alt (Seq (Chr "0") (rng "1" "9"))
 (Alt (rng "1" "9") (Seq (Chr " ") (rng "1" "9"))))).
Definition reH : re :=
  Alt (Seq (Chr "2") (rng "0" "3")) (Alt (Seq (rng "0" "1") digit) digit).
Definition reM : re := Alt (Seq (rng "0" "5") digit) digit.
Definition reS : re :=
  Alt (Seq (Chr "6") (rng "0" "1")) (Alt (Seq (rng "0" "5") digit) digit).
Definition spaces : re := Plus (Cls is_space).

(** Match [r] and hand the matched text, as a number, and the rest on. *)
Definition group {X : Type} (r : re) (s : list ascii)
    (k : Z -> list ascii -> option X) : option X :=
  run r s (fun rest => k (int_of_digits (take (List.length s - List.length rest) s)) rest).

Definition lit {X : Type} (r : re) (s : list ascii) (k : list ascii -> option X) : option X :=
  run r s k.

(** [format_regex.match(data_string)]: the six numbers and what is left. *)
Definition match_format (s : list ascii) : option (datetime * list ascii) :=
  group reY s (fun Y s =>
  lit (Chr "_") s (fun s =>
  group rem s (fun m s =>
  lit (Chr "_") s (fun s =>
  group red s (fun d s =>
  lit spaces s (fun s =>
  group reH s (fun H s =>
  lit (Chr ":") s (fun s =>
  group reM s (fun M s =>
  lit (Chr ":") s (fun s =>
  group reS s (fun S rest =>
  Some (Datetime Y m d H M S 0, rest)))))))))))).

End Strptime.

Definition is_leap (y : Z) : bool :=
  ((y mod 4 =? 0) && (negb (y mod 100 =? 0) || (y mod 400 =? 0)))%Z.

Definition days_in_month (y m : Z) : Z :=
  if (m =? 2)%Z then (if is_leap y then 29 else 28)%Z
  else if ((m =? 4) || (m =? 6) || (m =? 9) || (m =? 11))%Z then 30%Z
  else 31%Z.

(** What the [datetime] constructor accepts. *)
Definition valid_datetime (t : datetime) : bool :=
  ((1 <=? dt_year t) && (dt_year t <=? 9999) &&
   (1 <=? dt_month t) && (dt_month t <=? 12) &&
   (1 <=? dt_day t) && (dt_day t <=? days_in_month (dt_year t) (dt_month t)) &&
   (0 <=? dt_hour t) && (dt_hour t <=? 23) &&
   (0 <=? dt_minute t) && (dt_minute t <=? 59) &&
   (0 <=? dt_second t) && (dt_second t <=? 59) &&
   (0 <=? dt_microsecond t) && (dt_microsecond t <=? 999999))%Z.

Definition strptime (s : string) : res datetime :=
  match Strptime.match_format (chars s) with
  | None => Raise ValueError                      (* does not match format *)
  | Some (t, rest) =>
      match rest with
      | _ :: _ => Raise ValueError                (* unconverted data remains *)
      | [] => if valid_datetime t then Ok t else Raise ValueError
      end
  end.

(** ** Date arithmetic: [(now - dtime).days] *)

Definition days_before_year (y : Z) : Z :=
  let p := (y - 1)%Z in (p * 365 + p / 4 - p / 100 + p / 400)%Z.

Fixpoint days_before_month_nat (y : Z) (m : nat) : Z :=
  match m with
  | O => 0%Z
  | S m' => (days_before_month_nat y m' + days_in_month y (Z.of_nat m))%Z
  end.

(** Days of the year before the first of month [m]. *)
Definition days_before_month (y m : Z) : Z := days_before_month_nat y (Z.to_nat (m - 1)).

Definition toordinal (t : datetime) : Z :=
  (days_before_year (dt_year t) + days_before_month (dt_year t) (dt_month t) + dt_day t)%Z.

Definition microseconds (t : datetime) : Z :=
  ((((toordinal t * 24 + dt_hour t) * 60 + dt_minute t) * 60 + dt_second t) * 1000000
   + dt_microsecond t)%Z.

Definition day_us : Z := 86400000000%Z.

(** [timedelta.days] of [now - t]: the difference is normalised so that the
    seconds and microseconds are not negative, hence a floor. *)
Definition delta_days (now t : datetime) : Z := ((microseconds now - microseconds t) / day_us)%Z.

(** ** [strftime("%Y_%m_%d %H:%M:%S.%f")[:-3]] and its hyphenated variant *)

Definition two (n : Z) : string := pad_left 2 (str_of_Z n).

Definition strftime_ms (sep : string) (t : datetime) : string :=
  str_of_Z (dt_year t) ++ sep ++ two (dt_month t) ++ sep ++ two (dt_day t) ++ " " ++
  two (dt_hour t) ++ ":" ++ two (dt_minute t) ++ ":" ++ two (dt_second t) ++ "." ++
  pad_left 3 (str_of_Z (dt_microsecond t / 1000)).

(** ** The spawner object

    The attributes of [ForwardBaseSpawner] that the lifecycle code reads and
    writes (forward.py, lines 59-78), and the three pending flags of the
    base class behind its [pending] property. *)

Record Spawner := {
  port_forward_info : dict;
  port : Z;
  call_during_startup : bool;
  already_stopped : bool;
  already_post_stop_hooked : bool;
  _cancel_event_yielded : bool;
  latest_events : list pyval;
  events : list (string * list pyval);
  stop_event : pyval;
  _spawn_pending : bool;
  _stop_pending : bool;
  _check_pending : bool
}.

Definition set_port_forward_info (v : dict) (s : Spawner) : Spawner :=
  {| port_forward_info := v; port := port s;
     call_during_startup := call_during_startup s;
     already_stopped := already_stopped s;
     already_post_stop_hooked := already_post_stop_hooked s;
     _cancel_event_yielded := _cancel_event_yielded s;
     latest_events := latest_events s; events := events s;
     stop_event := stop_event s; _spawn_pending := _spawn_pending s;
     _stop_pending := _stop_pending s; _check_pending := _check_pending s |}.

Definition set_port (v : Z) (s : Spawner) : Spawner :=
  {| port_forward_info := port_forward_info s; port := v;
     call_during_startup := call_during_startup s;
     already_stopped := already_stopped s;
     already_post_stop_hooked := already_post_stop_hooked s;
     _cancel_event_yielded := _cancel_event_yielded s;
     latest_events := latest_events s; events := events s;
     stop_event := stop_event s; _spawn_pending := _spawn_pending s;
     _stop_pending := _stop_pending s; _check_pending := _check_pending s |}.

Definition set_call_during_startup (v : bool) (s : Spawner) : Spawner :=
  {| port_forward_info := port_forward_info s; port := port s;
     call_during_startup := v;
     already_stopped := already_stopped s;
     already_post_stop_hooked := already_post_stop_hooked s;
     _cancel_event_yielded := _cancel_event_yielded s;
     latest_events := latest_events s; events := events s;
     stop_event := stop_event s; _spawn_pending := _spawn_pending s;
     _stop_pending := _stop_pending s; _check_pending := _check_pending s |}.

Definition set_already_stopped (v : bool) (s : Spawner) : Spawner :=
  {| port_forward_info := port_forward_info s; port := port s;
     call_during_startup := call_during_startup s;
     already_stopped := v;
     already_post_stop_hooked := already_post_stop_hooked s;
     _cancel_event_yielded := _cancel_event_yielded s;
     latest_events := latest_events s; events := events s;
     stop_event := stop_event s; _spawn_pending := _spawn_pending s;
     _stop_pending := _stop_pending s; _check_pending := _check_pending s |}.

Definition set_already_post_stop_hooked (v : bool) (s : Spawner) : Spawner :=
  {| port_forward_info := port_forward_info s; port := port s;
     call_during_startup := call_during_startup s;
     already_stopped := already_stopped s;
     already_post_stop_hooked := v;
     _cancel_event_yielded := _cancel_event_yielded s;
     latest_events := latest_events s; events := events s;
     stop_event := stop_event s; _spawn_pending := _spawn_pending s;
     _stop_pending := _stop_pending s; _check_pending := _check_pending s |}.

Definition set_latest_events (v : list pyval) (s : Spawner) : Spawner :=
  {| port_forward_info := port_forward_info s; port := port s;
     call_during_startup := call_during_startup s;
     already_stopped := already_stopped s;
     already_post_stop_hooked := already_post_stop_hooked s;
     _cancel_event_yielded := _cancel_event_yielded s;
     latest_events := v; events := events s;
     stop_event := stop_event s; _spawn_pending := _spawn_pending s;
     _stop_pending := _stop_pending s; _check_pending := _check_pending s |}.

Definition set_events (v : list (string * list pyval)) (s : Spawner) : Spawner :=
  {| port_forward_info := port_forward_info s; port := port s;
     call_during_startup := call_during_startup s;
     already_stopped := already_stopped s;
     already_post_stop_hooked := already_post_stop_hooked s;
     _cancel_event_yielded := _cancel_event_yielded s;
     latest_events := latest_events s; events := v;
     stop_event := stop_event s; _spawn_pending := _spawn_pending s;
     _stop_pending := _stop_pending s; _check_pending := _check_pending s |}.

Definition set_stop_event (v : pyval) (s : Spawner) : Spawner :=
  {| port_forward_info := port_forward_info s; port := port s;
     call_during_startup := call_during_startup s;
     already_stopped := already_stopped s;
     already_post_stop_hooked := already_post_stop_hooked s;
     _cancel_event_yielded := _cancel_event_yielded s;
     latest_events := latest_events s; events := events s;
     stop_event := v; _spawn_pending := _spawn_pending s;
     _stop_pending := _stop_pending s; _check_pending := _check_pending s |}.

Definition set_cancel_event_yielded (v : bool) (s : Spawner) : Spawner :=
  {| port_forward_info := port_forward_info s; port := port s;
     call_during_startup := call_during_startup s;
     already_stopped := already_stopped s;
     already_post_stop_hooked := already_post_stop_hooked s;
     _cancel_event_yielded := v;
     latest_events := latest_events s; events := events s;
     stop_event := stop_event s; _spawn_pending := _spawn_pending s;
     _stop_pending := _stop_pending s; _check_pending := _check_pending s |}.

(** [clear_state] (forward.py, lines 615-623).  The start futures, which
    it also forgets, are not attributes of the record: cancelling them is
    the mark [ECancelStartFuture]. *)
Definition clear_state (s : Spawner) : Spawner :=
  set_cancel_event_yielded false
    (set_already_post_stop_hooked false
       (set_already_stopped false
          (set_port_forward_info [] s))).

(** [Spawner.pending] of the base class *)
Definition pending (s : Spawner) : option string :=
  if _spawn_pending s then Some "spawn"
  else if _stop_pending s then Some "stop"
  else if _check_pending s then Some "check"
  else None.

(** ** Configuration

    A trait that holds either a value or a callable. The result of calling
    a callable comes from the environment. *)

Inductive setting :=
| Static (v : bool)
| Callable.

Record Config := {
  post_stop_hook : bool;               (* is not None *)
  filter_events : bool;                (* is set *)
  ssh_custom_forward : bool;
  ssh_custom_forward_remove : bool;
  ssh_custom_svc : bool;
  ssh_custom_svc_remove : bool;
  ssh_custom_forward_remote : bool;
  ssh_create_remote_forward : setting;
  ssh_recreate_at_start : setting;
  ssh_during_startup : setting;
  extra_labels_callable : bool;
  internal_ssl : bool;
  svc_name : string;
  name : string;                       (* the server name *)
  log_name : string                    (* self._log_name *)
}.

(** ** The outside world

    Every interaction with a collaborator is recorded together with its
    answer.  The environment answers the [n]-th interaction (counted by the
    length of the trace so far); as no two interactions share a position,
    an environment can stand for any behaviour of the collaborators, also
    one that depends on the arguments or on earlier answers. *)

Inductive k8s_op := ReadHubService | CreateService | DeleteService.

Inductive effect :=
| ESubprocess (cmd : list string) (timeout : Z) (r : res (Z * string * string))
| ERemoteStart (r : res pyval)             (* await self._start() *)
| ERemoteStop (now : bool) (r : res unit)  (* await self._stop(now=now) *)
| ERemotePoll (r : res pyval)              (* await self._poll() *)
| ECancelStartFuture                       (* cancel_start_function *)
| EUserStop (r : res unit)                 (* await self.user.stop(self.name) *)
| ECancelSpawnFuture                       (* self._spawn_future.cancel() *)
| EHook (name : string) (r : res pyval)    (* a configured callable *)
| ECustomSvc (r : res (string * Z))        (* ssh_custom_svc(self, info) *)
| EForwardCmd (remote : bool) (r : res (string * string * list string))
| EK8s (op : k8s_op) (r : res unit)
| ERandomPort (p : Z)
| ESetOrmState (state : dict)              (* spawner.orm_spawner.state = ... *)
| EDbCommit (r : res unit).                (* self.db.commit() *)

Record Env := {
  now_at : nat -> datetime;                          (* datetime.now() *)
  subprocess_at : nat -> res (Z * string * string);  (* (returncode, out, err) *)
  remote_start_at : nat -> res pyval;
  remote_stop_at : nat -> res unit;
  remote_poll_at : nat -> res pyval;
  user_stop_at : nat -> res unit;
  hook_at : nat -> res pyval;
  custom_svc_at : nat -> res (string * Z);
  forward_cmd_at : nat -> res (string * string * list string);
  k8s_at : nat -> res unit;
  random_port_at : nat -> Z;
  commit_at : nat -> res unit
}.

Record World := { sp : Spawner; trace : list effect }.

(** ** Methods: state, exceptions and a trace *)

Definition M (A : Type) : Type := World -> res A * World.

Definition ret {A} (a : A) : M A := fun w => (Ok a, w).

Definition raise {A} (e : exn) : M A := fun w => (Raise e, w).

Definition bind {A B} (m : M A) (k : A -> M B) : M B :=
  fun w =>
    match m w with
    | (Ok a, w') => k a w'
    | (Raise e, w') => (Raise e, w')
    end.

(** [try: m  except Exception as e: h e] *)
Definition try_except {A} (m : M A) (h : exn -> M A) : M A :=
  fun w =>
    match m w with
    | (Ok a, w') => (Ok a, w')
    | (Raise e, w') => h e w'
    end.

(** [try: m  finally: f] *)
Definition try_finally {A} (m : M A) (f : M unit) : M A :=
  fun w =>
    match m w with
    | (r, w') =>
        match f w' with
        | (Ok _, w'') => (r, w'')
        | (Raise e, w'') => (Raise e, w'')
        end
    end.

Definition lift {A} (r : res A) : M A := fun w => (r, w).

Definition get_self : M Spawner := fun w => (Ok (sp w), w).

Definition update_self (f : Spawner -> Spawner) : M unit :=
  fun w => (Ok tt, {| sp := f (sp w); trace := trace w |}).

Declare Scope m_scope.
Delimit Scope m_scope with M.
Bind Scope m_scope with M.
Notation "x <- c1 ;; c2" := (bind c1 (fun x => c2))
  (at level 100, c1 at next level, right associativity) : m_scope.
Notation "c1 ;; c2" := (bind c1 (fun _ => c2))
  (at level 100, c2 at level 200, right associativity) : m_scope.
Local Open Scope m_scope.

(** The new part of a trace. *)
Definition since (w w' : World) : list effect := drop (List.length (trace w)) (trace w').

(** The ways that lead to the hook: the hub calls [run_post_stop_hook]
    itself when a stop or a cancel completes, and [poll] calls it after
    stopping a server at startup. *)
Inductive path :=
| ViaStop (now cancel_ : bool) (event : pyval)
| ViaPoll
| ViaHook.

Record stop_call := { call_now : bool; call_cancel : bool; call_event : pyval }.


Section Methods.

Variable cfg : Config.
Variable env : Env.

(** One interaction: the answer is the environment's at this position. *)
Definition interact {A} (answer : nat -> A) (record : A -> effect) : M A :=
  fun w =>
    let a := answer (List.length (trace w)) in
    (Ok a, {| sp := sp w; trace := trace w ++ [record a] |}).

Definition perform {A} (answer : nat -> res A) (record : res A -> effect) : M A :=
  r <- interact answer record ;; lift r.

Definition mark (e : effect) : M unit :=
  fun w => (Ok tt, {| sp := sp w; trace := trace w ++ [e] |}).

(** [datetime.now()]: reading the clock leaves no mark in the trace. *)
Definition datetime_now : M datetime :=
  fun w => (Ok (now_at env (List.length (trace w))), w).

Definition call_hook (name : string) : M pyval := perform (hook_at env) (EHook name).

(** A value-or-callable trait, read as a truth value. *)
Definition resolve (name : string) (s : setting) : M bool :=
  match s with
  | Static v => ret v
  | Callable => v <- call_hook name ;; ret (truthy v)
  end.


(** *** [run_post_stop_hook] (forward.py, lines 514-524) *)

Definition run_post_stop_hook : M pyval :=
  self <- get_self ;;
  if already_post_stop_hooked self then ret VNone
  else
    update_self (set_already_post_stop_hooked true) ;;
    if post_stop_hook cfg then
      (* log.exception: the hook's exception is swallowed *)
      try_except (call_hook "post_stop_hook") (fun _ => ret VNone)
    else ret VNone.

(** *** [get_state] (forward.py, lines 578-601) *)

(** The [for key in events_keys] loop. *)
Fixpoint prune_events (keys : list string) : M unit :=
  match keys with
  | [] => ret tt
  | key :: keys' =>
      self <- get_self ;;
      let delete := update_self (set_events (dict_del key (events self))) in
      match dict_get key (events self) with
      | Some (first :: _) =>
          if truthy first then
            stime <- lift (_get_event_time first) ;;
            dtime <- lift (strptime stime) ;;
            t <- datetime_now ;;
            if negb (delta_days t dtime =? 0)%Z then delete else ret tt
          else delete
      | Some [] => delete
      | None => raise KeyError
      end ;;
      prune_events keys'
  end.

Definition events_value (evs : list (string * list pyval)) : pyval :=
  VDict (map (fun kv => (kv.1, VList kv.2)) evs).

Definition get_state : M dict :=
  self <- get_self ;;
  (* state = super().get_state(), the base class returns an empty dict *)
  let state := dict_set "port" (VInt (port self))
                 (dict_set "port_forward_info" (VDict (port_forward_info self)) []) in
  match events self with
  | [] => ret state
  | _ :: _ =>
      update_self (set_events (dict_set "latest" (latest_events self) (events self))) ;;
      self <- get_self ;;
      prune_events (dict_keys (events self)) ;;
      self <- get_self ;;
      ret (dict_set "events" (events_value (events self)) state)
  end.

(** *** [run_filter_events] (forward.py, lines 660-663) *)

Definition run_filter_events (event : pyval) : M pyval :=
  if filter_events cfg then call_hook "filter_events" else ret event.

(** *** The tunnel driver (forward.py, lines 985-1143) *)

Definition subprocess_cmd (cmd : list string) (timeout : Z) : M (Z * string * string) :=
  perform (subprocess_at env) (ESubprocess cmd timeout).

Definition split_service_address (service_address : option pyval) : res (string * string) :=
  match service_address with
  | Some (VStr a) =>
      match str_split ":" (removeprefix "http://" (removeprefix "https://" a)) with
      | [service_address_short; p] => Ok (service_address_short, p)
      | _ => Raise ValueError          (* wrong number of values to unpack *)
      end
  | _ => Raise AttributeError          (* no removeprefix on a non-string *)
  end.

(** [get_forward_cmd] and [get_forward_remote_cmd] (lines 913-983) put the
    user, the node and the option list together from configuration traits
    and hooks; their result is an answer of the environment. *)
Definition get_forward_cmd : M (string * string * list string) :=
  perform (forward_cmd_at env) (EForwardCmd false).

Definition get_forward_remote_cmd : M (string * string * list string) :=
  perform (forward_cmd_at env) (EForwardCmd true).

(** [f"-L0.0.0.0:{self.port}:{service_address}:{service_port}"] *)
Definition binding (p : Z) (service_address service_port : string) : string :=
  "-L0.0.0.0:" ++ str_of_Z p ++ ":" ++ service_address ++ ":" ++ service_port.

Definition target (user node : string) : string := user ++ "@" ++ node.

Definition ssh_default_forward_remove : M unit :=
  self <- get_self ;;
  service <- lift (split_service_address (dict_get "service" (port_forward_info self))) ;;
  let '(service_address, service_port) := service in
  base <- get_forward_cmd ;;
  let '(user, node, cmd) := base in
  let cancel_cmd :=
    (cmd ++ ["-O"; "cancel"; binding (port self) service_address service_port;
             target user node])%list in
  subprocess_cmd cancel_cmd 3 ;;
  ret tt.

(** [ssh_default_forward] (lines 1033-1095). The texts of the two
    exceptions also carry the command and its output. *)
Definition ssh_default_forward : M unit :=
  base <- get_forward_cmd ;;
  let '(user, node, cmd) := base in
  let check_cmd := (cmd ++ ["-O"; "check"; target user node])%list in
  r <- subprocess_cmd check_cmd 3 ;;
  (if negb (r.1.1 =? 0)%Z then
     let connect_cmd := (cmd ++ [target user node])%list in
     r <- try_except (subprocess_cmd connect_cmd 1)
            (fun e => match e with
                      | TimeoutExpired => subprocess_cmd check_cmd 3
                      | _ => raise e
                      end) ;;
     if negb (r.1.1 =? 0)%Z then raise (PyException "Could not create ssh connection")
     else ret tt
   else ret tt) ;;
  self <- get_self ;;
  service <- lift (split_service_address (dict_get "service" (port_forward_info self))) ;;
  let '(service_address, service_port) := service in
  let create_cmd :=
    (cmd ++ ["-O"; "forward"; binding (port self) service_address service_port;
             target user node])%list in
  r <- subprocess_cmd create_cmd 3 ;;
  if negb (r.1.1 =? 0)%Z then
    (* Maybe there's an old forward still running for this *)
    let cancel_cmd :=
      (cmd ++ ["-O"; "cancel"; binding (port self) service_address service_port;
               target user node])%list in
    subprocess_cmd cancel_cmd 3 ;;
    r <- subprocess_cmd create_cmd 3 ;;
    if negb (r.1.1 =? 0)%Z then raise (PyException "Could not forward port")
    else ret tt
  else ret tt.

(** [ssh_default_forward_remote] (lines 1107-1143). Line 1138 reads the
    name [start_cmd], which the function never binds: the lookup raises
    [NameError], and the lines after it (the [start] request and the test
    of its return code against 217) are never reached. *)
Definition ssh_default_forward_remote : M unit :=
  base <- get_forward_remote_cmd ;;
  let '(user, node, cmd) := base in
  let check_cmd := (cmd ++ ["-O"; "check"; target user node])%list in
  r <- subprocess_cmd check_cmd 3 ;;
  (if negb (r.1.1 =? 0)%Z then
     let connect_cmd := (cmd ++ [target user node])%list in
     r <- try_except (subprocess_cmd connect_cmd 1)
            (fun e => match e with
                      | TimeoutExpired => subprocess_cmd check_cmd 3
                      | _ => raise e
                      end) ;;
     if negb (r.1.1 =? 0)%Z then raise (PyException "Could not create remote ssh connection")
     else ret tt
   else ret tt) ;;
  raise NameError.

(** *** The endpoint publisher (lines 1150-1219) *)

Definition k8s (op : k8s_op) : M unit := perform (k8s_at env) (EK8s op).

Definition ssh_default_svc : M (string * Z) :=
  k8s ReadHubService ;;
  (if extra_labels_callable cfg then call_hook "extra_labels" ;; ret tt else ret tt) ;;
  try_except (k8s CreateService)
    (fun e => match e with
              | ApiException status _ =>
                  if (status =? 409)%Z then k8s DeleteService ;; k8s CreateService
                  else raise e
              | _ => raise e
              end) ;;
  self <- get_self ;;
  ret (svc_name cfg, port self).

Definition ssh_default_svc_remove : M unit := k8s DeleteService.

(** *** [run_ssh_forward_remove] (lines 1221-1244) *)

Definition run_ssh_forward_remove : M unit :=
  try_except
    (if ssh_custom_forward_remove cfg
     then call_hook "ssh_custom_forward_remove" ;; ret tt
     else ssh_default_forward_remove)
    (fun _ => ret tt) ;;           (* Could not cancel port forwarding *)
  try_except
    (if ssh_custom_svc_remove cfg
     then call_hook "ssh_custom_svc_remove" ;; ret tt
     else ssh_default_svc_remove)
    (fun _ => ret tt).             (* Could not delete port forwarding svc *)

(** *** [run_ssh_forward] (lines 881-911) *)

Definition run_ssh_forward (create_svc : bool) : M (option (string * Z)) :=
  try_except
    (if ssh_custom_forward cfg
     then call_hook "ssh_custom_forward" ;; ret tt
     else ssh_default_forward)
    (fun e => raise (HTTPError 419
                 ("Cannot start ssh tunnel for " ++ name cfg ++ ": " ++ exn_str e)
                 (Some (format_exc e)))) ;;
  if create_svc then
    try_except
      (if ssh_custom_svc cfg
       then r <- perform (custom_svc_at env) ECustomSvc ;; ret (Some r)
       else r <- ssh_default_svc ;; ret (Some r))
      (fun e => raise (HTTPError 419
                   ("Cannot create svc for " ++ log_name cfg ++ ": " ++ exn_str e)
                   (Some (format_exc e))))
  else ret None.

(** *** [stop], [cancel_start_function], [cancel] (lines 1492-1551) *)

(** [await maybe_future(obj)] of jupyterhub.utils: an awaitable is awaited,
    anything else is wrapped in a finished future, so that awaiting gives
    the object back.  No [pyval] is awaitable; a function object is not. *)
Definition maybe_future (obj : pyval) : M pyval := ret obj.

(** The start futures are cancelled when they are still pending; the
    [CancelledError] this produces is caught. *)
Definition cancel_start_function : M unit := mark ECancelStartFuture.

(** [self.user.stop] belongs to the hub; a [CancelledError] from it is
    caught, any other exception is the environment's answer. *)
Definition cancel : M unit :=
  perform (user_stop_at env) EUserStop ;;
  mark ECancelSpawnFuture.

Definition stop (now cancel_ : bool) (event : pyval) : M unit :=
  self <- get_self ;;
  if already_stopped self then
    (* We've already sent a request to the outpost. *)
    ret tt
  else
    (* Prevent multiple requests to the outpost *)
    update_self (set_already_stopped true) ;;
    (if cancel_ then cancel_start_function else ret tt) ;;
    try_finally
      (perform (remote_stop_at env) (ERemoteStop now))
      (if truthy event then
         event <- (if callable event then maybe_future event else ret event) ;;
         update_self (fun s => set_latest_events (latest_events s ++ [event]) s)
       else ret tt) ;;
    (if cancel_ then cancel else ret tt) ;;
    self <- get_self ;;
    if truthy (VDict (port_forward_info self)) then run_ssh_forward_remove
    else ret tt.

(** *** [poll] (lines 1461-1484) *)

Definition is_none (v : pyval) : bool :=
  match v with VNone => true | _ => false end.

Definition poll : M pyval :=
  status <- perform (remote_poll_at env) ERemotePoll ;;
  self <- get_self ;;
  if call_during_startup self then
    update_self (set_call_during_startup false) ;;
    recreate <- resolve "ssh_recreate_at_start" (ssh_recreate_at_start cfg) ;;
    if negb (is_none status) then
      stop false true VNone ;;
      run_post_stop_hook ;;
      ret status
    else if recreate then
      recreated <- try_except (run_ssh_forward false ;; ret true) (fun _ => ret false) ;;
      if recreated then ret status
      else
        (* Could not recreate ssh tunnel during startup. Stop server *)
        update_self (set_call_during_startup false) ;;
        stop false true VNone ;;
        run_post_stop_hook ;;
        ret (VInt 0)
    else ret status
  else ret status.

(** *** [start] (lines 1363-1456) *)

(** [getattr(e, "status_code", 500)] *)
Definition exn_status_code (e : exn) : Z :=
  match e with HTTPError status _ _ => status | _ => 500%Z end.

(** [getattr(e, "log_message", "")] *)
Definition exn_log_message (e : exn) : string :=
  match e with HTTPError _ m _ => m | _ => "" end.

(** [getattr(e, "reason", traceback.format_exc()).replace("\n", "<br>")]:
    an exception whose [reason] attribute is [None] has nothing to replace
    in. *)
Definition exn_reason (e : exn) : res string :=
  match e with
  | HTTPError _ _ (Some r) | ApiException _ (Some r) => Ok r
  | HTTPError _ _ None | ApiException _ None => Raise AttributeError
  | _ => Ok (format_exc e)
  end.

Definition start_failed_event (t : datetime) (e : exn) (reason : string) : pyval :=
  VDict [("failed", VBool true); ("ready", VBool false); ("progress", VInt 100);
         ("message", VStr "");
         ("html_message",
          VStr ("<details><summary>" ++ strftime_ms "_" t ++ ": JupyterLab start failed ("
                ++ str_of_Z (exn_status_code e) ++ "). " ++ exn_log_message e
                ++ "</summary>" ++ reason ++ "</details>"))].

(** Lines 1415-1453: what the remote start call returned decides where the
    server is expected (the three scenarios of the comment). *)
Definition resolve_address (resp : pyval) : M string :=
  let resp_json : dict := [("service", resp)] in
  let proto := if internal_ssl cfg then "https://" else "http://" in
  self <- get_self ;;
  during_startup <- resolve "ssh_during_startup" (ssh_during_startup cfg) ;;
  if during_startup then
    (* Case 2: port forwarding to the service address given by the outpost *)
    update_self (set_port_forward_info resp_json) ;;
    r <- run_ssh_forward true ;;
    match r with
    | Some (svc, p) =>
        update_self (set_port p) ;;
        ret (proto ++ svc ++ ":" ++ str_of_Z p)
    | None => raise TypeError
    end
  else if negb (truthy resp) then
    (* Case 3: service address not known yet *)
    update_self (set_port (port self)) ;;
    ret (proto ++ svc_name cfg ++ ":" ++ str_of_Z (port self))
  else
    (* Case 1: no port forward required *)
    service <- lift (split_service_address (Some resp)) ;;
    let '(service_address, p) := service in
    match int_of_str p with
    | Some n => update_self (set_port n) ;; ret (proto ++ service_address ++ ":" ++ p)
    | None => raise ValueError
    end.

(** Lines 1369-1414, and then [resolve_address]. *)
Definition call_subclass_start : M string :=
  self <- get_self ;;
  (if (port self =? 0)%Z then
     p <- interact (random_port_at env) ERandomPort ;;
     update_self (set_port p)
   else ret tt) ;;
  create_ssh_remote_forward <-
    resolve "ssh_create_remote_forward" (ssh_create_remote_forward cfg) ;;
  (if create_ssh_remote_forward then
     try_except
       (if ssh_custom_forward_remote cfg
        then call_hook "ssh_custom_forward_remote" ;; ret tt
        else ssh_default_forward_remote)
       (fun e => raise (HTTPError 419
                    ("Cannot start remote ssh tunnel for " ++ log_name cfg ++ ": "
                     ++ exn_str e) None))
   else ret tt) ;;
  resp <- try_except
            (perform (remote_start_at env) ERemoteStart)
            (fun e =>
               reason <- lift (exn_reason e) ;;
               t <- datetime_now ;;
               let failed := start_failed_event t e reason in
               update_self (set_stop_event failed) ;;
               update_self (fun s => set_latest_events (latest_events s ++ [failed]) s) ;;
               (* the wait for _cancel_event_yielded only lets time pass *)
               raise e) ;;
  resolve_address resp.

Definition start : M string :=
  update_self (set_call_during_startup false) ;;
  call_subclass_start.

(** ** The callback surface *)

Record Response := { status : Z; written : string }.

Definition respond (code : Z) (text : string) : M Response :=
  ret {| status := code; written := text |}.

Definition get_default (k : string) (default : pyval) (d : dict) : pyval :=
  match dict_get k d with Some v => v | None => default end.

(** *** [SpawnEventsAPIHandler.post] (api_events.py, lines 37-154)

    [body] is the parsed request body: [None] when [json.loads] raised, a
    JSON object otherwise ([{}] for an empty body). *)

Definition user_cancel_message : string :=
  "Start cancelled by user.</summary>You clicked the cancel button.</details>".

(** The closure [stop_event] of lines 82-90. *)
Definition cancel_stop_event : pyval :=
  VFunc (fun t =>
    VDict [("failed", VBool true); ("ready", VBool false); ("progress", VInt 100);
           ("message", VStr "");
           ("html_message",
            VStr ("<details><summary>" ++ strftime_ms "_" t ++ ": " ++ user_cancel_message))]).

Definition details_summary : string := "<details><summary>".

(** Lines 128-137: the timestamp is put into the event's [html_message]. *)
Definition add_timestamp (t : datetime) (event : dict) : res dict :=
  match get_default "html_message" (get_default "message" (VStr "") event) event with
  | VStr m =>
      if startswith details_summary m then
        Ok (dict_set "html_message"
              (VStr (details_summary ++ strftime_ms "_" t ++ ": "
                     ++ str_drop (String.length details_summary) m)) event)
      else if negb (truthy (get_default "html_message" (VStr "") event)) then
        Ok (dict_set "html_message" (get_default "message" (VStr "") event) event)
      else Ok event
  | _ => Raise AttributeError            (* no startswith on a non-string *)
  end.

Definition events_post (user_found server_found : bool) (body : option dict) : M Response :=
  if negb user_found then raise (HTTPError 404 "" None)
  else if negb server_found then raise (HTTPError 404 "" None)
  else
    match body with
    | None => respond 400 ""
    | Some event =>
        spawner <- get_self ;;
        (* Do not do anything if stop or cancel is already pending *)
        if bool_decide (pending spawner = Some "stop") || already_stopped spawner then
          respond 204 ""
        else if truthy (VDict event) && truthy (get_default "failed" (VBool false) event) then
          match get_default "html_message" (VStr "") event with
          | VStr m =>
              (if endswith user_cancel_message m
               then stop false true cancel_stop_event
               else stop false true (VDict event)) ;;
              respond 204 ""
          | _ => raise AttributeError    (* no endswith on a non-string *)
          end
        else
          event <- try_except
                     (e <- run_filter_events (VDict event) ;;
                      ret (if is_none e then VDict [] else e))
                     (fun _ => ret (VDict [])) ;;
          spawner <- get_self ;;
          if negb (truthy event) || _stop_pending spawner then
            respond 400 "Bad Request"
          else
            t <- datetime_now ;;
            match event with
            | VDict d =>
                stamped <- lift (add_timestamp t d) ;;
                update_self (fun s => set_latest_events (latest_events s ++ [VDict stamped]) s) ;;
                respond 204 ""
            | _ => raise AttributeError  (* the filter returned something without get *)
            end
    end.

(** *** [SetupTunnelAPIHandler.post] (api_setup_tunnel.py, lines 13-97) *)

Definition tunnel_failed_event (t : datetime) (e : exn) : pyval :=
  VDict [("progress", VInt 100); ("failed", VBool true);
         ("html_message",
          VStr ("<details><summary>" ++ strftime_ms "-" t
                ++ ": Could not setup tunnel</summary>" ++ exn_str e ++ "</details>"))].

Definition setup_tunnel_post (user_found server_found : bool) (body : option dict)
  : M Response :=
  if negb user_found then raise (HTTPError 404 "" None)
  else if negb server_found then raise (HTTPError 404 "" None)
  else
    match body with
    | None => respond 400 ""
    | Some json_body =>
        spawner <- get_self ;;
        if _stop_pending spawner then respond 400 "Bad Request."
        else if truthy (VDict json_body) then
          try_except
            (update_self
               (fun s => set_port_forward_info (dict_update (port_forward_info s) json_body) s) ;;
             state <- get_state ;;
             mark (ESetOrmState state) ;;
             perform (commit_at env) EDbCommit ;;
             run_ssh_forward true ;;
             respond 204 "")
            (fun e =>
               t <- datetime_now ;;
               stop false true (tunnel_failed_event t e) ;;
               respond 400 "")
        else respond 400 "Bad Request."
    end.

(** *** Entry points taken one after the other *)

Definition follow (p : path) (w : World) : World :=
  match p with
  | ViaStop now cancel_ event => (stop now cancel_ event w).2
  | ViaPoll => (poll w).2
  | ViaHook => (run_post_stop_hook w).2
  end.

Definition follow_all (ps : list path) (w : World) : World :=
  fold_left (fun w p => follow p w) ps w.

Definition do_stop (c : stop_call) : M unit :=
  stop (call_now c) (call_cancel c) (call_event c).

(** Calls one after the other, each from the world the one before left. *)
Definition stop_all (cs : list stop_call) (w : World) : World :=
  fold_left (fun w c => (do_stop c w).2) cs w.

End Methods.

(** * What is observed of a run *)

(** How often effects of a kind occur. *)
Definition count (P : effect -> bool) (t : list effect) : nat :=
  List.length (List.filter P t).

Definition is_post_stop_hook (e : effect) : bool :=
  match e with
  | EHook n _ => String.eqb n "post_stop_hook"
  | _ => false
  end.

(** Calls of the hook body still allowed: one until the guard is set. *)
Definition hook_budget (s : Spawner) : nat :=
  if already_post_stop_hooked s then 0 else 1.

Definition is_remote_stop (e : effect) : bool :=
  match e with ERemoteStop _ _ => true | _ => false end.

(** The request that removes the tunnel: the [cancel] subprocess, or the
    custom hook. *)
Definition is_tunnel_teardown (e : effect) : bool :=
  match e with
  | ESubprocess _ _ _ => true
  | EHook n _ => String.eqb n "ssh_custom_forward_remove"
  | _ => false
  end.

(** The request that removes the endpoint: the service deletion, or the
    custom hook. *)
Definition is_endpoint_teardown (e : effect) : bool :=
  match e with
  | EK8s DeleteService _ => true
  | EHook n _ => String.eqb n "ssh_custom_svc_remove"
  | _ => false
  end.

(** A collaborator of [stop] that raised: the remote stop call, or the
    user's stop of a cancel. *)
Definition is_failed_stop_call (e : effect) : bool :=
  match e with
  | ERemoteStop _ (Raise _) | EUserStop (Raise _) => true
  | _ => false
  end.

Definition is_failed_forward_cmd (e : effect) : bool :=
  match e with
  | EForwardCmd false (Raise _) => true
  | _ => false
  end.

(** Whether the teardown gets to ask for the tunnel's removal: the custom
    function is always asked; the default function runs its [cancel]
    command when the service address splits into host and port and
    [get_forward_cmd] returns. *)
Definition tunnel_removal_asked (cfg : Config) (info : dict) (t : list effect) : bool :=
  ssh_custom_forward_remove cfg
  || is_ok (split_service_address (dict_get "service" info))
     && (count is_failed_forward_cmd t =? 0)%nat.

(** Whether a call of [stop] that ended with [r] got to the teardown: it
    does when nothing raised before (the remote stop call, the user's stop)
    and there is connection info. *)
Definition teardown_reached (r : res unit) (info : dict) : bool :=
  is_ok r && truthy (VDict info).

(** * Reasoning about methods

    [obeys R m]: whatever the world, running [m] only adds to the trace, and
    the spawner before, the effects added and the spawner after are related
    by [R].  A relation that holds of no effects and composes along
    concatenation is carried through sequencing, handlers and [finally]. *)

Definition track := Spawner -> list effect -> Spawner -> Prop.

Definition obeys_at {A} (R : track) (m : M A) (w : World) : Prop :=
  exists t, trace (m w).2 = (trace w ++ t)%list /\ R (sp w) t (sp (m w).2).

Definition obeys {A} (R : track) (m : M A) : Prop := forall w, obeys_at R m w.

Class Composes (R : track) : Prop := {
  track_nil : forall s, R s [] s;
  track_app : forall s t1 s1 t2 s2, R s t1 s1 -> R s1 t2 s2 -> R s (t1 ++ t2)%list s2
}.

(** [keeps P g]: no effect of kind [P], and the attribute [g] is left as it
    was. *)
Definition keeps {X} (P : effect -> bool) (g : Spawner -> X) : track :=
  fun s t s' => count P t = 0 /\ g s' = g s.

(** [spends P budget]: every effect of kind [P] is paid for out of a budget
    that the spawner's attributes determine. *)
Definition spends (P : effect -> bool) (budget : Spawner -> nat) : track :=
  fun s t s' => count P t + budget s' <= budget s.

(** ** A session to run the methods on

    The class-level defaults of lines 59-78 and the default values of the
    traits. *)

Definition default_stop_event : pyval :=
  VDict [("failed", VBool true); ("ready", VBool false); ("progress", VInt 100);
         ("message", VStr ""); ("html_message", VStr "JupyterLab was stopped.")].

Definition new_spawner : Spawner :=
  {| port_forward_info := []; port := 0;
     call_during_startup := true;
     already_stopped := false;
     already_post_stop_hooked := false;
     _cancel_event_yielded := false;
     latest_events := []; events := [];
     stop_event := default_stop_event;
     _spawn_pending := false; _stop_pending := false; _check_pending := false |}.

Definition default_config : Config :=
  {| post_stop_hook := false; filter_events := false;
     ssh_custom_forward := false; ssh_custom_forward_remove := false;
     ssh_custom_svc := false; ssh_custom_svc_remove := false;
     ssh_custom_forward_remote := false;
     ssh_create_remote_forward := Static false;
     ssh_recreate_at_start := Static true;
     ssh_during_startup := Static false;
     extra_labels_callable := false;
     internal_ssl := false;
     svc_name := "jupyter-alice--lab"; name := "lab"; log_name := "alice:lab" |}.

(** Collaborators that answer every request with success. *)
Definition calm_env (t : datetime) : Env :=
  {| now_at := fun _ => t;
     subprocess_at := fun _ => Ok (0%Z, "", "");
     remote_start_at := fun _ => Ok (VStr "");
     remote_stop_at := fun _ => Ok tt;
     remote_poll_at := fun _ => Ok VNone;
     user_stop_at := fun _ => Ok tt;
     hook_at := fun _ => Ok VNone;
     custom_svc_at := fun _ => Ok ("svc", 8080%Z);
     forward_cmd_at := fun _ => Ok ("jupyterhuboutpost", "outpost", ["ssh"; "-f"; "-N"; "-n"]);
     k8s_at := fun _ => Ok tt;
     random_port_at := fun _ => 50000%Z;
     commit_at := fun _ => Ok tt |}.

Definition noon : datetime := Datetime 2024 1 2 12 0 0 0.

Definition new_world : World := {| sp := new_spawner; trace := [] |}.

Definition plain_stop : stop_call :=
  {| call_now := false; call_cancel := false; call_event := default_stop_event |}.

(** Collaborators as in [calm_env], with a subclass whose [_stop] fails. *)
Definition unreachable : exn := PyException "outpost unreachable".

Definition failing_stop_env : Env :=
  {| now_at := fun _ => noon;
     subprocess_at := fun _ => Ok (0%Z, "", "");
     remote_start_at := fun _ => Ok (VStr "");
     remote_stop_at := fun _ => Raise unreachable;
     remote_poll_at := fun _ => Ok VNone;
     user_stop_at := fun _ => Ok tt;
     hook_at := fun _ => Ok VNone;
     custom_svc_at := fun _ => Ok ("svc", 8080%Z);
     forward_cmd_at := fun _ => Ok ("jupyterhuboutpost", "outpost", ["ssh"; "-f"; "-N"; "-n"]);
     k8s_at := fun _ => Ok tt;
     random_port_at := fun _ => 50000%Z;
     commit_at := fun _ => Ok tt |}.


(** The clock as a method reads it in world [w]. *)
Definition clock (env : Env) (w : World) : datetime :=
  now_at env (List.length (trace w)).

(** Whether the loop of [get_state] keeps a group: the verdict on its
    first event at clock time [now], or the exception that reading the
    timestamp raises. *)
Definition group_verdict (now : datetime) (value : list pyval) : res bool :=
  match value with
  | [] => Ok false
  | first :: _ =>
      if truthy first then
        match _get_event_time first with
        | Raise e => Raise e
        | Ok stime =>
            match strptime stime with
            | Raise e => Raise e
            | Ok dtime => Ok (delta_days now dtime =? 0)%Z
            end
        end
      else Ok false
  end.

Definition kept (now : datetime) (group : string * list pyval) : bool :=
  match group_verdict now group.2 with
  | Ok true => true
  | _ => false
  end.

(** The event store once [events["latest"] = latest_events] has run. *)
Definition event_store (s : Spawner) : list (string * list pyval) :=
  dict_set "latest" (latest_events s) (events s).

(** The report of a cancelled start that api_events.py turns into a stop
    with the closure [cancel_stop_event]. *)
Definition cancel_report : dict :=
  [("failed", VBool true);
   ("html_message", VStr ("<details><summary>" ++ user_cancel_message))].


Definition with_log (log : list pyval) : World :=
  {| sp := set_events [("latest", log)] (set_latest_events log new_spawner); trace := [] |}.

Definition message_event (m : string) : pyval :=
  VDict [("failed", VBool false); ("progress", VInt 50); ("html_message", VStr m)].

Definition stale_event : pyval :=
  message_event "<details><summary>2024_01_01 09:00:00.000: Submitted</summary></details>".

Definition recent_event : pyval :=
  message_event "<details><summary>2024_01_02 11:59:00.000: Running</summary></details>".

(** An event stamped one second after [noon]. *)
Definition future_event : pyval :=
  message_event "<details><summary>2024_01_02 12:00:01.000: Running</summary></details>".

(** ** The progress callback, case by case *)

(** The guard of api_events.py, line 64. *)
Definition stop_already_pending (s : Spawner) : bool :=
  bool_decide (pending s = Some "stop") || already_stopped s.

(** The test of line 68: the report is a failure. *)
Definition is_failure (event : dict) : bool :=
  truthy (VDict event) && truthy (get_default "failed" (VBool false) event).

(** What lines 113-120 make of the event in world [w]: the answer of the
    configured filter, with [{}] for an exception and for [None]. *)
Definition filtered_event (cfg : Config) (env : Env) (w : World) (event : dict) : pyval :=
  if filter_events cfg then
    match hook_at env (List.length (trace w)) with
    | Ok v => if is_none v then VDict [] else v
    | Raise _ => VDict []
    end
  else VDict event.

(** The world once the configured filter has been asked. *)
Definition filtered_world (cfg : Config) (env : Env) (w : World) : World :=
  if filter_events cfg then
    {| sp := sp w;
       trace := trace w ++ [EHook "filter_events" (hook_at env (List.length (trace w)))] |}
  else w.

(** The message that lines 130-137 look at is text. *)
Definition text_message (event : dict) : bool :=
  match get_default "html_message" (get_default "message" (VStr "") event) event with
  | VStr _ => true
  | _ => false
  end.

(** A session in the middle of a stop: [stop] has set its guard and the hub
    has set [_stop_pending]. *)
Definition stopping_world : World :=
  {| sp := {| port_forward_info := []; port := 50000;
              call_during_startup := false;
              already_stopped := true;
              already_post_stop_hooked := false;
              _cancel_event_yielded := false;
              latest_events := []; events := [];
              stop_event := default_stop_event;
              _spawn_pending := false; _stop_pending := true; _check_pending := false |};
     trace := [] |}.

Definition progress_report : dict :=
  [("progress", VInt 50); ("failed", VBool false);
   ("html_message", VStr "<details><summary>Submitted</summary>queued</details>")].

(** ** Start and the remote forward *)

Definition is_remote_start (e : effect) : bool :=
  match e with ERemoteStart _ => true | _ => false end.

(** [ssh_create_remote_forward] resolved to a true value: the trait holds
    one, or the trace shows the callable returning one. *)
Definition remote_forward_required (cfg : Config) (t : list effect) : Prop :=
  match ssh_create_remote_forward cfg with
  | Static b => b = true
  | Callable => exists v, In (EHook "ssh_create_remote_forward" (Ok v)) t /\ truthy v = true
  end.

(** The tunnel error that ends a start whose remote forward could not be
    set up (lines 1384-1388). *)
Definition remote_tunnel_error (cfg : Config) (e : exn) : exn :=
  HTTPError 419 ("Cannot start remote ssh tunnel for " ++ log_name cfg ++ ": " ++ exn_str e) None.

(** The effects that the start of a session is told by. *)
Definition start_mark (e : effect) : bool :=
  match e with
  | ERemoteStart _ => true
  | EHook n _ =>
      String.eqb n "ssh_create_remote_forward" || String.eqb n "ssh_custom_forward_remote"
  | _ => false
  end.

(** A site that asks for the remote forward and sets it up with a
    function of its own, and one that leaves it to the default function. *)
Definition remote_config : Config :=
  {| post_stop_hook := false; filter_events := false;
     ssh_custom_forward := false; ssh_custom_forward_remove := false;
     ssh_custom_svc := false; ssh_custom_svc_remove := false;
     ssh_custom_forward_remote := true;
     ssh_create_remote_forward := Static true;
     ssh_recreate_at_start := Static true;
     ssh_during_startup := Static false;
     extra_labels_callable := false;
     internal_ssl := false;
     svc_name := "jupyter-alice--lab"; name := "lab"; log_name := "alice:lab" |}.

Definition remote_default_config : Config :=
  {| post_stop_hook := false; filter_events := false;
     ssh_custom_forward := false; ssh_custom_forward_remove := false;
     ssh_custom_svc := false; ssh_custom_svc_remove := false;
     ssh_custom_forward_remote := false;
     ssh_create_remote_forward := Static true;
     ssh_recreate_at_start := Static true;
     ssh_during_startup := Static false;
     extra_labels_callable := false;
     internal_ssl := false;
     svc_name := "jupyter-alice--lab"; name := "lab"; log_name := "alice:lab" |}.

(** ** Requests to the multiplexed connection

    A subprocess command that extends the base command [base] by
    [-O <request> <binding> <user@node>], with its outcome.  The [check]
    request and the connecting command have other shapes. *)
Definition control_request (base : list string) (e : effect)
  : option (string * string * string * res (Z * string * string)) :=
  match e with
  | ESubprocess cmd _ r =>
      match drop (List.length base) cmd with
      | [option; request; l; tg] =>
          if String.eqb option "-O" then Some (request, l, tg, r) else None
      | _ => None
      end
  | _ => None
  end.

Definition control_requests (base : list string) (t : list effect)
  : list (string * string * string * res (Z * string * string)) :=
  omap (control_request base) t.

Definition returned_zero (r : res (Z * string * string)) : bool :=
  match r with
  | Ok (rc, _, _) => (rc =? 0)%Z
  | Raise _ => false
  end.

(** A session whose connection info names the remote service. *)
Definition served_world : World :=
  {| sp := set_port 50000
             (set_port_forward_info [("service", VStr "http://lab.remote:8888")] new_spawner);
     trace := [] |}.

(** The collaborators of [calm_env], except for the subprocesses: the
    answers to the first requests are listed, later ones succeed. *)
Definition ssh_env (answers : list (res (Z * string * string))) : Env :=
  {| now_at := fun _ => noon;
     subprocess_at := fun n => default (Ok (0%Z, "", "")) (answers !! n);
     remote_start_at := fun _ => Ok (VStr "");
     remote_stop_at := fun _ => Ok tt;
     remote_poll_at := fun _ => Ok VNone;
     user_stop_at := fun _ => Ok tt;
     hook_at := fun _ => Ok VNone;
     custom_svc_at := fun _ => Ok ("svc", 8080%Z);
     forward_cmd_at := fun _ => Ok ("jupyterhuboutpost", "outpost", ["ssh"; "-f"; "-N"; "-n"]);
     k8s_at := fun _ => Ok tt;
     random_port_at := fun _ => 50000%Z;
     commit_at := fun _ => Ok tt |}.

Definition exit_code (rc : Z) : res (Z * string * string) := Ok (rc, "", "").

(** Position 0 is [get_forward_cmd], 1 the [check], 2 the [forward], 3 the
    [cancel], 4 the second [forward]. *)
Definition cancel_times_out : Env :=
  ssh_env [exit_code 0; exit_code 0; exit_code 255; Raise TimeoutExpired].

Definition stale_binding : Env :=
  ssh_env [exit_code 0; exit_code 0; exit_code 255; exit_code 0; exit_code 0].

(** ** The connection-info callback *)


(** [port_forward_info.update(json_body)] *)
Definition merged_info (s : Spawner) (payload : dict) : dict :=
  dict_update (port_forward_info s) payload.



Definition tunnel_payload : dict :=
  [("service", VStr "http://lab.remote:8888"); ("ssh_node", VStr "login.remote")].

Definition stop_pending_world : World :=
  {| sp := {| port_forward_info := []; port := 50000;
              call_during_startup := false;
              already_stopped := false;
              already_post_stop_hooked := false;
              _cancel_event_yielded := false;
              latest_events := []; events := [];
              stop_event := default_stop_event;
              _spawn_pending := false; _stop_pending := true; _check_pending := false |};
     trace := [] |}.

(** * Class-level containers

    [port_forward_info = {}], [latest_events = []] and [events = {}] are
    written in the class body (forward.py, lines 59, 76, 77): each creates
    one object, when the class is created, and binds it to a name of the
    class.  Reading [self.latest_events] finds the instance's own binding
    if there is one and the binding of the class otherwise; [__init__]
    (lines 1246-1253) binds none of the three.  The method bodies above
    take one spawner with its containers; here the class, the instances and
    their bindings are in view, and the method bodies run on what the
    attribute lookup gives them. *)

Module Sessions.

(** The three objects the class body creates, as the class holds them. *)
Record Class := {
  cls_port_forward_info : dict;
  cls_latest_events : list pyval;
  cls_events : list (string * list pyval)
}.

(** An instance: the objects it has bindings of its own for, and its other
    attributes (of [attrs], the three container fields are not read). *)
Record Instance := {
  own_port_forward_info : option dict;
  own_latest_events : option (list pyval);
  own_events : option (list (string * list pyval));
  attrs : Spawner
}.

(** The hub: the class, every user's spawners by server name, and what has
    happened so far. *)
Record Hub := {
  cls : Class;
  users : gmap string (gmap string Instance);
  log : list effect
}.

(** [self.port_forward_info], [self.latest_events], [self.events]: the
    instance's binding if it has one, the binding of the class otherwise. *)
Definition attr_port_forward_info (c : Class) (i : Instance) : dict :=
  default (cls_port_forward_info c) (own_port_forward_info i).

Definition attr_latest_events (c : Class) (i : Instance) : list pyval :=
  default (cls_latest_events c) (own_latest_events i).

Definition attr_events (c : Class) (i : Instance) : list (string * list pyval) :=
  default (cls_events c) (own_events i).

(** The spawner as a method body reads it. *)
Definition self (c : Class) (i : Instance) : Spawner :=
  set_port_forward_info (attr_port_forward_info c i)
    (set_latest_events (attr_latest_events c i)
       (set_events (attr_events c i) (attrs i))).

(** What a method that changes the containers in place leaves behind: the
    change is to the object that the name was read from, the instance's own
    or the one of the class. *)
Definition class_after (c : Class) (i : Instance) (s : Spawner) : Class :=
  {| cls_port_forward_info :=
       match own_port_forward_info i with
       | Some _ => cls_port_forward_info c
       | None => port_forward_info s
       end;
     cls_latest_events :=
       match own_latest_events i with
       | Some _ => cls_latest_events c
       | None => latest_events s
       end;
     cls_events :=
       match own_events i with
       | Some _ => cls_events c
       | None => events s
       end |}.

Definition instance_after (i : Instance) (s : Spawner) : Instance :=
  {| own_port_forward_info :=
       match own_port_forward_info i with
       | Some _ => Some (port_forward_info s)
       | None => None
       end;
     own_latest_events :=
       match own_latest_events i with
       | Some _ => Some (latest_events s)
       | None => None
       end;
     own_events :=
       match own_events i with
       | Some _ => Some (events s)
       | None => None
       end;
     attrs := s |}.

(** [self.find_user(user_name)] and [user.spawners[server_name]] *)
Definition find_spawner (user_name server_name : string) (h : Hub) : option Instance :=
  match users h !! user_name with
  | Some spawners => spawners !! server_name
  | None => None
  end.

Definition put_spawner (user_name server_name : string) (i : Instance)
    (us : gmap string (gmap string Instance)) : gmap string (gmap string Instance) :=
  <[user_name := <[server_name := i]> (default ∅ (us !! user_name))]> us.

(** The world a handler runs in when it is called for instance [i]. *)
Definition world_of (h : Hub) (i : Instance) : World :=
  {| sp := self (cls h) i; trace := log h |}.

(** A handler called for one spawner of the hub. *)
Definition call {A} (m : M A) (user_name server_name : string) (h : Hub) : res A * Hub :=
  match find_spawner user_name server_name h with
  | None => (Raise (HTTPError 404 "" None), h)
  | Some i =>
      let r := m (world_of h i) in
      (r.1,
       {| cls := class_after (cls h) i (sp r.2);
          users := put_spawner user_name server_name (instance_after i (sp r.2)) (users h);
          log := trace r.2 |})
  end.

(** The two callbacks, for the spawner [user_name]/[server_name].  What
    they do to the three containers they do in place:
    [latest_events.append] (api_events.py, line 151; forward.py, line 1511),
    [port_forward_info.update] (api_setup_tunnel.py, line 63),
    [events["latest"] = ...] and [del events[key]] (forward.py, lines
    586-599). *)
Definition progress_post (cfg : Config) (env : Env) (user_name server_name : string)
    (body : option dict) : Hub -> res Response * Hub :=
  call (events_post cfg env true true body) user_name server_name.

Definition tunnel_post (cfg : Config) (env : Env) (user_name server_name : string)
    (body : option dict) : Hub -> res Response * Hub :=
  call (setup_tunnel_post cfg env true true body) user_name server_name.

(** The spawner of a session as the next handler reads it. *)
Definition spawner_of (user_name server_name : string) (h : Hub) : option Spawner :=
  self (cls h) <$> find_spawner user_name server_name h.

(** [self.port_forward_info = {}] of [clear_state] (forward.py, line 620)
    binds a new object to the instance. *)
Definition clear_instance (i : Instance) : Instance :=
  {| own_port_forward_info := Some [];
     own_latest_events := own_latest_events i;
     own_events := own_events i;
     attrs := clear_state (attrs i) |}.

Definition new_instance : Instance :=
  {| own_port_forward_info := None; own_latest_events := None; own_events := None;
     attrs := new_spawner |}.

(** The hub after the class body has run and two users have been given a
    spawner each. *)
Definition two_sessions : Hub :=
  {| cls := {| cls_port_forward_info := []; cls_latest_events := []; cls_events := [] |};
     users := <["alice" := {["lab" := new_instance]}]> {["bob" := {["lab" := new_instance]}]};
     log := [] |}.

End Sessions.

(** A site with a post-stop hook, and a session driven along all three
    ways, more than once. *)
Definition hook_config : Config :=
  {| post_stop_hook := true; filter_events := false;
     ssh_custom_forward := false; ssh_custom_forward_remove := false;
     ssh_custom_svc := false; ssh_custom_svc_remove := false;
     ssh_custom_forward_remote := false;
     ssh_create_remote_forward := Static false;
     ssh_recreate_at_start := Static true;
     ssh_during_startup := Static false;
     extra_labels_callable := false;
     internal_ssl := false;
     svc_name := "jupyter-alice--lab"; name := "lab"; log_name := "alice:lab" |}.

Definition many_paths : list path :=
  [ViaPoll; ViaHook; ViaStop false true default_stop_event; ViaHook; ViaPoll; ViaHook].

(** * The rest of the lifecycle: persistence, the spawn guard, the handlers' other paths *)

(** ** [load_state] (forward.py, lines 603-613)

    The saved state is a JSON object.  The record [Spawner] holds the
    connection info as a dict, the port as an integer and the event store as
    a dict of lists, which is what [get_state] saves; [load_state] gives
    [None] for a state with a value of another shape, which the record has
    no place for. *)

Definition as_dict (v : pyval) : option dict :=
  match v with VDict d => Some d | _ => None end.

Definition as_int (v : pyval) : option Z :=
  match v with VInt n => Some n | _ => None end.

Definition as_group (kv : string * pyval) : option (string * list pyval) :=
  match kv.2 with VList l => Some (kv.1, l) | _ => None end.

Definition as_events (v : pyval) : option (list (string * list pyval)) :=
  match v with VDict d => mapM as_group d | _ => None end.

Definition load_port_forward_info (state : dict) (s : Spawner) : option Spawner :=
  match dict_get "port_forward_info" state with
  | Some v => option_map (fun d => set_port_forward_info d s) (as_dict v)
  | None => Some s
  end.

Definition load_events (state : dict) (s : Spawner) : option Spawner :=
  match dict_get "events" state with
  | Some v =>
      option_map
        (fun evs =>
           let s := set_events evs s in
           match dict_get "latest" evs with
           | Some latest => set_latest_events latest s
           | None => s
           end)
        (as_events v)
  | None => Some s
  end.

Definition load_port (state : dict) (s : Spawner) : option Spawner :=
  match dict_get "port" state with
  | Some v => option_map (fun p => set_port p s) (as_int v)
  | None => Some s
  end.

Definition load_state (state : dict) (s : Spawner) : option Spawner :=
  match load_port_forward_info state s with
  | Some s =>
      match load_events state s with
      | Some s => load_port state s
      | None => None
      end
  | None => None
  end.

(** The world once the hub has called [clear_state]. *)
Definition cleared (w : World) : World := {| sp := clear_state (sp w); trace := trace w |}.

Definition stopping_message : string := "Server is in the process of stopping, please wait.".

Section Guards.

Variable cfg : Config.
Variable env : Env.

(** [run_pre_spawn_hook] (forward.py, lines 507-512); [pre_spawn_hook] is a
    trait of the base class, here whether it is set. *)
Definition run_pre_spawn_hook (pre_spawn_hook : bool) : M pyval :=
  self <- get_self ;;
  if already_stopped self then raise (PyException stopping_message)
  else if pre_spawn_hook then call_hook env "pre_spawn_hook"
  else ret VNone.

End Guards.

(** ** Kinds of effects *)

Definition is_subprocess (e : effect) : bool :=
  match e with ESubprocess _ _ _ => true | _ => false end.

(** The connecting command is the one run with a timeout of one second. *)
Definition is_connect (e : effect) : bool :=
  match e with ESubprocess _ timeout _ => (timeout =? 1)%Z | _ => false end.

Definition is_create_service (e : effect) : bool :=
  match e with EK8s CreateService _ => true | _ => false end.

Definition is_delete_service (e : effect) : bool :=
  match e with EK8s DeleteService _ => true | _ => false end.

(** Anything that publishes the endpoint: the Kubernetes calls that read
    the hub's service and create the user's, the labels hook, the custom
    function. *)
Definition is_endpoint_publication (e : effect) : bool :=
  match e with
  | EK8s ReadHubService _ | EK8s CreateService _ | ECustomSvc _ => true
  | EHook n _ => String.eqb n "extra_labels"
  | _ => false
  end.

Definition is_remote_forward_cmd (e : effect) : bool :=
  match e with EForwardCmd true _ => true | _ => false end.

Definition is_user_stop (e : effect) : bool :=
  match e with EUserStop _ => true | _ => false end.

Definition is_filter_call (e : effect) : bool :=
  match e with EHook n _ => String.eqb n "filter_events" | _ => false end.

(** [stays_unset g]: a flag that is unset stays unset. *)
Definition stays_unset (g : Spawner -> bool) : track :=
  fun s _ s' => g s = false -> g s' = false.

(** Collaborators as in [calm_env], with a subclass whose [_start] fails
    with [e]. *)
Definition failing_start_env (e : exn) : Env :=
  {| now_at := fun _ => noon;
     subprocess_at := fun _ => Ok (0%Z, "", "");
     remote_start_at := fun _ => Raise e;
     remote_stop_at := fun _ => Ok tt;
     remote_poll_at := fun _ => Ok VNone;
     user_stop_at := fun _ => Ok tt;
     hook_at := fun _ => Ok VNone;
     custom_svc_at := fun _ => Ok ("svc", 8080%Z);
     forward_cmd_at := fun _ => Ok ("jupyterhuboutpost", "outpost", ["ssh"; "-f"; "-N"; "-n"]);
     k8s_at := fun _ => Ok tt;
     random_port_at := fun _ => 50000%Z;
     commit_at := fun _ => Ok tt |}.

(** A report of a failure that is not a cancel by the user. *)
Definition failure_report : dict :=
  [("failed", VBool true); ("progress", VInt 100);
   ("html_message", VStr "<details><summary>Job failed</summary>out of memory</details>")].

(** A session whose connection info cannot be used: the service address
    has no port. *)
Definition tunnel_env : Env := ssh_env [].

Definition bad_payload : dict := [("service", VStr "lab.remote")].
(** * Proofs *)

Section Obeys.

Context (R : track) `{!Composes R}.

Lemma obeys_ret {A} (a : A) : obeys R (ret a).
Proof. intros w. exists []. simpl. rewrite app_nil_r. split; [done | apply track_nil]. Qed.

Lemma obeys_raise {A} (e : exn) : obeys R (raise (A := A) e).
Proof. intros w. exists []. simpl. rewrite app_nil_r. split; [done | apply track_nil]. Qed.

Lemma obeys_lift {A} (r : res A) : obeys R (lift r).
Proof. intros w. exists []. simpl. rewrite app_nil_r. split; [done | apply track_nil]. Qed.

Lemma obeys_get_self : obeys R get_self.
Proof. intros w. exists []. simpl. rewrite app_nil_r. split; [done | apply track_nil]. Qed.

Lemma obeys_datetime_now env : obeys R (datetime_now env).
Proof. intros w. exists []. simpl. rewrite app_nil_r. split; [done | apply track_nil]. Qed.

Lemma obeys_update_self (f : Spawner -> Spawner) :
  (forall s, R s [] (f s)) -> obeys R (update_self f).
Proof. intros H w. exists []. simpl. rewrite app_nil_r. split; [done | apply H]. Qed.

Lemma obeys_mark (e : effect) : (forall s, R s [e] s) -> obeys R (mark e).
Proof. intros H w. exists [e]. simpl. split; [done | apply H]. Qed.

Lemma obeys_interact {A} (answer : nat -> A) (record : A -> effect) :
  (forall s a, R s [record a] s) -> obeys R (interact answer record).
Proof. intros H w. eexists [_]. simpl. split; [done | apply H]. Qed.

Lemma obeys_at_bind {A B} (m : M A) (k : A -> M B) (w : World) :
  obeys_at R m w ->
  (forall a, (m w).1 = Ok a -> obeys_at R (k a) (m w).2) ->
  obeys_at R (bind m k) w.
Proof.
  intros (t1 & Ht1 & H1) Hk. unfold obeys_at, bind in *.
  destruct (m w) as [[a | e] w1] eqn:E; simpl in *.
  - destruct (Hk a eq_refl) as (t2 & Ht2 & H2).
    exists (t1 ++ t2)%list. rewrite Ht2, Ht1, app_assoc. split; [done |].
    eapply track_app; eauto.
  - exists t1. split; [done |]. exact H1.
Qed.

Lemma obeys_bind {A B} (m : M A) (k : A -> M B) :
  obeys R m -> (forall a, obeys R (k a)) -> obeys R (bind m k).
Proof. intros Hm Hk w. apply obeys_at_bind; [apply Hm |]. intros a _. apply Hk. Qed.

Lemma obeys_try_except {A} (m : M A) (h : exn -> M A) :
  obeys R m -> (forall e, obeys R (h e)) -> obeys R (try_except m h).
Proof.
  intros Hm Hh w. destruct (Hm w) as (t1 & Ht1 & H1). unfold obeys_at, try_except in *.
  destruct (m w) as [[a | e] w1] eqn:E; simpl in *.
  - exists t1. split; [done |]. exact H1.
  - destruct (Hh e w1) as (t2 & Ht2 & H2).
    exists (t1 ++ t2)%list. rewrite Ht2, Ht1, app_assoc. split; [done |].
    eapply track_app; eauto.
Qed.

Lemma obeys_try_finally {A} (m : M A) (f : M unit) :
  obeys R m -> obeys R f -> obeys R (try_finally m f).
Proof.
  intros Hm Hf w. destruct (Hm w) as (t1 & Ht1 & H1). unfold obeys_at, try_finally in *.
  destruct (m w) as [r w1] eqn:E; simpl in *.
  destruct (Hf w1) as (t2 & Ht2 & H2).
  assert (trace (f w1).2 = (trace w ++ (t1 ++ t2))%list) as Ht
    by (rewrite Ht2, Ht1, app_assoc; done).
  exists (t1 ++ t2)%list.
  destruct (f w1) as [[u | e] w2]; simpl in *; (split; [done | eapply track_app; eauto]).
Qed.

Lemma obeys_perform {A} (answer : nat -> res A) (record : res A -> effect) :
  (forall s r, R s [record r] s) -> obeys R (perform answer record).
Proof.
  intros H. unfold perform. apply obeys_bind; [by apply obeys_interact |].
  intros r. apply obeys_lift.
Qed.

End Obeys.

(** One step of a routine proof that a method obeys a relation. *)
Ltac obeys_step :=
  lazymatch goal with
  | |- obeys _ (bind _ _) => apply obeys_bind; [typeclasses eauto | | intros ?]
  | |- obeys _ (try_except _ _) => apply obeys_try_except; [typeclasses eauto | | intros ?]
  | |- obeys _ (try_finally _ _) => apply obeys_try_finally; [typeclasses eauto | |]
  | |- obeys _ (ret _) => apply obeys_ret; typeclasses eauto
  | |- obeys _ (respond _ _) => apply obeys_ret; typeclasses eauto
  | |- obeys _ (raise _) => apply obeys_raise; typeclasses eauto
  | |- obeys _ (lift _) => apply obeys_lift; typeclasses eauto
  | |- obeys _ get_self => apply obeys_get_self; typeclasses eauto
  | |- obeys _ (datetime_now _) => apply obeys_datetime_now; typeclasses eauto
  | |- obeys _ (maybe_future _) => apply obeys_ret; typeclasses eauto
  | |- obeys _ (if ?b then _ else _) => destruct b
  | |- obeys _ (match ?x with _ => _ end) => destruct x
  end.

Lemma obeys_weaken {A} (R1 R2 : track) (m : M A) :
  (forall s t s', R1 s t s' -> R2 s t s') -> obeys R1 m -> obeys R2 m.
Proof. intros H Hm w. destruct (Hm w) as (t & Ht & HR). exists t. auto. Qed.

Lemma count_app P t1 t2 : count P (t1 ++ t2) = count P t1 + count P t2.
Proof. unfold count. by rewrite List.filter_app, length_app. Qed.

#[export] Instance keeps_composes {X} P (g : Spawner -> X) : Composes (keeps P g).
Proof.
  split.
  - intros s. by split.
  - intros s t1 s1 t2 s2 [H1 G1] [H2 G2]. split.
    + rewrite count_app. lia.
    + congruence.
Qed.

#[export] Instance spends_composes P budget : Composes (spends P budget).
Proof.
  split.
  - intros s. unfold spends. simpl. lia.
  - intros s t1 s1 t2 s2 H1 H2. unfold spends in *. rewrite count_app. lia.
Qed.

Lemma since_app w w' t : trace w' = (trace w ++ t)%list -> since w w' = t.
Proof. intros H. unfold since. rewrite H. by rewrite drop_app_length. Qed.

Create HintDb methods.
#[export] Hint Unfold run_post_stop_hook run_filter_events subprocess_cmd
  get_forward_cmd get_forward_remote_cmd ssh_default_forward_remove
  ssh_default_forward ssh_default_forward_remote k8s ssh_default_svc
  ssh_default_svc_remove run_ssh_forward_remove run_ssh_forward
  cancel_start_function cancel stop poll resolve_address call_subclass_start start
  call_hook resolve respond : methods.

(** A method that calls no effect of the kind and assigns nowhere to the
    attribute keeps them: by running through its text. *)
Ltac keeps_leaf := intros; split; reflexivity.

Ltac obeys_keeps :=
  repeat first
    [ obeys_step
    | apply obeys_update_self; keeps_leaf
    | apply obeys_mark; keeps_leaf
    | apply obeys_interact; keeps_leaf
    | apply obeys_perform; [typeclasses eauto | keeps_leaf]
    | progress autounfold with methods ].

(** ** The post-stop hook *)

Section PostStopHook.

Variable cfg : Config.
Variable env : Env.

Lemma stop_keeps_hook now cancel_ event :
  obeys (keeps is_post_stop_hook already_post_stop_hooked) (stop cfg env now cancel_ event).
Proof. obeys_keeps. Qed.

Lemma run_ssh_forward_keeps_hook create_svc :
  obeys (keeps is_post_stop_hook already_post_stop_hooked) (run_ssh_forward cfg env create_svc).
Proof. obeys_keeps. Qed.

Lemma keeps_spends_hook s t s' :
  keeps is_post_stop_hook already_post_stop_hooked s t s' ->
  spends is_post_stop_hook hook_budget s t s'.
Proof. intros [H G]. unfold spends, hook_budget. rewrite H, G. lia. Qed.

Lemma run_post_stop_hook_guarded w :
  already_post_stop_hooked (sp w) = true ->
  run_post_stop_hook cfg env w = (Ok VNone, w).
Proof. intros H. unfold run_post_stop_hook, bind, get_self. by rewrite H. Qed.

Lemma run_post_stop_hook_sets_guard w :
  already_post_stop_hooked (sp (run_post_stop_hook cfg env w).2) = true.
Proof.
  unfold run_post_stop_hook, bind, get_self, update_self, try_except, call_hook,
    perform, interact, lift, ret.
  destruct (already_post_stop_hooked (sp w)) eqn:E; simpl; [done |].
  destruct (post_stop_hook cfg); simpl; [| done].
  by destruct (hook_at env _).
Qed.

Lemma run_post_stop_hook_spends :
  obeys (spends is_post_stop_hook hook_budget) (run_post_stop_hook cfg env).
Proof.
  intros w. unfold obeys_at, spends, hook_budget.
  pose proof (run_post_stop_hook_sets_guard w) as Hset. revert Hset.
  unfold run_post_stop_hook, bind, get_self, update_self, try_except, call_hook,
    perform, interact, lift, ret.
  destruct (already_post_stop_hooked (sp w)) eqn:E; simpl.
  - intros _. exists []. rewrite app_nil_r, E. simpl. split; [done | lia].
  - destruct (post_stop_hook cfg); simpl.
    + destruct (hook_at env _); simpl; intros _; eexists [_]; (split; [done |]);
        simpl; lia.
    + intros _. exists []. rewrite app_nil_r. simpl. split; [done | lia].
Qed.

Lemma poll_spends : obeys (spends is_post_stop_hook hook_budget) (poll cfg env).
Proof.
  assert (forall a b c, obeys (spends is_post_stop_hook hook_budget) (stop cfg env a b c)) as Hstop
    by (intros; eapply obeys_weaken; [apply keeps_spends_hook | apply stop_keeps_hook]).
  assert (forall b, obeys (spends is_post_stop_hook hook_budget) (run_ssh_forward cfg env b)) as Hfwd
    by (intros; eapply obeys_weaken; [apply keeps_spends_hook | apply run_ssh_forward_keeps_hook]).
  pose proof run_post_stop_hook_spends as Hhook.
  unfold poll.
  repeat first
    [ apply Hstop | apply Hfwd | apply Hhook
    | obeys_step
    | apply obeys_update_self; intros; unfold spends, hook_budget; simpl; lia
    | apply obeys_perform; [typeclasses eauto | intros; unfold spends; simpl; lia]
    | progress unfold resolve, call_hook ].
Qed.

Lemma follow_spends p w :
  exists t, trace (follow cfg env p w) = (trace w ++ t)%list /\
            spends is_post_stop_hook hook_budget (sp w) t (sp (follow cfg env p w)).
Proof.
  destruct p as [a b c | |]; simpl.
  - apply (obeys_weaken _ _ _ keeps_spends_hook (stop_keeps_hook a b c) w).
  - apply poll_spends.
  - apply run_post_stop_hook_spends.
Qed.

Lemma follow_all_spends ps w :
  exists t, trace (follow_all cfg env ps w) = (trace w ++ t)%list /\
            spends is_post_stop_hook hook_budget (sp w) t (sp (follow_all cfg env ps w)).
Proof.
  revert w. induction ps as [| p ps IH]; intros w; simpl.
  - exists []. rewrite app_nil_r. split; [done | apply track_nil].
  - destruct (follow_spends p w) as (t1 & Ht1 & H1).
    destruct (IH (follow cfg env p w)) as (t2 & Ht2 & H2).
    exists (t1 ++ t2)%list. rewrite Ht2, Ht1, app_assoc. split; [done |].
    eapply track_app; eauto.
Qed.

(** C9. However often and along whichever path ([stop], [poll],
    [run_post_stop_hook] itself) the session is driven, the body of the
    post-stop hook is called at most once; after one invocation of
    [run_post_stop_hook] the guard is set, and with the guard set an
    invocation returns at once, leaving the world as it was; nothing along
    these paths clears the guard. *)
Theorem post_stop_hook_at_most_once (ps : list path) (w : World) :
  count is_post_stop_hook (since w (follow_all cfg env ps w)) <= 1 /\
  already_post_stop_hooked (sp (run_post_stop_hook cfg env w).2) = true /\
  (forall w', already_post_stop_hooked (sp w') = true ->
     run_post_stop_hook cfg env w' = (Ok VNone, w') /\
     already_post_stop_hooked (sp (follow_all cfg env ps w')) = true /\
     count is_post_stop_hook (since w' (follow_all cfg env ps w')) = 0).
Proof.
  split; [| split].
  - destruct (follow_all_spends ps w) as (t & Ht & H).
    rewrite (since_app _ _ _ Ht). unfold spends, hook_budget in H.
    destruct (already_post_stop_hooked (sp w)); lia.
  - apply run_post_stop_hook_sets_guard.
  - intros w' Hw'. split; [by apply run_post_stop_hook_guarded |].
    destruct (follow_all_spends ps w') as (t & Ht & H).
    rewrite (since_app _ _ _ Ht). unfold spends, hook_budget in H.
    rewrite Hw' in H.
    destruct (already_post_stop_hooked (sp (follow_all cfg env ps w'))); [split; [done | lia] | lia].
Qed.

End PostStopHook.

(** ** Stop

    Proofs about a whole method body run it symbolically: the combinators
    are unfolded and every answer of the environment is split into its
    cases. *)

Ltac run_with tac :=
  cbv beta iota zeta delta
    [bind ret raise lift get_self update_self try_except try_finally perform
     interact mark maybe_future datetime_now respond fst snd sp trace
     k8s call_hook resolve subprocess_cmd get_forward_cmd get_forward_remote_cmd
     cancel_start_function cancel] in *;
  tac.

Ltac run := run_with idtac.

Ltac split_cases tac :=
  repeat (case_match; simplify_eq; run_with tac);
  repeat match goal with a : unit |- _ => destruct a end.

Section Stop.

Variable cfg : Config.
Variable env : Env.

(** Teardown never raises, leaves the spawner alone, and asks once for the
    endpoint to be removed and at most once for the tunnel. *)
Lemma run_ssh_forward_remove_spec (w : World) :
  exists t,
    run_ssh_forward_remove cfg env w = (Ok tt, {| sp := sp w; trace := trace w ++ t |}) /\
    count is_remote_stop t = 0 /\
    count is_endpoint_teardown t = 1 /\
    count is_tunnel_teardown t <= 1.
Proof.
  destruct w as [s tr].
  unfold run_ssh_forward_remove, ssh_default_forward_remove, ssh_default_svc_remove.
  run. split_cases idtac;
    rewrite <- ?app_assoc; eexists; (split; [reflexivity |]); cbn; lia.
Qed.

Lemma stop_guarded now cancel_ event (w : World) :
  already_stopped (sp w) = true -> stop cfg env now cancel_ event w = (Ok tt, w).
Proof. intros H. unfold stop, bind, get_self. by rewrite H. Qed.

Ltac use_teardown :=
  repeat match goal with
  | H : run_ssh_forward_remove _ _ ?w = _ |- _ =>
      let t := fresh "t" in
      let Ht := fresh "Ht" in
      destruct (run_ssh_forward_remove_spec w) as (t & Ht & ? & ? & ?);
      rewrite Ht in H; clear Ht; simplify_eq
  end.

Lemma stop_first now cancel_ event (w : World) :
  already_stopped (sp w) = false ->
  exists t,
    trace (stop cfg env now cancel_ event w).2 = (trace w ++ t)%list /\
    already_stopped (sp (stop cfg env now cancel_ event w).2) = true /\
    count is_remote_stop t = 1 /\
    count is_endpoint_teardown t <= 1 /\
    count is_tunnel_teardown t <= 1 /\
    (is_ok (stop cfg env now cancel_ event w).1 = true ->
     port_forward_info (sp w) <> [] ->
     count is_endpoint_teardown t = 1).
Proof.
  intros Hg. destruct w as [s tr]. unfold stop. run. rewrite Hg.
  destruct s; simpl in *. run.
  split_cases idtac; use_teardown; run;
    rewrite <- ?app_assoc; eexists; (split; [reflexivity |]);
    rewrite ?count_app; cbn; repeat split; try done; try lia.
Qed.

Lemma stop_all_guarded (cs : list stop_call) (w : World) :
  already_stopped (sp w) = true -> stop_all cfg env cs w = w.
Proof.
  intros H. induction cs as [| c cs IH]; simpl; [done |].
  unfold do_stop. by rewrite stop_guarded.
Qed.

(** What [stop] leaves in the event log: a truthy event is appended as it
    was passed, whether the remote stop call returned or raised. *)
Lemma stop_appends now cancel_ event (w : World) :
  already_stopped (sp w) = false ->
  truthy event = true ->
  latest_events (sp (stop cfg env now cancel_ event w).2) =
  (latest_events (sp w) ++ [event])%list.
Proof.
  intros Hg Ht. destruct w as [s tr]. unfold stop. run. rewrite Hg, Ht.
  destruct s; simpl in *. run.
  split_cases idtac; use_teardown; run; reflexivity.
Qed.


(** C3. After the remote stop call, whatever its outcome, the event given
    to [stop] is appended to the event log.  A function-valued event is
    appended as the function object it is: [maybe_future] does not call it,
    so the entry is not a dict and carries no timestamp. *)
Theorem stop_function_event_unresolved now cancel_ (body : datetime -> pyval) (w : World) :
  already_stopped (sp w) = false ->
  latest_events (sp (stop cfg env now cancel_ (VFunc body) w).2) =
    (latest_events (sp w) ++ [VFunc body])%list /\
  is_dict (VFunc body) = false /\
  exists r, In (ERemoteStop now r) (since w (stop cfg env now cancel_ (VFunc body) w).2).
Proof.
  intros Hg. split; [by apply stop_appends | split; [done |]].
  destruct w as [s tr]. unfold stop, since. run. rewrite Hg.
  destruct s; simpl in *. run.
  split_cases idtac; use_teardown; run;
    rewrite <- ?app_assoc, ?drop_app_length; eexists; cbn;
    rewrite ?in_app_iff; cbn; eauto 6.
Qed.

End Stop.

Section StopOnce.

Variable cfg : Config.
Variable env : Env.

(** Teardown, with its requests counted exactly. *)
Lemma run_ssh_forward_remove_exact (w : World) :
  exists t,
    run_ssh_forward_remove cfg env w = (Ok tt, {| sp := sp w; trace := trace w ++ t |}) /\
    count is_remote_stop t = 0 /\
    count is_failed_stop_call t = 0 /\
    count is_endpoint_teardown t = 1 /\
    count is_tunnel_teardown t = (if tunnel_removal_asked cfg (port_forward_info (sp w)) t then 1 else 0).
Proof.
  destruct w as [s tr].
  unfold run_ssh_forward_remove, ssh_default_forward_remove, ssh_default_svc_remove,
    tunnel_removal_asked.
  run. split_cases idtac;
    rewrite <- ?app_assoc; eexists; (split; [reflexivity |]); cbn; done.
Qed.

Ltac use_teardown_exact :=
  repeat match goal with
  | H : run_ssh_forward_remove _ _ ?w = _ |- _ =>
      let t := fresh "t" in
      let Ht := fresh "Ht" in
      destruct (run_ssh_forward_remove_exact w) as (t & Ht & ? & ? & ? & ?);
      rewrite Ht in H; clear Ht; simplify_eq
  end.

Lemma stop_first_exact now cancel_ event (w : World) :
  already_stopped (sp w) = false ->
  exists t,
    trace (stop cfg env now cancel_ event w).2 = (trace w ++ t)%list /\
    count is_remote_stop t = 1 /\
    is_ok (stop cfg env now cancel_ event w).1 = (count is_failed_stop_call t =? 0)%nat /\
    count is_endpoint_teardown t =
      (if teardown_reached (stop cfg env now cancel_ event w).1 (port_forward_info (sp w))
       then 1 else 0) /\
    count is_tunnel_teardown t =
      (if teardown_reached (stop cfg env now cancel_ event w).1 (port_forward_info (sp w))
          && tunnel_removal_asked cfg (port_forward_info (sp w)) t then 1 else 0).
Proof.
  intros Hg. destruct w as [s tr]. unfold stop, teardown_reached. run. rewrite Hg.
  destruct s; simpl in *. run.
  split_cases idtac; use_teardown_exact; run.
  all: rewrite <- ?app_assoc; eexists; (split; [reflexivity |]).
  all: unfold tunnel_removal_asked in *; rewrite ?count_app in *.
  all: try (set (ok := is_ok (split_service_address _)) in *; clearbody ok).
  all: cbn in *.
  all: repeat match goal with H : count _ _ = _ |- _ => rewrite H end.
  all: repeat match goal with
       | H : remote_stop_at _ _ = _ |- _ => rewrite H
       | H : user_stop_at _ _ = _ |- _ => rewrite H
       end.
  all: cbn.
  all: done.
Qed.

(** C1, as the code has it. Once the guard [already_stopped] is set, a call
    to [stop] returns at once and leaves the world (spawner and trace) as
    it was: no remote stop call, no event appended, no teardown.  The first
    call sets the guard, so any number of further calls end in the world
    the first call left, and over all of them the remote stop call is made
    exactly once.  The first call returns exactly when neither the remote
    stop call nor the user's stop raised.  The teardown is made exactly
    once when the first call got to it, that is when it returned and the
    session has connection info: the endpoint's removal is then requested
    exactly once, and the tunnel's exactly once when the custom function is
    set or the default one can build its command.  Otherwise it is not made
    at all, by no call. *)
Theorem stop_idempotent (first : stop_call) (more : list stop_call) (w : World) :
  already_stopped (sp w) = false ->
  already_stopped (sp (do_stop cfg env first w).2) = true /\
  (forall c w', already_stopped (sp w') = true -> do_stop cfg env c w' = (Ok tt, w')) /\
  stop_all cfg env (first :: more) w = (do_stop cfg env first w).2 /\
  count is_remote_stop (since w (stop_all cfg env (first :: more) w)) = 1 /\
  is_ok (do_stop cfg env first w).1 =
    (count is_failed_stop_call (since w (stop_all cfg env (first :: more) w)) =? 0)%nat /\
  count is_endpoint_teardown (since w (stop_all cfg env (first :: more) w)) =
    (if teardown_reached (do_stop cfg env first w).1 (port_forward_info (sp w))
     then 1 else 0) /\
  count is_tunnel_teardown (since w (stop_all cfg env (first :: more) w)) =
    (if teardown_reached (do_stop cfg env first w).1 (port_forward_info (sp w))
        && tunnel_removal_asked cfg (port_forward_info (sp w))
             (since w (stop_all cfg env (first :: more) w))
     then 1 else 0).
Proof.
  intros Hg.
  destruct (stop_first cfg env (call_now first) (call_cancel first) (call_event first) w Hg)
    as (t0 & Ht0 & Hset & _).
  destruct (stop_first_exact (call_now first) (call_cancel first) (call_event first) w Hg)
    as (t & Ht & Hstop & Hok & Hend & Htun).
  assert (stop_all cfg env (first :: more) w = (do_stop cfg env first w).2) as Hall
    by (simpl; by apply stop_all_guarded).
  rewrite Hall. unfold do_stop in *. rewrite (since_app _ _ _ Ht).
  repeat split; try done.
  intros c w' Hw'. by apply stop_guarded.
Qed.

End StopOnce.

Lemma stop_idempotent_witness :
  already_stopped (sp served_world) = false /\
  count is_remote_stop
    (since served_world
       (stop_all default_config (calm_env noon) [plain_stop; plain_stop; plain_stop]
          served_world)) = 1 /\
  count is_endpoint_teardown
    (since served_world
       (stop_all default_config (calm_env noon) [plain_stop; plain_stop; plain_stop]
          served_world)) = 1 /\
  count is_tunnel_teardown
    (since served_world
       (stop_all default_config (calm_env noon) [plain_stop; plain_stop; plain_stop]
          served_world)) = 1.
Proof.
  split; [reflexivity |].
  destruct (stop_idempotent default_config (calm_env noon) plain_stop [plain_stop; plain_stop]
              served_world eq_refl) as (_ & _ & _ & Hstop & _ & Hend & Htun).
  split; [exact Hstop |]. split; [exact Hend | exact Htun].
Defined.

(** The remote stop call of a session with connection info fails: however
    often [stop] is called, neither the tunnel nor the endpoint is ever
    removed. *)
Lemma failed_stop_skips_teardown_counterexample :
  port_forward_info (sp served_world) <> [] /\
  count is_remote_stop
    (since served_world
       (stop_all default_config failing_stop_env [plain_stop; plain_stop; plain_stop]
          served_world)) = 1 /\
  count is_tunnel_teardown
    (since served_world
       (stop_all default_config failing_stop_env [plain_stop; plain_stop; plain_stop]
          served_world)) = 0 /\
  count is_endpoint_teardown
    (since served_world
       (stop_all default_config failing_stop_env [plain_stop; plain_stop; plain_stop]
          served_world)) = 0.
Proof. split; [discriminate |]. repeat split; vm_compute; reflexivity. Qed.



Lemma stop_function_event_unresolved_witness :
  already_stopped (sp new_world) = false /\
  latest_events
    (sp (stop default_config (calm_env noon) false true cancel_stop_event new_world).2) =
  [cancel_stop_event].
Proof.
  split; [reflexivity |].
  exact (proj1 (stop_function_event_unresolved default_config (calm_env noon) false true _
                  new_world eq_refl)).
Defined.

(** The same through the handler: the log of the session ends up holding
    the closure. *)
Example cancel_report_logs_function :
  (events_post default_config (calm_env noon) true true (Some cancel_report) new_world).1
    = Ok {| status := 204; written := "" |} /\
  latest_events
    (sp (events_post default_config (calm_env noon) true true (Some cancel_report)
           new_world).2) = [cancel_stop_event].
Proof. split; reflexivity. Qed.

(** ** State saving and the event store *)

Lemma dict_get_app_notin {V} (k : string) (pre suf : list (string * V)) :
  k ∉ dict_keys pre -> dict_get k (pre ++ suf)%list = dict_get k suf.
Proof.
  induction pre as [| [k' v'] pre IH]; simpl; [done |].
  intros Hk. apply not_elem_of_cons in Hk as [Hne Hk].
  destruct (String.eqb_spec k k'); [done | by apply IH].
Qed.

Lemma dict_del_app_notin {V} (k : string) (pre suf : list (string * V)) :
  k ∉ dict_keys pre -> dict_del k (pre ++ suf)%list = (pre ++ dict_del k suf)%list.
Proof.
  induction pre as [| [k' v'] pre IH]; simpl; [done |].
  intros Hk. apply not_elem_of_cons in Hk as [Hne Hk].
  destruct (String.eqb_spec k k'); [done | by rewrite IH].
Qed.

Lemma dict_keys_set {V} (k : string) (v : V) (d : list (string * V)) :
  dict_keys (dict_set k v d) =
  if bool_decide (k ∈ dict_keys d) then dict_keys d else (dict_keys d ++ [k])%list.
Proof.
  induction d as [| [k' v'] d IH]; simpl; [done |].
  destruct (String.eqb_spec k k') as [-> | Hne]; simpl.
  - rewrite bool_decide_eq_true_2; [done | by left].
  - rewrite IH. unfold dict_keys. simpl.
    destruct (bool_decide (k ∈ d.*1)) eqn:E.
    + apply bool_decide_eq_true in E. rewrite bool_decide_eq_true_2; [done | by right].
    + apply bool_decide_eq_false in E.
      rewrite bool_decide_eq_false_2; [done |].
      intros [? | ?]%elem_of_cons; done.
Qed.

Lemma dict_set_NoDup {V} (k : string) (v : V) (d : list (string * V)) :
  NoDup (dict_keys d) -> NoDup (dict_keys (dict_set k v d)).
Proof.
  intros H. rewrite dict_keys_set. case_bool_decide as Hk; [done |].
  apply NoDup_app. split; [done |]. split; [| apply NoDup_singleton].
  intros x Hx ->%list_elem_of_singleton. done.
Qed.

Lemma set_events_id (s : Spawner) : set_events (events s) s = s.
Proof. by destruct s. Qed.

Lemma events_set_events a (s : Spawner) : events (set_events a s) = a.
Proof. by destruct s. Qed.

Lemma set_events_twice a b (s : Spawner) : set_events a (set_events b s) = set_events a s.
Proof. by destruct s. Qed.

Section StateSaving.

Variable cfg : Config.
Variable env : Env.

Lemma prune_step (k : string) (g : list pyval) (keys : list string)
    (pre suf : list (string * list pyval)) (w : World) :
  events (sp w) = (pre ++ (k, g) :: suf)%list ->
  k ∉ dict_keys pre ->
  prune_events env (k :: keys) w =
  match group_verdict (clock env w) g with
  | Raise e => (Raise e, w)
  | Ok true => prune_events env keys w
  | Ok false =>
      prune_events env keys {| sp := set_events (pre ++ suf) (sp w); trace := trace w |}
  end.
Proof.
  intros Hev Hk. destruct w as [s tr]. simpl in Hev. unfold clock.
  cbn [prune_events]. unfold bind at 1. unfold get_self at 1. cbn [sp trace].
  rewrite Hev, dict_get_app_notin by done. cbn [dict_get]. rewrite String.eqb_refl.
  rewrite dict_del_app_notin by done. cbn [dict_del]. rewrite String.eqb_refl.
  unfold group_verdict.
  destruct g as [| first rest]; [done |].
  destruct (truthy first); [| done].
  unfold bind, lift, datetime_now, update_self, ret. cbn [sp trace].
  destruct (_get_event_time first) as [stime | e]; [| done].
  destruct (strptime stime) as [dtime | e]; [| done].
  by destruct (delta_days _ dtime =? 0)%Z.
Qed.

Lemma prune_events_filters (suf pre : list (string * list pyval)) (w : World) :
  events (sp w) = (pre ++ suf)%list ->
  NoDup (dict_keys (pre ++ suf)) ->
  (forall group, group ∈ suf -> is_ok (group_verdict (clock env w) group.2) = true) ->
  prune_events env (dict_keys suf) w =
  (Ok tt, {| sp := set_events (pre ++ List.filter (kept (clock env w)) suf) (sp w);
             trace := trace w |}).
Proof.
  revert pre w. induction suf as [| [k g] suf IH]; intros pre w Hev Hnd Hok.
  - simpl. rewrite <- Hev, set_events_id. by destruct w.
  - assert (k ∉ dict_keys pre) as Hk.
    { unfold dict_keys in *. rewrite fmap_app in Hnd. apply NoDup_app in Hnd as (_ & Hd & _).
      intros Hin. apply (Hd k Hin). simpl. by left. }
    change (dict_keys ((k, g) :: suf)) with (k :: dict_keys suf).
    rewrite (prune_step k g _ pre suf w Hev Hk).
    pose proof (Hok (k, g) ltac:(by left)) as Hhead. simpl in Hhead.
    unfold kept at 1. simpl.
    destruct (group_verdict (clock env w) g) as [[|] | e] eqn:Hv; [| | done].
    + rewrite (IH (pre ++ [(k, g)])%list w).
      * by rewrite <- app_assoc.
      * by rewrite <- app_assoc.
      * by rewrite <- app_assoc.
      * intros group Hin. apply Hok. by right.
    + rewrite (IH pre {| sp := set_events (pre ++ suf) (sp w); trace := trace w |}).
      * simpl. by rewrite set_events_twice.
      * simpl. by destruct (sp w).
      * unfold dict_keys in *. rewrite fmap_app in *. simpl in Hnd.
        apply NoDup_app in Hnd as (Hp & Hd & Hs). apply NoDup_cons in Hs as [_ Hs].
        apply NoDup_app. repeat split; [done | | done].
        intros x Hx Hin. apply (Hd x Hx). by right.
      * intros group Hin. apply Hok. by right.
Qed.

Lemma prune_events_raises (suf pre : list (string * list pyval)) (w : World) :
  events (sp w) = (pre ++ suf)%list ->
  NoDup (dict_keys (pre ++ suf)) ->
  (exists group, group ∈ suf /\ is_ok (group_verdict (clock env w) group.2) = false) ->
  exists e w', prune_events env (dict_keys suf) w = (Raise e, w') /\ trace w' = trace w.
Proof.
  revert pre w. induction suf as [| [k g] suf IH]; intros pre w Hev Hnd (group & Hin & Hbad).
  - by apply elem_of_nil in Hin.
  - assert (k ∉ dict_keys pre) as Hk.
    { unfold dict_keys in *. rewrite fmap_app in Hnd. apply NoDup_app in Hnd as (_ & Hd & _).
      intros Hi. apply (Hd k Hi). simpl. by left. }
    change (dict_keys ((k, g) :: suf)) with (k :: dict_keys suf).
    rewrite (prune_step k g _ pre suf w Hev Hk).
    destruct (group_verdict (clock env w) g) as [[|] | e] eqn:Hv.
    + apply elem_of_cons in Hin as [-> | Hin]; [simpl in Hbad; by rewrite Hv in Hbad |].
      apply (IH (pre ++ [(k, g)])%list w); [by rewrite <- app_assoc | by rewrite <- app_assoc |].
      by exists group.
    + apply elem_of_cons in Hin as [-> | Hin]; [simpl in Hbad; by rewrite Hv in Hbad |].
      destruct (IH pre {| sp := set_events (pre ++ suf) (sp w); trace := trace w |})
        as (e & w' & He & Ht).
      * simpl. by destruct (sp w).
      * unfold dict_keys in *. rewrite fmap_app in *. simpl in Hnd.
        apply NoDup_app in Hnd as (Hp & Hd & Hs). apply NoDup_cons in Hs as [_ Hs].
        apply NoDup_app. repeat split; [done | | done].
        intros x Hx Hi. apply (Hd x Hx). by right.
      * by exists group.
      * by exists e, w'.
    + by exists e, w.
Qed.

Lemma delta_days_zero (now t : datetime) :
  delta_days now t = 0%Z <->
  (0 <= microseconds now - microseconds t < day_us)%Z.
Proof.
  unfold delta_days. rewrite Z.div_small_iff by done. unfold day_us. lia.
Qed.

Lemma kept_verdict (now : datetime) (group : string * list pyval) :
  kept now group = true <-> group_verdict now group.2 = Ok true.
Proof. unfold kept. destruct (group_verdict now group.2) as [[|] | e]; split; done. Qed.


(** C2, as the code has it. When a group of the event store begins with a
    non-empty event whose [html_message] does not contain the timestamp
    pattern, [_get_event_time] raises [AttributeError] and [get_state]
    does not return a state: the exception of the first group that cannot
    be read leaves the method. *)
Theorem get_state_raises_without_timestamp (w : World)
    (key : string) (first : pyval) (rest : list pyval) (d : dict) (m : string) :
  events (sp w) <> [] ->
  NoDup (dict_keys (events (sp w))) ->
  (key, first :: rest) ∈ event_store (sp w) ->
  first = VDict d -> d <> [] ->
  dict_get "html_message" d = Some (VStr m) ->
  Re.search event_time_pattern m = None ->
  _get_event_time first = Raise AttributeError /\
  exists e w', get_state env w = (Raise e, w') /\ trace w' = trace w.
Proof.
  intros Hne Hnd Hin -> Hd Hm Hs.
  assert (_get_event_time (VDict d) = Raise AttributeError) as Ht
    by (unfold _get_event_time; by rewrite Hm, Hs).
  split; [done |].
  assert (NoDup (dict_keys (event_store (sp w)))) as Hnd' by by apply dict_set_NoDup.
  destruct (prune_events_raises (event_store (sp w)) []
              {| sp := set_events (event_store (sp w)) (sp w); trace := trace w |})
    as (e & w' & He & Htr).
  - simpl. by destruct (sp w).
  - done.
  - exists (key, VDict d :: rest). split; [done |].
    unfold group_verdict. cbn [snd]. rewrite Ht.
    destruct d; [done |]. reflexivity.
  - exists e, w'. split; [| done].
    unfold get_state. unfold bind at 1. unfold get_self at 1. cbn [sp trace].
    destruct (events (sp w)) as [| g gs] eqn:Hev; [done |].
    unfold bind at 1. unfold update_self at 1. cbn [sp trace].
    unfold bind at 1. unfold get_self at 1. cbn [sp trace].
    unfold bind at 1.
    replace (events (set_events (dict_set "latest" (latest_events (sp w)) (g :: gs)) (sp w)))
      with (event_store (sp w)) by (unfold event_store; rewrite Hev; by destruct (sp w)).
    unfold event_store in He |- *. rewrite Hev in He |- *. by rewrite He.
Qed.

End StateSaving.

(** The default stop event, "JupyterLab was stopped.", carries no
    timestamp: with it first in the log, saving the state raises. *)
Lemma get_state_unparseable_counterexample :
  Re.search event_time_pattern "JupyterLab was stopped." = None /\
  (get_state (calm_env noon) (with_log [default_stop_event])).1 = Raise AttributeError.
Proof. split; vm_compute; reflexivity. Qed.

Lemma get_state_raises_without_timestamp_witness :
  exists e w',
    get_state (calm_env noon) (with_log [default_stop_event]) = (Raise e, w') /\
    trace w' = [].
Proof.
  refine (proj2 (get_state_raises_without_timestamp (calm_env noon)
                   (with_log [default_stop_event]) "latest" default_stop_event []
                   _ "JupyterLab was stopped." _ _ _ eq_refl _ _ _)).
  - discriminate.
  - vm_compute. apply NoDup_singleton.
  - vm_compute. left.
  - discriminate.
  - reflexivity.
  - vm_compute. reflexivity.
Defined.

(** A log whose first event is 27 hours old and whose second is a minute
    old: the group goes as a whole, and the recent event with it. *)
Lemma pruning_drops_recent_event_counterexample :
  _get_event_time recent_event = Ok "2024_01_02 11:59:00" /\
  strptime "2024_01_02 11:59:00" = Ok (Datetime 2024 1 2 11 59 0 0) /\
  (microseconds noon - microseconds (Datetime 2024 1 2 11 59 0 0) = 60000000)%Z /\
  In recent_event (latest_events (sp (with_log [stale_event; recent_event]))) /\
  (exists state,
     (get_state (calm_env noon) (with_log [stale_event; recent_event])).1 = Ok state /\
     dict_get "events" state = Some (VDict [])) /\
  events (sp (get_state (calm_env noon) (with_log [stale_event; recent_event])).2) = [].
Proof.
  repeat split; try (vm_compute; reflexivity).
  - right. left. reflexivity.
  - eexists. split; vm_compute; reflexivity.
Qed.

Section Pruning.

Variable env : Env.

(** C6, as the code has it. On a state save with a non-empty event store
    whose groups all carry a readable timestamp, pruning works group by
    group: the store that is kept and saved is the store filtered by the
    verdict on each group's first event.  A group is kept, with all its
    events, whatever their age, exactly when its first event is not empty
    and is stamped within the 24 hours up to now: not later than now, and
    less than 24 hours before it.  Every other group is removed as a whole:
    an empty one, one whose first event is empty, one whose first event is
    stamped 24 hours or more before now, and one whose first event is
    stamped later than now.  The log and the trace are left as they were. *)
Theorem get_state_prunes_groups (w : World) :
  events (sp w) <> [] ->
  NoDup (dict_keys (events (sp w))) ->
  (forall group, group ∈ event_store (sp w) ->
     is_ok (group_verdict (clock env w) group.2) = true) ->
  exists state,
    get_state env w =
      (Ok state,
       {| sp := set_events (List.filter (kept (clock env w)) (event_store (sp w))) (sp w);
          trace := trace w |}) /\
    dict_get "events" state =
      Some (events_value (List.filter (kept (clock env w)) (event_store (sp w)))) /\
    (forall key first rest stime t,
       (key, first :: rest) ∈ event_store (sp w) ->
       truthy first = true ->
       _get_event_time first = Ok stime ->
       strptime stime = Ok t ->
       (In (key, first :: rest) (List.filter (kept (clock env w)) (event_store (sp w))) <->
        (0 <= microseconds (clock env w) - microseconds t < day_us)%Z)) /\
    (forall key group,
       In (key, group) (List.filter (kept (clock env w)) (event_store (sp w))) ->
       exists first rest, group = first :: rest /\ truthy first = true).
Proof.
  intros Hne Hnd Hok.
  assert (NoDup (dict_keys (event_store (sp w)))) as Hnd' by by apply dict_set_NoDup.
  pose proof (prune_events_filters env (event_store (sp w)) []
                {| sp := set_events (event_store (sp w)) (sp w); trace := trace w |}) as Hp.
  simpl in Hp. specialize (Hp ltac:(by destruct (sp w)) Hnd' Hok).
  exists (dict_set "events"
            (events_value (List.filter (kept (clock env w)) (event_store (sp w))))
            (dict_set "port" (VInt (port (sp w)))
               (dict_set "port_forward_info" (VDict (port_forward_info (sp w))) []))).
  split; [| split; [| split]].
  - unfold get_state. unfold bind at 1. unfold get_self at 1. cbn [sp trace].
    destruct (events (sp w)) as [| g gs] eqn:Hev; [done |].
    unfold bind at 1. unfold update_self at 1. cbn [sp trace].
    unfold bind at 1. unfold get_self at 1. cbn [sp trace].
    unfold bind at 1.
    replace (events (set_events (dict_set "latest" (latest_events (sp w)) (g :: gs)) (sp w)))
      with (event_store (sp w)) by (unfold event_store; rewrite Hev; by destruct (sp w)).
    unfold event_store in Hp |- *. rewrite Hev in Hp |- *. rewrite Hp.
    unfold bind, get_self, ret. cbn [sp trace]. rewrite set_events_twice.
    unfold clock. cbn [trace]. by rewrite events_set_events.
  - reflexivity.
  - intros key first rest stime t Hin Htr Hst Hpt.
    rewrite List.filter_In, <- list_elem_of_In, kept_verdict.
    unfold group_verdict. cbn [snd]. rewrite Htr, Hst, Hpt.
    split.
    + intros [_ Hv]. injection Hv as Hv. by apply Z.eqb_eq, delta_days_zero in Hv.
    + intros Hlt. split; [done |]. f_equal. by apply Z.eqb_eq, delta_days_zero.
  - intros key group [_ Hk]%List.filter_In. apply kept_verdict in Hk.
    unfold group_verdict in Hk. cbn [snd] in Hk.
    destruct group as [| first rest]; [done |].
    destruct (truthy first) eqn:Htr; [| done]. by exists first, rest.
Qed.

End Pruning.

Lemma get_state_prunes_groups_witness :
  exists state,
    get_state (calm_env noon) (with_log [recent_event]) =
      (Ok state,
       {| sp := set_events
                  (List.filter (kept noon) (event_store (sp (with_log [recent_event]))))
                  (sp (with_log [recent_event]));
          trace := [] |}) /\
    In ("latest", [recent_event])
       (List.filter (kept noon) (event_store (sp (with_log [recent_event])))).
Proof.
  destruct (get_state_prunes_groups (calm_env noon) (with_log [recent_event]))
    as (state & H & _ & Hage & _).
  - discriminate.
  - vm_compute. apply NoDup_singleton.
  - intros group Hin. vm_compute in Hin. apply list_elem_of_singleton in Hin.
    subst group. vm_compute. reflexivity.
  - exists state. split; [exact H |].
    apply (Hage "latest" recent_event [] "2024_01_02 11:59:00" (Datetime 2024 1 2 11 59 0 0)).
    + vm_compute. left.
    + reflexivity.
    + vm_compute. reflexivity.
    + vm_compute. reflexivity.
    + vm_compute. split; [discriminate | reflexivity].
Defined.

(** A group whose first event is stamped a second after now goes too. *)
Example future_stamp_pruned :
  _get_event_time future_event = Ok "2024_01_02 12:00:01" /\
  delta_days noon (Datetime 2024 1 2 12 0 1 0) = (-1)%Z /\
  events (sp (get_state (calm_env noon) (with_log [future_event])).2) = [].
Proof. repeat split; vm_compute; reflexivity. Qed.


(** ** The progress callback *)

Section ReportEvent.

Variable cfg : Config.
Variable env : Env.

(** A report that is not a failure, on a session no stop is pending for:
    the handler as one case analysis. *)
Lemma events_post_progress (event : dict) (w : World) :
  is_failure event = false ->
  stop_already_pending (sp w) = false ->
  events_post cfg env true true (Some event) w =
  if negb (truthy (filtered_event cfg env w event)) || _stop_pending (sp w) then
    (Ok {| status := 400; written := "Bad Request" |}, filtered_world cfg env w)
  else
    match filtered_event cfg env w event with
    | VDict d =>
        match add_timestamp (clock env (filtered_world cfg env w)) d with
        | Ok stamped =>
            (Ok {| status := 204; written := "" |},
             {| sp := set_latest_events (latest_events (sp w) ++ [VDict stamped]) (sp w);
                trace := trace (filtered_world cfg env w) |})
        | Raise e => (Raise e, filtered_world cfg env w)
        end
    | _ => (Raise AttributeError, filtered_world cfg env w)
    end.
Proof.
  intros Hnf Hp. destruct w as [s tr].
  unfold is_failure, stop_already_pending, filtered_event, filtered_world, clock in *.
  unfold events_post, run_filter_events. cbn [negb sp trace] in *. run.
  rewrite Hnf, Hp.
  destruct (filter_events cfg); [destruct (hook_at env (List.length tr)) as [v | e] |];
    cbn [negb orb sp trace truthy];
    repeat (case_match; simplify_eq; cbn [negb orb sp trace truthy] in * ); try done.
Qed.

(** C4, as the code has it. For a report that is not a failure: when a stop
    is already pending or done (line 64) the answer is 204 and nothing
    happens, no event is appended.  Otherwise the request is refused with
    400 "Bad Request", and no event is appended, when filtering leaves an
    empty event or when [_stop_pending] is set, which here means that a
    spawn is pending too.  Otherwise, when the filtered event is a dict
    whose message ([html_message], or [message] without one) is text, the
    event is appended and the answer is 204: the time the handler reads is
    put behind "<details><summary>" when the message begins with it,
    [html_message] is set to [message] when it is empty, and the event is
    appended as it is in every other case.  A filtered event of another
    shape makes the handler raise [AttributeError], and nothing is
    appended. *)
Theorem events_post_non_failure (event : dict) (w w' : World) (r : res Response) :
  is_failure event = false ->
  events_post cfg env true true (Some event) w = (r, w') ->
  (stop_already_pending (sp w) = true ->
   r = Ok {| status := 204; written := "" |} /\ w' = w) /\
  (stop_already_pending (sp w) = false ->
   (_stop_pending (sp w) = true -> _spawn_pending (sp w) = true) /\
   (truthy (filtered_event cfg env w event) = false \/ _stop_pending (sp w) = true ->
    r = Ok {| status := 400; written := "Bad Request" |} /\
    latest_events (sp w') = latest_events (sp w)) /\
   (truthy (filtered_event cfg env w event) = true -> _stop_pending (sp w) = false ->
    (forall d m,
       filtered_event cfg env w event = VDict d ->
       get_default "html_message" (get_default "message" (VStr "") d) d = VStr m ->
       r = Ok {| status := 204; written := "" |} /\
       latest_events (sp w') =
         (latest_events (sp w) ++
          [VDict
             (if startswith details_summary m then
                dict_set "html_message"
                  (VStr (details_summary ++ strftime_ms "_" (clock env w') ++ ": "
                         ++ str_drop (String.length details_summary) m)) d
              else if truthy (get_default "html_message" (VStr "") d) then d
              else dict_set "html_message" (get_default "message" (VStr "") d) d)])%list) /\
    ((forall d, filtered_event cfg env w event = VDict d -> text_message d = false) ->
     r = Raise AttributeError /\ latest_events (sp w') = latest_events (sp w)))).
Proof.
  intros Hnf Hpost.
  split; [intros Hp | intros Hp; split; [| split; [intros Hbad | intros Htr Hsp; split]]].
  - destruct w as [s tr]. unfold events_post, stop_already_pending in *.
    cbn [negb sp trace] in *. run. rewrite Hp in Hpost. by simplify_eq.
  - unfold stop_already_pending, pending in Hp. intros Hs. rewrite Hs in Hp.
    destruct (_spawn_pending (sp w)); [done |]. by rewrite bool_decide_eq_true_2 in Hp.
  - rewrite events_post_progress in Hpost by done.
    assert (negb (truthy (filtered_event cfg env w event)) || _stop_pending (sp w) = true)
      as Hb by (destruct Hbad as [-> | ->]; [done | apply orb_true_r]).
    rewrite Hb in Hpost. simplify_eq. split; [done |].
    unfold filtered_world. by destruct (filter_events cfg).
  - rewrite events_post_progress in Hpost by done.
    rewrite Htr, Hsp in Hpost. cbn [negb orb] in Hpost.
    intros d m Hd Hm. rewrite Hd in Hpost. unfold add_timestamp in Hpost.
    rewrite Hm in Hpost. unfold clock in *.
    destruct (startswith details_summary m);
      [| destruct (truthy (get_default "html_message" (VStr "") d))];
      cbn [negb] in Hpost; simplify_eq; cbn [sp trace]; split; try done;
      by destruct (sp w).
  - rewrite events_post_progress in Hpost by done.
    rewrite Htr, Hsp in Hpost. cbn [negb orb] in Hpost.
    intros Hno. destruct (filtered_event cfg env w event) as [| | | | | d |] eqn:Hf;
      simplify_eq;
      try (split; [done |]; unfold filtered_world; by destruct (filter_events cfg)).
    specialize (Hno d eq_refl). unfold text_message in Hno. unfold add_timestamp in Hpost.
    destruct (get_default "html_message" (get_default "message" (VStr "") d) d);
      simplify_eq;
      (split; [done |]; unfold filtered_world; by destruct (filter_events cfg)).
Qed.

End ReportEvent.

(** A progress report sent to a session that has already been stopped is
    answered with 204, not refused with 400. *)
Lemma report_while_stopping_counterexample :
  is_failure progress_report = false /\
  already_stopped (sp stopping_world) = true /\
  _stop_pending (sp stopping_world) = true /\
  pending (sp stopping_world) = Some "stop" /\
  events_post default_config (calm_env noon) true true (Some progress_report) stopping_world
    = (Ok {| status := 204; written := "" |}, stopping_world).
Proof. repeat split. Qed.

Lemma events_post_non_failure_witness :
  is_failure progress_report = false /\
  latest_events
    (sp (events_post default_config (calm_env noon) true true (Some progress_report)
           new_world).2)
  = [VDict [("progress", VInt 50); ("failed", VBool false);
            ("html_message",
             VStr "<details><summary>2024_01_02 12:00:00.000: Submitted</summary>queued</details>")]].
Proof.
  split; [reflexivity |].
  exact (proj2 (proj1 (proj2 (proj2 (proj2
    (events_post_non_failure default_config (calm_env noon) progress_report new_world
       _ _ eq_refl eq_refl) eq_refl)) eq_refl eq_refl)
    progress_report "<details><summary>Submitted</summary>queued</details>"
    eq_refl eq_refl)).
Defined.

(** A message that does not begin with "<details><summary>" is appended
    without a timestamp; a message that is not text makes the handler
    raise. *)
Example unstamped_and_unreadable_reports :
  latest_events
    (sp (events_post default_config (calm_env noon) true true
           (Some [("html_message", VStr "plain text")]) new_world).2)
  = [VDict [("html_message", VStr "plain text")]] /\
  events_post default_config (calm_env noon) true true
    (Some [("html_message", VInt 5)]) new_world
  = (Raise AttributeError, new_world).
Proof. split; reflexivity. Qed.

(** ** Start *)

Lemma count_zero_not_in (P : effect -> bool) (t : list effect) (e : effect) :
  count P t = 0 -> P e = true -> ~ In e t.
Proof.
  unfold count. intros Hc He Hin.
  assert (In e (List.filter P t)) as Hf by (apply List.filter_In; done).
  destruct (List.filter P t); [done | simpl in Hc; lia].
Qed.


(** The requirement read off the trace does not hold. *)
Ltac refute_required Hreq :=
  first
    [ discriminate Hreq
    | let v := fresh "v" in
      let Hin := fresh "Hin" in
      let Hv := fresh "Hv" in
      destruct Hreq as (v & Hin & Hv); cbn [In] in Hin;
      repeat (destruct Hin as [Hin | Hin];
              [ first [ discriminate Hin | injection Hin as <-; congruence ] |]);
      first [ done
            | match goal with
              | Hc : count _ ?t = 0 |- _ =>
                  refine (count_zero_not_in _ t _ Hc _ Hin); reflexivity
              end ] ].


Section Start.

Variable cfg : Config.
Variable env : Env.

Lemma resolve_address_quiet (resp : pyval) :
  obeys (keeps start_mark (fun _ => tt)) (resolve_address cfg env resp).
Proof. obeys_keeps. Qed.

End Start.

Lemma count_zero_sub (P Q : effect -> bool) (t : list effect) :
  (forall e, Q e = true -> P e = true) -> count P t = 0 -> count Q t = 0.
Proof.
  intros HPQ. unfold count. induction t as [| a t IH]; simpl; [done |].
  destruct (Q a) eqn:Hq.
  - by rewrite (HPQ a Hq).
  - destruct (P a); simpl; [done | exact IH].
Qed.

Lemma count_start_mark_remote (t : list effect) :
  count start_mark t = 0 -> count is_remote_start t = 0.
Proof. apply count_zero_sub. by intros []. Qed.

Section StartOrder.

Variable cfg : Config.
Variable env : Env.

(** C5. When the remote forward is required, [start] sets it up before
    anything is asked of the remote side.  With a custom function: the
    function is called before any remote start call; when it returns, the
    remote start call is the next thing that happens, and it is made once;
    when it raises, [start] ends there with the tunnel error (HTTP 419,
    "Cannot start remote ssh tunnel") and no remote start call is made.
    With the default function the forward is attempted, and never
    established: [start] always ends with the tunnel error, without a
    remote start call, and when a command of the function has returned 0
    (the multiplexed connection is up) the error is the [NameError] of
    line 1138. *)
Theorem remote_forward_before_start (w : World) :
  remote_forward_required cfg (since w (start cfg env w).2) ->
  (ssh_custom_forward_remote cfg = true ->
   exists pre r post,
     since w (start cfg env w).2
       = (pre ++ EHook "ssh_custom_forward_remote" r :: post)%list /\
     count is_remote_start pre = 0 /\
     match r with
     | Ok _ =>
         exists x rest, post = ERemoteStart x :: rest /\ count is_remote_start rest = 0
     | Raise e =>
         post = [] /\ (start cfg env w).1 = Raise (remote_tunnel_error cfg e)
     end) /\
  (ssh_custom_forward_remote cfg = false ->
   count is_remote_start (since w (start cfg env w).2) = 0 /\
   (exists r, In (EForwardCmd true r) (since w (start cfg env w).2)) /\
   exists e,
     (start cfg env w).1 = Raise (remote_tunnel_error cfg e) /\
     (forall cmd timeout out err,
        In (ESubprocess cmd timeout (Ok (0%Z, out, err))) (since w (start cfg env w).2) ->
        e = NameError)).
Proof.
  destruct w as [s tr].
  unfold start, call_subclass_start, ssh_default_forward_remote, since, remote_tunnel_error.
  run. unfold remote_forward_required.
  split_cases idtac.
  all: try rename sp into s1; try rename trace into tr1.
  all: repeat match goal with
    | H : resolve_address _ _ ?resp ?w0 = (_, ?w1) |- _ =>
        let tp := fresh "tp" in
        destruct (resolve_address_quiet cfg env resp w0) as (tp & Htp & Hc & _);
        rewrite H in Htp; cbn [fst snd sp trace] in Htp; try (is_var w1; destruct w1);
        cbn [sp trace] in *; subst; clear H
    end.
  all: cbn [sp trace fst snd]; rewrite <- ?app_assoc, ?drop_app_length; cbn [app].
  all: intros Hreq; try (exfalso; refute_required Hreq).
  all: rewrite <- ?app_assoc in *; cbn [app] in *.
  all: repeat match goal with
       | H : hook_at _ _ = _ |- _ => rewrite H
       | H : subprocess_at _ _ = _ |- _ => rewrite H
       | H : remote_start_at _ _ = _ |- _ => rewrite H
       | H : forward_cmd_at _ _ = _ |- _ => rewrite H
       end.
  all: split; intros Hcu; try discriminate Hcu; clear Hcu.
  all: try (first [ (eexists [], _, _; split; [reflexivity |])
                  | (eexists [_], _, _; split; [reflexivity |])
                  | (eexists [_; _], _, _; split; [reflexivity |]) ];
            (split; [reflexivity |]); cbn;
            first [ (split; reflexivity)
                  | (eexists _, _; split; [reflexivity |];
                     first [ reflexivity | by apply count_start_mark_remote ]) ]).
  all: try (split; [reflexivity |]; split; [eexists; cbn; eauto 10 |];
            eexists; split; [reflexivity |];
            intros cmd timeout out err Hin; cbn [In] in Hin;
            first [ reflexivity | by intuition (simplify_eq; done) ]).
Qed.

End StartOrder.

Lemma remote_forward_before_start_witness :
  remote_forward_required remote_config
    (since new_world (start remote_config (calm_env noon) new_world).2) /\
  (exists pre r post,
     since new_world (start remote_config (calm_env noon) new_world).2
       = (pre ++ EHook "ssh_custom_forward_remote" r :: post)%list /\
     count is_remote_start pre = 0 /\
     match r with
     | Ok _ =>
         exists x rest, post = ERemoteStart x :: rest /\ count is_remote_start rest = 0
     | Raise e =>
         post = [] /\
         (start remote_config (calm_env noon) new_world).1
           = Raise (remote_tunnel_error remote_config e)
     end) /\
  count is_remote_start
    (since new_world (start remote_default_config (calm_env noon) new_world).2) = 0.
Proof.
  split; [reflexivity |]. split.
  - exact (proj1 (remote_forward_before_start remote_config (calm_env noon) new_world
                    eq_refl) eq_refl).
  - exact (proj1 (proj2 (remote_forward_before_start remote_default_config (calm_env noon)
                           new_world eq_refl) eq_refl)).
Defined.

(** With a custom function that returns, the remote start call is the
    next thing that happens. *)
Example custom_remote_forward_then_start :
  since new_world (start remote_config (calm_env noon) new_world).2
  = [ERandomPort 50000; EHook "ssh_custom_forward_remote" (Ok VNone);
     ERemoteStart (Ok (VStr ""))].
Proof. vm_compute. reflexivity. Qed.


(** With the default function the remote forward cannot be established:
    the start ends with the tunnel error and the remote start call is not
    made. *)
Example default_remote_forward_aborts :
  (start remote_default_config (calm_env noon) new_world).1
    = Raise (HTTPError 419 "Cannot start remote ssh tunnel for alice:lab: NameError" None) /\
  count is_remote_start
    (since new_world (start remote_default_config (calm_env noon) new_world).2) = 0.
Proof. split; vm_compute; reflexivity. Qed.

(** ** The local forward *)

Section Forward.

Variable env : Env.

Lemma control_request_ext (base l : list string) (timeout : Z) r :
  control_request base (ESubprocess (base ++ l) timeout r) =
  match l with
  | [option; request; b; tg] =>
      if String.eqb option "-O" then Some (request, b, tg, r) else None
  | _ => None
  end.
Proof. unfold control_request. by rewrite drop_app_length. Qed.

Lemma control_requests_cons (base : list string) (e : effect) (t : list effect) :
  control_requests base (e :: t) =
  match control_request base e with
  | Some x => x :: control_requests base t
  | None => control_requests base t
  end.
Proof. reflexivity. Qed.

(** C7, as the code has it. When the first [forward] request to the
    multiplexed connection exits non-zero, one [cancel] for the same
    [0.0.0.0:port:address:port] binding follows.  If the [cancel] does not
    come back (it times out), its exception leaves the method and no
    second [forward] is made.  If it comes back, with whatever exit code,
    [forward] is requested once more and never again, and the method
    raises exactly when this second request does not exit with 0. *)
Theorem forward_retried_once (w : World) (user node : string) (base : list string)
    (l tg : string) (rc : Z) (out err : string)
    (rest : list (string * string * string * res (Z * string * string))) :
  forward_cmd_at env (List.length (trace w)) = Ok (user, node, base) ->
  control_requests base (since w (ssh_default_forward env w).2)
    = ("forward", l, tg, Ok (rc, out, err)) :: rest ->
  rc <> 0%Z ->
  (exists a p, l = binding (port (sp w)) a p) /\ tg = target user node /\
  exists a2,
    (exists e, a2 = Raise e /\ rest = [("cancel", l, tg, a2)] /\
               (ssh_default_forward env w).1 = Raise e) \/
    (is_ok a2 = true /\
     exists a3, rest = [("cancel", l, tg, a2); ("forward", l, tg, a3)] /\
                is_ok (ssh_default_forward env w).1 = returned_zero a3).
Proof.
  intros Hcmd. destruct w as [s tr]. cbn [trace] in Hcmd.
  unfold ssh_default_forward, since. run. rewrite Hcmd. run.
  split_cases idtac.
  all: cbn [sp trace fst snd]; rewrite <- ?app_assoc, ?drop_app_length; cbn [app];
    rewrite ?control_requests_cons, ?control_request_ext, ?String.eqb_refl;
    cbn [control_request control_requests omap list_omap];
    intros Heq Hrc; simplify_eq.
  all: rewrite ?negb_true_iff, ?negb_false_iff, ?Z.eqb_eq, ?Z.eqb_neq in *; try done.
  all: split; [by eexists _, _ |]; split; [done |]; eexists; first
    [ left; eexists; split; [reflexivity |]; split; reflexivity
    | right; refine (conj _ (ex_intro _ _ (conj eq_refl _)));
      [ reflexivity
      | cbn; first [ reflexivity
                   | symmetry; first [ by apply Z.eqb_eq | by apply Z.eqb_neq ] ] ] ].
Qed.

End Forward.

(** The first [forward] exits with 255 and the [cancel] that follows times
    out: the timeout leaves the method, and [forward] is not requested a
    second time. *)
Lemma cancel_timeout_counterexample :
  control_requests ["ssh"; "-f"; "-N"; "-n"]
    (since served_world (ssh_default_forward cancel_times_out served_world).2)
  = [("forward", "-L0.0.0.0:50000:lab.remote:8888", "jupyterhuboutpost@outpost",
      exit_code 255);
     ("cancel", "-L0.0.0.0:50000:lab.remote:8888", "jupyterhuboutpost@outpost",
      Raise TimeoutExpired)] /\
  (ssh_default_forward cancel_times_out served_world).1 = Raise TimeoutExpired.
Proof. split; vm_compute; reflexivity. Qed.

Lemma forward_retried_once_witness :
  exists a2,
    (exists e, a2 = Raise e /\
       [("cancel", "-L0.0.0.0:50000:lab.remote:8888", "jupyterhuboutpost@outpost", exit_code 0);
        ("forward", "-L0.0.0.0:50000:lab.remote:8888", "jupyterhuboutpost@outpost",
         exit_code 0)]
       = [("cancel", "-L0.0.0.0:50000:lab.remote:8888", "jupyterhuboutpost@outpost", a2)] /\
       (ssh_default_forward stale_binding served_world).1 = Raise e) \/
    (is_ok a2 = true /\
     exists a3,
       [("cancel", "-L0.0.0.0:50000:lab.remote:8888", "jupyterhuboutpost@outpost", exit_code 0);
        ("forward", "-L0.0.0.0:50000:lab.remote:8888", "jupyterhuboutpost@outpost",
         exit_code 0)]
       = [("cancel", "-L0.0.0.0:50000:lab.remote:8888", "jupyterhuboutpost@outpost", a2);
          ("forward", "-L0.0.0.0:50000:lab.remote:8888", "jupyterhuboutpost@outpost", a3)] /\
       is_ok (ssh_default_forward stale_binding served_world).1 = returned_zero a3).
Proof.
  refine (proj2 (proj2 (forward_retried_once stale_binding served_world
           "jupyterhuboutpost" "outpost" ["ssh"; "-f"; "-N"; "-n"]
           "-L0.0.0.0:50000:lab.remote:8888" "jupyterhuboutpost@outpost"
           255 "" "" _ _ _ _))).
  - reflexivity.
  - vm_compute. reflexivity.
  - discriminate.
Defined.

(** ** The connection-info callback *)

Lemma count_all_zero (t : list effect) : count (fun _ => true) t = 0 -> t = [].
Proof. by destruct t. Qed.

Section SetupTunnel.

Variable cfg : Config.
Variable env : Env.

Lemma prune_events_frame (keys : list string) :
  obeys (keeps (fun _ => true) (fun s => (port_forward_info s, port s)))
    (prune_events env keys).
Proof.
  induction keys as [| key keys IH]; cbn [prune_events].
  - obeys_keeps.
  - apply obeys_bind; [typeclasses eauto | obeys_keeps |]. intros self.
    apply obeys_bind; [typeclasses eauto | | intros _; exact IH].
    obeys_keeps.
Qed.

Lemma get_state_frame (w : World) :
  trace (get_state env w).2 = trace w /\
  port_forward_info (sp (get_state env w).2) = port_forward_info (sp w) /\
  forall state, (get_state env w).1 = Ok state ->
    dict_get "port_forward_info" state = Some (VDict (port_forward_info (sp w))).
Proof.
  destruct w as [s tr]. unfold get_state. run.
  destruct (events s) as [| g gs] eqn:Hev; cbn [fst snd sp trace].
  - repeat split. intros state [= <-]. reflexivity.
  - match goal with |- context [prune_events env ?ks ?w0] =>
      destruct (prune_events_frame ks w0) as (t & Ht & Hc & Hg);
      destruct (prune_events env ks w0) as [[[] | e] [s1 tr1]] end;
      cbn [fst snd sp trace] in *; apply count_all_zero in Hc; subst t;
      rewrite app_nil_r in Ht; injection Hg as Hg _.
    + repeat split; [done | exact Hg |].
      intros state [= <-]. reflexivity.
    + repeat split; [done | exact Hg | done].
Qed.

Lemma run_ssh_forward_frame (create_svc : bool) :
  obeys (keeps (fun _ => false) (fun s => s)) (run_ssh_forward cfg env create_svc).
Proof. obeys_keeps. Qed.

Lemma stop_frame now cancel_ event :
  obeys (keeps (fun _ => false) port_forward_info) (stop cfg env now cancel_ event).
Proof. obeys_keeps. Qed.

(** A stop for a cancel either does nothing or begins by cancelling the
    start futures. *)
Lemma stop_cancel_begins now event (w : World) :
  since w (stop cfg env now true event w).2 = [] \/
  exists t, since w (stop cfg env now true event w).2 = ECancelStartFuture :: t.
Proof.
  destruct (already_stopped (sp w)) eqn:Hg.
  - left. rewrite stop_guarded by done. unfold since. by rewrite drop_all.
  - right. destruct w as [s tr]. unfold stop, since. run. cbn [sp] in Hg. rewrite Hg.
    destruct s; simpl in *. run.
    split_cases idtac;
      repeat match goal with
      | H : run_ssh_forward_remove _ _ ?w = _ |- _ =>
          let t := fresh "t" in
          let Ht := fresh "Ht" in
          destruct (run_ssh_forward_remove_spec cfg env w) as (t & Ht & ? & ? & ?);
          rewrite Ht in H; clear Ht; simplify_eq
      end; run;
      cbn [sp trace]; rewrite <- ?app_assoc, ?drop_app_length; by eexists.
Qed.

Lemma setup_tunnel_shape (payload : dict) (w : World) :
  payload <> [] ->
  _stop_pending (sp w) = false ->
  port_forward_info (sp (setup_tunnel_post cfg env true true (Some payload) w).2)
    = merged_info (sp w) payload /\
  ((since w (setup_tunnel_post cfg env true true (Some payload) w).2 = [] \/
    exists t, since w (setup_tunnel_post cfg env true true (Some payload) w).2
              = ECancelStartFuture :: t) \/
   exists state c t,
     since w (setup_tunnel_post cfg env true true (Some payload) w).2
       = ESetOrmState state :: EDbCommit c :: t /\
     dict_get "port_forward_info" state = Some (VDict (merged_info (sp w) payload)) /\
     (c <> Ok tt -> t = [] \/ exists t', t = ECancelStartFuture :: t')).
Proof.
  intros Hp Hs. destruct w as [s tr]. cbn [sp] in *.
  unfold setup_tunnel_post, merged_info. cbn [negb]. run. rewrite Hs.
  destruct payload as [| kv payload]; [done |]. cbn [truthy]. run.
  match goal with |- context [get_state env ?w0] =>
    destruct (get_state_frame w0) as (Htr & Hpf & Hst);
    destruct (get_state env w0) as [[state | e] [s1 tr1]] end;
    cbn [fst snd sp trace] in *; subst tr1.
  2: { match goal with |- context [stop cfg env ?a ?b ?ev ?w0] =>
         destruct (stop_frame a b ev w0) as (t & Ht & _ & Hg);
         pose proof (stop_cancel_begins a ev w0) as Hb;
         destruct (stop cfg env a b ev w0) as [[[] | e'] [s2 tr2]] end;
         cbn [fst snd sp trace] in *;
         (split; [by rewrite Hg, Hpf; destruct s |]); left; unfold since in *;
         cbn [trace] in *; exact Hb. }
  specialize (Hst state eq_refl).
  assert (dict_get "port_forward_info" state
          = Some (VDict (dict_update (port_forward_info s) (kv :: payload)))) as Hst'
    by (rewrite Hst; by destruct s).
  assert (port_forward_info s1 = dict_update (port_forward_info s) (kv :: payload)) as Hpf'
    by (rewrite Hpf; by destruct s).
  clear Hst Hpf.
  destruct (commit_at env (List.length (tr ++ [ESetOrmState state]))) as [[] | e] eqn:Hc; run.
  - match goal with |- context [run_ssh_forward cfg env true ?w0] =>
      destruct (run_ssh_forward_frame true w0) as (tf & Htf & _ & Hgf);
      destruct (run_ssh_forward cfg env true w0) as [[r | e] [s2 tr2]] end;
      cbn [fst snd sp trace] in *; subst s2 tr2.
    + split; [done |]. right. exists state, (Ok tt), tf. unfold since. cbn [trace].
      rewrite <- !app_assoc, drop_app_length. by repeat split.
    + match goal with |- context [stop cfg env ?a ?b ?ev ?w0] =>
        destruct (stop_frame a b ev w0) as (t & Ht & _ & Hg);
        destruct (stop cfg env a b ev w0) as [[[] | e'] [s2 tr2]] end;
        cbn [fst snd sp trace] in *; subst tr2;
        (split; [by rewrite Hg |]); right; exists state, (Ok tt), (tf ++ t)%list;
        unfold since; cbn [trace]; rewrite <- !app_assoc, drop_app_length;
        by repeat split.
  - match goal with |- context [stop cfg env ?a ?b ?ev ?w0] =>
      destruct (stop_frame a b ev w0) as (t & Ht & _ & Hg);
      pose proof (stop_cancel_begins a ev w0) as Hb;
      destruct (stop cfg env a b ev w0) as [[[] | e'] [s2 tr2]] end;
      cbn [fst snd sp trace] in *; unfold since in Hb; cbn [trace] in Hb;
      rewrite Ht, drop_app_length in Hb; subst tr2;
      (split; [by rewrite Hg |]); right; exists state, (Raise e), t;
      unfold since; cbn [trace]; rewrite <- !app_assoc, drop_app_length;
      (split; [done |]); (split; [done |]); intros _; exact Hb.
Qed.


End SetupTunnel.

Lemma dict_get_set {V} (k k' : string) (v : V) (d : list (string * V)) :
  dict_get k (dict_set k' v d) = if String.eqb k k' then Some v else dict_get k d.
Proof.
  induction d as [| [k0 v0] d IH]; simpl.
  - done.
  - destruct (String.eqb_spec k' k0) as [-> | Hne]; simpl.
    + by destruct (String.eqb k k0).
    + rewrite IH. destruct (String.eqb_spec k k0) as [-> | Hne'].
      * by rewrite (proj2 (String.eqb_neq k0 k')).
      * done.
Qed.

(** What the merge holds: the value of the payload where the payload has
    the key, and the former value elsewhere. *)
Lemma dict_update_get (k : string) (d payload : dict) :
  NoDup (dict_keys payload) ->
  dict_get k (dict_update d payload) =
  match dict_get k payload with
  | Some v => Some v
  | None => dict_get k d
  end.
Proof.
  unfold dict_update. revert d.
  induction payload as [| [k1 v1] payload IH]; intros d Hnd; simpl; [done |].
  apply NoDup_cons in Hnd as [Hk1 Hnd]. rewrite IH by done. rewrite dict_get_set.
  destruct (String.eqb_spec k k1) as [-> | Hne]; [| done].
  assert (dict_get k1 payload = None) as ->; [| done].
  clear -Hk1. induction payload as [| [k2 v2] payload IH]; simpl; [done |].
  apply not_elem_of_cons in Hk1 as [Hne Hk1].
  destruct (String.eqb_spec k1 k2); [done | by apply IH].
Qed.

Section Persisted.

Variable cfg : Config.
Variable env : Env.







End Persisted.


(** The whole run of an accepted callback: state saved, committed, tunnel
    set up, endpoint published, 204. *)
Example setup_tunnel_accepted :
  setup_tunnel_post default_config (calm_env noon) true true (Some tunnel_payload) new_world
  = (Ok {| status := 204; written := "" |},
     {| sp := set_port_forward_info tunnel_payload new_spawner;
        trace :=
          [ESetOrmState [("port_forward_info", VDict tunnel_payload); ("port", VInt 0)];
           EDbCommit (Ok tt);
           EForwardCmd false (Ok ("jupyterhuboutpost", "outpost", ["ssh"; "-f"; "-N"; "-n"]));
           ESubprocess ["ssh"; "-f"; "-N"; "-n"; "-O"; "check"; "jupyterhuboutpost@outpost"] 3
             (Ok (0%Z, "", ""));
           ESubprocess ["ssh"; "-f"; "-N"; "-n"; "-O"; "forward";
                        "-L0.0.0.0:0:lab.remote:8888"; "jupyterhuboutpost@outpost"] 3
             (Ok (0%Z, "", ""));
           EK8s ReadHubService (Ok tt); EK8s CreateService (Ok tt)] |}).
Proof. vm_compute. reflexivity. Qed.


(** A callback for a session that is stopping. *)
Example setup_tunnel_refused_while_stopping :
  setup_tunnel_post default_config (calm_env noon) true true (Some tunnel_payload)
    stop_pending_world
  = (Ok {| status := 400; written := "Bad Request." |}, stop_pending_world).
Proof. reflexivity. Qed.

(** ** Class-level containers *)

Module SessionsFacts.
Import Sessions.

Lemma find_put_ne (ua na ub nb : string) (i : Instance) (h : Hub) :
  (ua, na) <> (ub, nb) ->
  match (put_spawner ua na i (users h)) !! ub with
  | Some spawners => spawners !! nb
  | None => None
  end = find_spawner ub nb h.
Proof.
  intros Hne. unfold put_spawner, find_spawner.
  destruct (decide (ua = ub)) as [-> | Hu].
  - rewrite lookup_insert_eq. assert (na <> nb) as Hn by congruence.
    rewrite lookup_insert_ne by done. by destruct (users h !! ub).
  - by rewrite lookup_insert_ne.
Qed.

Lemma find_put_eq (ua na : string) (i : Instance) (h : Hub) :
  match (put_spawner ua na i (users h)) !! ua with
  | Some spawners => spawners !! na
  | None => None
  end = Some i.
Proof. unfold put_spawner. by rewrite !lookup_insert_eq. Qed.

Section Shared.

Variable cfg : Config.
Variable env : Env.

Lemma call_other {A} (m : M A) (ua na ub nb : string) (h : Hub) :
  (ua, na) <> (ub, nb) ->
  find_spawner ub nb (call m ua na h).2 = find_spawner ub nb h.
Proof.
  intros Hne. unfold call. destruct (find_spawner ua na h) as [ia |] eqn:Ha; [| done].
  cbn [snd]. unfold find_spawner at 1. cbn [users]. by apply find_put_ne.
Qed.

Lemma call_self {A} (m : M A) (ua na : string) (ia : Instance) (h : Hub) :
  find_spawner ua na h = Some ia ->
  spawner_of ua na (call m ua na h).2
    = Some (sp (m (world_of h ia)).2).
Proof.
  intros Ha. unfold spawner_of, call. rewrite Ha. cbn [snd].
  unfold find_spawner. cbn [users cls]. rewrite find_put_eq. cbn [fmap option_fmap option_map].
  f_equal. unfold self, attr_port_forward_info, attr_latest_events, attr_events,
    class_after, instance_after. cbn.
  destruct (sp (m _).2), (own_port_forward_info ia), (own_latest_events ia), (own_events ia);
    reflexivity.
Qed.

Lemma call_other_latest_events {A} (m : M A) (ua na ub nb : string) (ia ib : Instance)
    (h : Hub) :
  (ua, na) <> (ub, nb) ->
  find_spawner ua na h = Some ia ->
  find_spawner ub nb h = Some ib ->
  latest_events <$> spawner_of ub nb (call m ua na h).2 =
  Some match own_latest_events ib, own_latest_events ia with
       | Some l, _ => l
       | None, Some _ => cls_latest_events (cls h)
       | None, None => latest_events (sp (m (world_of h ia)).2)
       end.
Proof.
  intros Hne Ha Hb. unfold spawner_of. rewrite call_other, Hb by done.
  unfold call. rewrite Ha. clear Ha Hb.
  destruct ia as [? [] ? ?], ib as [? [] ? ?]; reflexivity.
Qed.

Lemma call_other_port_forward_info {A} (m : M A) (ua na ub nb : string) (ia ib : Instance)
    (h : Hub) :
  (ua, na) <> (ub, nb) ->
  find_spawner ua na h = Some ia ->
  find_spawner ub nb h = Some ib ->
  port_forward_info <$> spawner_of ub nb (call m ua na h).2 =
  Some match own_port_forward_info ib, own_port_forward_info ia with
       | Some d, _ => d
       | None, Some _ => cls_port_forward_info (cls h)
       | None, None => port_forward_info (sp (m (world_of h ia)).2)
       end.
Proof.
  intros Hne Ha Hb. unfold spawner_of. rewrite call_other, Hb by done.
  unfold call. rewrite Ha. clear Ha Hb.
  destruct ia as [[] ? ? ?], ib as [[] ? ? ?]; reflexivity.
Qed.

Lemma call_other_events {A} (m : M A) (ua na ub nb : string) (ia ib : Instance)
    (h : Hub) :
  (ua, na) <> (ub, nb) ->
  find_spawner ua na h = Some ia ->
  find_spawner ub nb h = Some ib ->
  events <$> spawner_of ub nb (call m ua na h).2 =
  Some match own_events ib, own_events ia with
       | Some d, _ => d
       | None, Some _ => cls_events (cls h)
       | None, None => events (sp (m (world_of h ia)).2)
       end.
Proof.
  intros Hne Ha Hb. unfold spawner_of. rewrite call_other, Hb by done.
  unfold call. rewrite Ha. clear Ha Hb.
  destruct ia as [? ? [] ?], ib as [? ? [] ?]; reflexivity.
Qed.

(** C10. Two instances that have no binding of their own for a container
    read one object, the one the class holds.  After a progress report for
    one session the other session's log is the log the handler left, and
    an accepted report is at the end of it; connection info merged for one
    session by the connection-info callback is the connection info of the
    other; the event stores of both are one.  A session that has a binding
    of its own for a container is not reached by what is done for
    another. *)
Theorem class_containers_shared (h : Hub) (ua na ub nb : string) (ia ib : Instance)
    (event payload : dict) :
  (ua, na) <> (ub, nb) ->
  find_spawner ua na h = Some ia ->
  find_spawner ub nb h = Some ib ->
  (own_latest_events ia = None -> own_latest_events ib = None ->
   latest_events <$> spawner_of ub nb (progress_post cfg env ua na (Some event) h).2
     = latest_events <$> spawner_of ua na (progress_post cfg env ua na (Some event) h).2 /\
   (is_failure event = false ->
    stop_already_pending (attrs ia) = false ->
    (progress_post cfg env ua na (Some event) h).1 = Ok {| status := 204; written := "" |} ->
    exists d stamped,
      filtered_event cfg env (world_of h ia) event = VDict d /\
      add_timestamp (clock env (filtered_world cfg env (world_of h ia))) d = Ok stamped /\
      latest_events <$> spawner_of ub nb (progress_post cfg env ua na (Some event) h).2
        = Some (attr_latest_events (cls h) ib ++ [VDict stamped])%list)) /\
  (own_port_forward_info ia = None -> own_port_forward_info ib = None ->
   port_forward_info <$> spawner_of ub nb (tunnel_post cfg env ua na (Some payload) h).2
     = port_forward_info <$> spawner_of ua na (tunnel_post cfg env ua na (Some payload) h).2 /\
   (_stop_pending (attrs ia) = false -> payload <> [] ->
    port_forward_info <$> spawner_of ub nb (tunnel_post cfg env ua na (Some payload) h).2
      = Some (dict_update (attr_port_forward_info (cls h) ib) payload))) /\
  (own_events ia = None -> own_events ib = None ->
   events <$> spawner_of ub nb (tunnel_post cfg env ua na (Some payload) h).2
     = events <$> spawner_of ua na (tunnel_post cfg env ua na (Some payload) h).2) /\
  (forall l, own_latest_events ib = Some l ->
     latest_events <$> spawner_of ub nb (progress_post cfg env ua na (Some event) h).2
       = Some l) /\
  (forall d, own_port_forward_info ib = Some d ->
     port_forward_info <$> spawner_of ub nb (tunnel_post cfg env ua na (Some payload) h).2
       = Some d).
Proof.
  intros Hne Ha Hb. unfold progress_post, tunnel_post.
  split; [| split; [| split; [| split]]].
  - intros Hia Hib. rewrite (call_self _ _ _ ia) by done.
    rewrite (call_other_latest_events _ ua na ub nb ia ib) by done.
    rewrite Hia, Hib. split; [done |].
    intros Hnf Hp Hr. unfold call in Hr. rewrite Ha in Hr. cbn [fst] in Hr.
    rewrite events_post_progress in Hr |- * by done.
    destruct (negb (truthy (filtered_event cfg env (world_of h ia) event))
              || _stop_pending (sp (world_of h ia))); [done |].
    destruct (filtered_event cfg env (world_of h ia) event) as [| | | | | d |]; try done.
    destruct (add_timestamp _ d) as [stamped | e] eqn:Hst; [| done].
    exists d, stamped. split; [done |]. split; [done |].
    cbn. unfold attr_latest_events. by rewrite Hia, Hib.
  - intros Hia Hib. rewrite (call_self _ _ _ ia) by done.
    rewrite (call_other_port_forward_info _ ua na ub nb ia ib) by done.
    rewrite Hia, Hib. split; [done |].
    intros Hs Hp. f_equal.
    rewrite (proj1 (setup_tunnel_shape cfg env payload (world_of h ia) Hp Hs)).
    unfold merged_info. cbn. unfold attr_port_forward_info. by rewrite Hia, Hib.
  - intros Hia Hib. rewrite (call_self _ _ _ ia) by done.
    rewrite (call_other_events _ ua na ub nb ia ib) by done.
    by rewrite Hia, Hib.
  - intros l Hib. rewrite (call_other_latest_events _ ua na ub nb ia ib) by done.
    by rewrite Hib.
  - intros d Hib. rewrite (call_other_port_forward_info _ ua na ub nb ia ib) by done.
    by rewrite Hib.
Qed.

End Shared.

Lemma class_containers_shared_witness :
  ("alice", "lab") <> ("bob", "lab") /\
  latest_events <$> spawner_of "bob" "lab" two_sessions = Some [] /\
  exists stamped,
    latest_events <$>
      spawner_of "bob" "lab"
        (progress_post default_config (calm_env noon) "alice" "lab" (Some progress_report)
           two_sessions).2
    = Some [VDict stamped] /\
    dict_get "html_message" stamped
    = Some (VStr "<details><summary>2024_01_02 12:00:00.000: Submitted</summary>queued</details>").
Proof.
  split; [discriminate |]. split; [reflexivity |].
  destruct (proj2 (proj1 (class_containers_shared default_config (calm_env noon) two_sessions
              "alice" "lab" "bob" "lab" new_instance new_instance progress_report []
              ltac:(discriminate) eq_refl eq_refl) eq_refl eq_refl) eq_refl eq_refl eq_refl)
    as (d & stamped & Hd & Hst & Hlog).
  exists stamped. split; [exact Hlog |].
  injection Hd as <-. injection Hst as <-. reflexivity.
Defined.

(** After [clear_state] has given a session connection info of its own,
    what is merged for another session is no longer seen by it; its log is
    still the one of the class. *)
Example cleared_session_apart :
  let h := {| cls := cls two_sessions;
              users := put_spawner "bob" "lab" (clear_instance new_instance)
                         (users two_sessions);
              log := [] |} in
  port_forward_info <$>
    spawner_of "bob" "lab"
      (tunnel_post default_config (calm_env noon) "alice" "lab" (Some tunnel_payload) h).2
    = Some [] /\
  port_forward_info <$>
    spawner_of "alice" "lab"
      (tunnel_post default_config (calm_env noon) "alice" "lab" (Some tunnel_payload) h).2
    = Some tunnel_payload /\
  latest_events <$>
    spawner_of "bob" "lab"
      (progress_post default_config (calm_env noon) "alice" "lab" (Some progress_report) h).2
    = latest_events <$>
    spawner_of "alice" "lab"
      (progress_post default_config (calm_env noon) "alice" "lab" (Some progress_report) h).2.
Proof. repeat split; vm_compute; reflexivity. Qed.

End SessionsFacts.

Lemma post_stop_hook_at_most_once_witness :
  count is_post_stop_hook
    (since new_world (follow_all hook_config (calm_env noon) many_paths new_world)) <= 1.
Proof.
  exact (proj1 (post_stop_hook_at_most_once hook_config (calm_env noon) many_paths new_world)).
Defined.

(** Along these paths the hook is in fact called, once. *)
Example post_stop_hook_called_once :
  count is_post_stop_hook
    (since new_world (follow_all hook_config (calm_env noon) many_paths new_world)) = 1.
Proof. vm_compute. reflexivity. Qed.

(** * Further properties of the lifecycle code *)

(** ** Saving and loading the state *)

Lemma as_events_value (evs : list (string * list pyval)) :
  as_events (events_value evs) = Some evs.
Proof.
  unfold as_events, events_value. induction evs as [| [k l] evs IH]; [done |].
  cbn. cbn in IH. by rewrite IH.
Qed.

Lemma get_state_shape env (w w' : World) (state : dict) :
  get_state env w = (Ok state, w') ->
  let base := [("port_forward_info", VDict (port_forward_info (sp w)));
               ("port", VInt (port (sp w)))] in
  (events (sp w) = [] /\ state = base /\ w' = w) \/
  (events (sp w) <> [] /\
   state = (base ++ [("events", events_value (events (sp w')))])%list).
Proof.
  destruct w as [s tr]. unfold get_state. run.
  destruct (events s) as [| g evs] eqn:E.
  - intros [= <- <-]. by left.
  - run. destruct (prune_events env _ _) as [[u | e] w2]; [| done].
    intros [= <- <-]. right. split; [done |]. reflexivity.
Qed.

(** X1. What [get_state] saved, [load_state] restores on any spawner: the
    connection info and the port as they were, and, when the event store
    was not empty, the pruned store with its ["latest"] group as the log.
    With an empty event store no events are saved at all: the store and the
    log of the loading spawner stay as they are. *)
Theorem load_state_restores_saved_state env (w w' : World) (state : dict) (s0 : Spawner) :
  get_state env w = (Ok state, w') ->
  exists s1,
    load_state state s0 = Some s1 /\
    port_forward_info s1 = port_forward_info (sp w) /\
    port s1 = port (sp w) /\
    (events (sp w) <> [] ->
     events s1 = events (sp w') /\
     latest_events s1 = default (latest_events s0) (dict_get "latest" (events (sp w')))) /\
    (events (sp w) = [] ->
     events s1 = events s0 /\ latest_events s1 = latest_events s0).
Proof.
  intros H. apply get_state_shape in H. cbv zeta in H.
  destruct H as [(He & -> & ->) | (Hne & ->)].
  - eexists. split; [reflexivity |]. cbn. by repeat split.
  - unfold load_state, load_port_forward_info, load_events, load_port.
    cbn -[as_events events_value]. rewrite as_events_value. cbn. eexists. split; [reflexivity |].
    repeat split; try done; by destruct (dict_get "latest" (events (sp w'))).
Qed.

Lemma load_state_restores_saved_state_witness :
  exists state w' s1,
    get_state (calm_env noon) (with_log [recent_event]) = (Ok state, w') /\
    load_state state new_spawner = Some s1 /\
    port s1 = 0%Z /\
    latest_events s1 = [recent_event].
Proof.
  eexists _, _.
  assert (get_state (calm_env noon) (with_log [recent_event]) = _) as H
    by (vm_compute; reflexivity).
  destruct (load_state_restores_saved_state (calm_env noon) _ _ _ new_spawner H)
    as (s1 & H1 & _ & H2 & H3 & _).
  exists s1. split; [exact H |]. split; [exact H1 |]. split; [exact H2 |].
  apply H3. discriminate.
Defined.

(** ** The guard of [stop] across [clear_state] *)

Section Rearm.

Variable cfg : Config.
Variable env : Env.

Lemma stop_sets_guard now cancel_ event (w : World) :
  already_stopped (sp (stop cfg env now cancel_ event w).2) = true.
Proof.
  destruct (already_stopped (sp w)) eqn:Hg.
  - by rewrite stop_guarded.
  - by destruct (stop_first cfg env now cancel_ event w Hg) as (t & _ & H & _).
Qed.

Lemma stop_without_info now cancel_ event (w : World) :
  already_stopped (sp w) = false ->
  port_forward_info (sp w) = [] ->
  exists t,
    trace (stop cfg env now cancel_ event w).2 = (trace w ++ t)%list /\
    count is_remote_stop t = 1 /\
    count is_tunnel_teardown t = 0 /\
    count is_endpoint_teardown t = 0.
Proof.
  intros Hg Hi. destruct w as [s tr]. unfold stop. run. rewrite Hg.
  destruct s; simpl in *. subst. run.
  split_cases idtac; run;
    rewrite <- ?app_assoc; eexists; (split; [reflexivity |]); cbn; done.
Qed.

(** X2. [clear_state] arms [stop] again, and forgets the connection info:
    whatever happened before, the stop that follows a [clear_state] makes
    the remote stop call once more, and asks for no tunnel and no endpoint
    to be removed. *)
Theorem clear_state_rearms_stop (first second : stop_call) (w : World) :
  already_stopped (sp (do_stop cfg env first w).2) = true /\
  already_stopped (sp (cleared (do_stop cfg env first w).2)) = false /\
  exists t,
    trace (do_stop cfg env second (cleared (do_stop cfg env first w).2)).2
      = (trace (do_stop cfg env first w).2 ++ t)%list /\
    count is_remote_stop t = 1 /\
    count is_tunnel_teardown t = 0 /\
    count is_endpoint_teardown t = 0.
Proof.
  split; [apply stop_sets_guard |]. split; [reflexivity |].
  apply (stop_without_info _ _ _ (cleared (do_stop cfg env first w).2)); reflexivity.
Qed.

(** X3. While the guard of [stop] is set, [run_pre_spawn_hook] refuses a
    new spawn: it raises before the hook is called, and changes nothing.
    After [clear_state] the hook is called, when there is one, and its
    outcome is the method's. *)
Theorem pre_spawn_refused_until_cleared (hook now cancel_ : bool) (event : pyval) (w : World) :
  run_pre_spawn_hook env hook (stop cfg env now cancel_ event w).2
    = (Raise (PyException stopping_message), (stop cfg env now cancel_ event w).2) /\
  run_pre_spawn_hook env hook (cleared (stop cfg env now cancel_ event w).2)
    = if hook then
        (hook_at env (List.length (trace (stop cfg env now cancel_ event w).2)),
         {| sp := clear_state (sp (stop cfg env now cancel_ event w).2);
            trace := (trace (stop cfg env now cancel_ event w).2
                      ++ [EHook "pre_spawn_hook"
                            (hook_at env
                               (List.length (trace (stop cfg env now cancel_ event w).2)))])%list |})
      else (Ok VNone, cleared (stop cfg env now cancel_ event w).2).
Proof.
  pose proof (stop_sets_guard now cancel_ event w) as Hg.
  destruct (stop cfg env now cancel_ event w).2 as [s tr]. simpl in Hg.
  unfold run_pre_spawn_hook, cleared. run. rewrite Hg. split; [done |].
  destruct hook; [| done]. cbn. by destruct (hook_at env (List.length tr)).
Qed.

End Rearm.

(** ** The tunnel driver and the endpoint publisher *)

Section Driver.

Variable cfg : Config.
Variable env : Env.

(** X4. Teardown never raises and leaves the spawner as it was.  The
    endpoint's removal is asked for exactly once, also when removing the
    tunnel failed; and with the default function and no usable service
    address in the connection info, no command is run at all: the failure
    is only logged. *)
Theorem teardown_never_raises (w : World) :
  exists t,
    run_ssh_forward_remove cfg env w = (Ok tt, {| sp := sp w; trace := trace w ++ t |}) /\
    count is_endpoint_teardown t = 1 /\
    (exists pre e, t = (pre ++ [e])%list /\ is_endpoint_teardown e = true) /\
    (ssh_custom_forward_remove cfg = false ->
     is_ok (split_service_address (dict_get "service" (port_forward_info (sp w)))) = false ->
     count is_subprocess t = 0).
Proof.
  destruct w as [s tr].
  unfold run_ssh_forward_remove, ssh_default_forward_remove, ssh_default_svc_remove.
  run. split_cases idtac;
    rewrite <- ?app_assoc; eexists; (split; [reflexivity |]); cbn;
    (split; [done |]); (split; [| intros; done]);
    first [ by eexists [], _ | by eexists [_], _ | by eexists [_; _], _
          | by eexists [_; _; _], _ ].
Qed.



(** X6. Publishing the endpoint replaces a service that is in the way: the
    user's service is created at most twice and deleted at most once, and
    it is deleted only after a creation was refused with status 409.  When
    the method returns, its last call created the service, and it returns
    the service name and the port. *)
Theorem service_conflict_replaced (w : World) :
  count is_create_service (since w (ssh_default_svc cfg env w).2) <= 2 /\
  count is_delete_service (since w (ssh_default_svc cfg env w).2) <= 1 /\
  (count is_delete_service (since w (ssh_default_svc cfg env w).2) = 1 ->
   exists pre reason r post,
     since w (ssh_default_svc cfg env w).2
       = (pre ++ EK8s CreateService (Raise (ApiException 409 reason))
              :: EK8s DeleteService r :: post)%list /\
     count is_create_service pre = 0) /\
  (forall r, (ssh_default_svc cfg env w).1 = Ok r ->
     r = (svc_name cfg, port (sp w)) /\
     exists pre, since w (ssh_default_svc cfg env w).2
                 = (pre ++ [EK8s CreateService (Ok tt)])%list).
Proof.
  destruct w as [s tr]. unfold ssh_default_svc, since. run.
  split_cases idtac;
    repeat match goal with
           | H : context [((_ ++ _) ++ _)%list] |- _ => rewrite <- app_assoc in H; cbn [app] in H
           end;
    rewrite <- ?app_assoc, ?drop_app_length; cbn;
    repeat match goal with
           | H : k8s_at env ?n = _ |- context [k8s_at env ?n] => rewrite H
           end;
    (split; [lia |]); (split; [lia |]); (split; [| intros; simplify_eq]);
    try (intros; discriminate);
    try (split; [done |]);
    try match goal with
        | H : (_ =? 409)%Z = true |- _ => apply Z.eqb_eq in H; subst
        end;
    first [ by eexists [], _, _, _ | by eexists [_], _, _, _ | by eexists [_; _], _, _, _
          | by eexists [] | by eexists [_] | by eexists [_; _] | by eexists [_; _; _]
          | by eexists [_; _; _; _] | idtac ].
Qed.

(** X7. The default local forward runs at most six commands, and connects
    at most once.  When the first check of the multiplexed connection
    exits with 0 it does not connect and runs at most four commands. *)
Theorem local_forward_commands (w : World) :
  count is_subprocess (since w (ssh_default_forward env w).2) <= 6 /\
  count is_connect (since w (ssh_default_forward env w).2) <= 1 /\
  (forall user node base out err,
     forward_cmd_at env (List.length (trace w)) = Ok (user, node, base) ->
     subprocess_at env (S (List.length (trace w))) = Ok (0%Z, out, err) ->
     count is_connect (since w (ssh_default_forward env w).2) = 0 /\
     count is_subprocess (since w (ssh_default_forward env w).2) <= 4).
Proof.
  destruct w as [s tr]. unfold ssh_default_forward, since. run.
  split; [| split].
  - split_cases idtac; rewrite <- ?app_assoc, ?drop_app_length, ?app_nil_r, ?drop_all;
      cbn; lia.
  - split_cases idtac; rewrite <- ?app_assoc, ?drop_app_length, ?app_nil_r, ?drop_all;
      cbn; lia.
  - intros user node base out err Hc Hs. rewrite Hc. run.
    rewrite !length_app in *. cbn [List.length] in *.
    replace (List.length tr + 1) with (S (List.length tr)) in * by lia.
    rewrite Hs. run.
    split_cases idtac; rewrite <- ?app_assoc, ?drop_app_length, ?app_nil_r, ?drop_all;
      cbn; lia.
Qed.

End Driver.

(** ** [poll] at the start of the hub *)

Section Poll.

Variable cfg : Config.
Variable env : Env.

#[export] Instance stays_unset_composes g : Composes (stays_unset g).
Proof. split; [by intros s H | intros s t1 s1 t2 s2 H1 H2 H; apply H2, H1, H]. Qed.

Lemma stop_effect now cancel_ event (w : World) :
  exists r s' t,
    stop cfg env now cancel_ event w = (r, {| sp := s'; trace := (trace w ++ t)%list |}) /\
    already_stopped s' = true /\
    already_post_stop_hooked s' = already_post_stop_hooked (sp w) /\
    call_during_startup s' = call_during_startup (sp w).
Proof.
  pose proof (stop_sets_guard cfg env now cancel_ event w) as Hg.
  assert (obeys (keeps (fun _ => false)
                   (fun s => (already_post_stop_hooked s, call_during_startup s)))
            (stop cfg env now cancel_ event)) as Hk by obeys_keeps.
  destruct (Hk w) as (t & Ht & _ & Hf).
  destruct (stop cfg env now cancel_ event w) as [r [s' tr']]. cbn in *. subst tr'.
  injection Hf as H1 H2. by exists r, s', t.
Qed.

Lemma hook_effect (w : World) :
  exists r s' t,
    run_post_stop_hook cfg env w = (Ok r, {| sp := s'; trace := (trace w ++ t)%list |}) /\
    already_post_stop_hooked s' = true /\
    already_stopped s' = already_stopped (sp w) /\
    call_during_startup s' = call_during_startup (sp w).
Proof.
  destruct w as [s tr]. unfold run_post_stop_hook. run.
  destruct (already_post_stop_hooked s) eqn:E.
  - eexists _, _, []. rewrite app_nil_r. by repeat split.
  - split_cases idtac; first [ eexists _, _, [] ; rewrite app_nil_r; by repeat split
                             | eexists _, _, [_]; by repeat split ].
Qed.

Lemma forward_effect (create_svc : bool) (w : World) :
  exists r t,
    run_ssh_forward cfg env create_svc w = (r, {| sp := sp w; trace := (trace w ++ t)%list |}) /\
    count is_remote_stop t = 0.
Proof.
  assert (obeys (keeps is_remote_stop (fun s => s)) (run_ssh_forward cfg env create_svc)) as Hk
    by obeys_keeps.
  destruct (Hk w) as (t & Ht & Hc & Hf).
  destruct (run_ssh_forward cfg env create_svc w) as [r [s' tr']]. cbn in *. subst.
  by exists r, t.
Qed.

Ltac call_stop :=
  match goal with
  | |- context [stop cfg env ?a ?b ?ev ?w0] =>
      let r := fresh "r" in
      let s' := fresh "s" in
      let t := fresh "t" in
      let H := fresh "Hstop" in
      destruct (stop_effect a b ev w0) as (r & s' & t & H & ? & ? & ?);
      rewrite H in *; clear H; destruct r as [[] | ?]; cbn [sp trace] in *
  end.

Ltac call_hook_guarded :=
  match goal with
  | |- context [run_post_stop_hook cfg env ?w0] =>
      let r := fresh "r" in
      let s' := fresh "s" in
      let t := fresh "t" in
      let H := fresh "Hhook" in
      destruct (hook_effect w0) as (r & s' & t & H & ? & ? & ?);
      rewrite H in *; clear H; cbn [sp trace] in *
  end.

Ltac call_forward :=
  match goal with
  | |- context [run_ssh_forward cfg env ?b ?w0] =>
      let r := fresh "r" in
      let t := fresh "t" in
      let H := fresh "Hfwd" in
      destruct (forward_effect b w0) as (r & t & H & ?);
      rewrite H in *; clear H; destruct r as [? | ?]; cbn [sp trace] in *
  end.

(** X8. The handling of a hub start in [poll] happens once: with
    [call_during_startup] unset, [poll] is the subclass's [_poll] and
    nothing else, and a [poll] whose [_poll] returned leaves the flag unset,
    as [start] does. *)
Theorem poll_startup_once (w : World) :
  (call_during_startup (sp w) = false ->
   poll cfg env w =
     (remote_poll_at env (List.length (trace w)),
      {| sp := sp w;
         trace := (trace w ++ [ERemotePoll (remote_poll_at env (List.length (trace w)))])%list |})) /\
  (is_ok (remote_poll_at env (List.length (trace w))) = true ->
   call_during_startup (sp (poll cfg env w).2) = false) /\
  call_during_startup (sp (start cfg env w).2) = false.
Proof.
  split; [| split].
  - intros Hf. destruct w as [s tr]. cbn [sp trace] in *. unfold poll. run.
    destruct (remote_poll_at env (List.length tr)); run; [by rewrite Hf | done].
  - destruct w as [s tr]. cbn [sp trace] in *. unfold poll. run.
    destruct (remote_poll_at env (List.length tr)) as [status | e]; [intros _ | done]. run.
    destruct (call_during_startup s) eqn:Hf; [| done]. run.
    destruct (ssh_recreate_at_start cfg) as [b |]; run.
    + destruct (is_none status); cbn [negb].
      * destruct b; [| done]. call_forward; run; [done |].
        call_stop; [| done]. call_hook_guarded. run. cbn in *. congruence.
      * call_stop; [| done]. call_hook_guarded. run. cbn in *. congruence.
    + destruct (hook_at env _) as [b | e]; run; [| done].
      destruct (is_none status); cbn [negb].
      * destruct (truthy b); [| done]. call_forward; run; [done |].
        call_stop; [| done]. call_hook_guarded. run. cbn in *. congruence.
      * call_stop; [| done]. call_hook_guarded. run. cbn in *. congruence.
  - assert (obeys (stays_unset call_during_startup) (call_subclass_start cfg env)) as Hk.
    { repeat first
        [ obeys_step
        | apply obeys_update_self; intros []; unfold stays_unset; cbn; tauto
        | apply obeys_mark; by unfold stays_unset
        | apply obeys_interact; by unfold stays_unset
        | apply obeys_perform; [typeclasses eauto | by unfold stays_unset]
        | progress autounfold with methods ]. }
    unfold start. run. destruct (Hk {| sp := set_call_during_startup false (sp w);
                                       trace := trace w |}) as (t & _ & H).
    apply H. reflexivity.
Qed.


Lemma run_ssh_forward_unpublished :
  obeys (keeps is_endpoint_publication (fun _ => tt)) (run_ssh_forward cfg env false).
Proof.
  unfold run_ssh_forward. apply obeys_bind; [typeclasses eauto | obeys_keeps |].
  intros _. apply obeys_ret. typeclasses eauto.
Qed.

Lemma poll_unpublished : obeys (keeps is_endpoint_publication (fun _ => tt)) (poll cfg env).
Proof.
  assert (forall a b c, obeys (keeps is_endpoint_publication (fun _ => tt)) (stop cfg env a b c))
    as Hstop by (intros; obeys_keeps).
  assert (obeys (keeps is_endpoint_publication (fun _ => tt)) (run_post_stop_hook cfg env))
    as Hhook by obeys_keeps.
  pose proof run_ssh_forward_unpublished as Hfwd.
  unfold poll.
  repeat first
    [ apply Hstop | apply Hfwd | apply Hhook
    | obeys_step
    | apply obeys_update_self; keeps_leaf
    | apply obeys_perform; [typeclasses eauto | keeps_leaf]
    | progress unfold resolve, call_hook ].
Qed.

(** X10. [poll] publishes no endpoint, whichever way it goes: it reads no
    hub service, creates no service and calls neither the labels hook nor a
    custom service function; recreating the tunnel at a hub start is done
    without the service. *)
Theorem poll_publishes_no_endpoint (w : World) :
  count is_endpoint_publication (since w (poll cfg env w).2) = 0.
Proof.
  destruct (poll_unpublished w) as (t & Ht & Hc & _).
  by rewrite (since_app _ _ _ Ht).
Qed.

End Poll.



(** ** A remote stop that fails *)

Ltac teardown_done :=
  repeat match goal with
  | H : run_ssh_forward_remove ?cfg ?env ?w = _ |- _ =>
      let t := fresh "t" in
      let Ht := fresh "Ht" in
      destruct (run_ssh_forward_remove_spec cfg env w) as (t & Ht & ? & ? & ?);
      rewrite Ht in H; clear Ht; simplify_eq
  end.

Section FailedStop.

Variable cfg : Config.
Variable env : Env.

Lemma stop_outcome now cancel_ event (w : World) :
  already_stopped (sp w) = false ->
  exists r t,
    since w (stop cfg env now cancel_ event w).2
      = ((if cancel_ then [ECancelStartFuture] else []) ++ ERemoteStop now r :: t)%list /\
    count is_remote_stop t = 0 /\
    forall e, r = Raise e -> t = [] /\ (stop cfg env now cancel_ event w).1 = Raise e.
Proof.
  intros Hg. destruct w as [s tr]. unfold stop, since. run. cbn [sp] in Hg. rewrite Hg.
  destruct s; simpl in *. run.
  destruct cancel_; run;
    (destruct (remote_stop_at env _) as [[] | e0] eqn:E; run;
     [ split_cases idtac; teardown_done; run;
       rewrite <- ?app_assoc, ?drop_app_length; cbn [app];
       eexists _, _; (split; [reflexivity |]); (split; [| done]);
       rewrite ?count_app; unfold count in *; cbn; lia
     | split_cases idtac; run;
       rewrite <- ?app_assoc, ?drop_app_length; cbn [app];
       eexists _, _; (split; [reflexivity |]); (split; [done |]);
       intros ? [= <-]; done ]).
Qed.

(** X11. When the subclass's [_stop] raises, [stop] raises the same
    exception after appending the event: the user object is not stopped and
    neither the tunnel nor the endpoint is removed.  The guard stays set,
    so no later [stop] removes them either. *)
Theorem failed_remote_stop_leaves_tunnel now cancel_ event (w : World) (e : exn) :
  already_stopped (sp w) = false ->
  In (ERemoteStop now (Raise e)) (since w (stop cfg env now cancel_ event w).2) ->
  (stop cfg env now cancel_ event w).1 = Raise e /\
  count is_user_stop (since w (stop cfg env now cancel_ event w).2) = 0 /\
  count is_tunnel_teardown (since w (stop cfg env now cancel_ event w).2) = 0 /\
  count is_endpoint_teardown (since w (stop cfg env now cancel_ event w).2) = 0 /\
  (truthy event = true ->
   latest_events (sp (stop cfg env now cancel_ event w).2)
     = (latest_events (sp w) ++ [event])%list) /\
  forall c, do_stop cfg env c (stop cfg env now cancel_ event w).2
            = (Ok tt, (stop cfg env now cancel_ event w).2).
Proof.
  intros Hg Hin.
  destruct (stop_outcome now cancel_ event w Hg) as (r & t & Ht & Hc & Hr).
  rewrite Ht in *.
  assert (r = Raise e) as ->.
  { apply in_app_iff in Hin as [Hin | [Hin | Hin]].
    - destruct cancel_; cbn in Hin; [destruct Hin as [Hin | []]; discriminate Hin | done].
    - by injection Hin.
    - exfalso. by refine (count_zero_not_in _ t _ Hc _ Hin). }
  destruct (Hr e eq_refl) as [-> He].
  split; [exact He |].
  split; [by destruct cancel_ |]. split; [by destruct cancel_ |].
  split; [by destruct cancel_ |].
  split; [intros Htr; by apply stop_appends |].
  intros c. apply stop_guarded, stop_sets_guard.
Qed.

End FailedStop.

Lemma failed_remote_stop_leaves_tunnel_witness :
  (stop default_config failing_stop_env false true default_stop_event served_world).1
    = Raise unreachable /\
  count is_tunnel_teardown
    (since served_world
       (stop default_config failing_stop_env false true default_stop_event served_world).2) = 0.
Proof.
  destruct (failed_remote_stop_leaves_tunnel default_config failing_stop_env false true
              default_stop_event served_world unreachable eq_refl)
    as (H1 & _ & H2 & _).
  - right. left. reflexivity.
  - split; [exact H1 | exact H2].
Defined.

(** ** The remote forward is never removed *)

Section RemoteForward.

Variable cfg : Config.
Variable env : Env.

Lemma follow_keeps_remote (p : path) (w : World) :
  exists t, trace (follow cfg env p w) = (trace w ++ t)%list /\
            count is_remote_forward_cmd t = 0.
Proof.
  assert (forall A (m : M A), obeys (keeps is_remote_forward_cmd (fun _ => tt)) m ->
            exists t, trace (m w).2 = (trace w ++ t)%list /\
                      count is_remote_forward_cmd t = 0) as Hget.
  { intros A m Hm. destruct (Hm w) as (t & Ht & Hc & _). by exists t. }
  destruct p as [a b c | |]; simpl; apply Hget; obeys_keeps.
Qed.

(** X12. However the session is driven along [stop], [poll] and
    [run_post_stop_hook], no command of the remote forward is built: what
    [start] may have set up on the remote system is not removed by any of
    them ([ssh_default_forward_remote_remove] has no caller). *)
Theorem remote_forward_never_removed (ps : list path) (w : World) :
  count is_remote_forward_cmd (since w (follow_all cfg env ps w)) = 0.
Proof.
  assert (exists t, trace (follow_all cfg env ps w) = (trace w ++ t)%list /\
                    count is_remote_forward_cmd t = 0) as (t & Ht & Hc).
  { revert w. induction ps as [| p ps IH]; intros w; simpl.
    - exists []. by rewrite app_nil_r.
    - destruct (follow_keeps_remote p w) as (t1 & Ht1 & H1).
      destruct (IH (follow cfg env p w)) as (t2 & Ht2 & H2).
      exists (t1 ++ t2)%list. rewrite Ht2, Ht1, app_assoc. split; [done |].
      rewrite count_app. lia. }
  by rewrite (since_app _ _ _ Ht).
Qed.

End RemoteForward.

(** ** A start that fails *)

Ltac flatten_traces :=
  repeat match goal with
         | H : context [((_ ++ _) ++ _)%list] |- _ => rewrite <- app_assoc in H; cbn [app] in H
         end;
  rewrite <- ?app_assoc; cbn [app].

Section StartFailure.

Variable cfg : Config.
Variable env : Env.

Lemma start_outcome (w : World) (e : exn) :
  In (ERemoteStart (Raise e)) (since w (start cfg env w).2) ->
  port_forward_info (sp (start cfg env w).2) = port_forward_info (sp w) /\
  match exn_reason e with
  | Ok reason =>
      (start cfg env w).1 = Raise e /\
      latest_events (sp (start cfg env w).2)
        = (latest_events (sp w)
           ++ [start_failed_event (clock env (start cfg env w).2) e reason])%list /\
      stop_event (sp (start cfg env w).2)
        = start_failed_event (clock env (start cfg env w).2) e reason
  | Raise e' =>
      (start cfg env w).1 = Raise e' /\
      latest_events (sp (start cfg env w).2) = latest_events (sp w) /\
      stop_event (sp (start cfg env w).2) = stop_event (sp w)
  end.
Proof.
  destruct w as [s tr].
  unfold start, call_subclass_start, ssh_default_forward_remote, since, clock.
  run. split_cases idtac.
  all: try rename sp into s1; try rename trace into tr1.
  all: repeat match goal with
    | H : resolve_address _ _ ?resp ?w0 = (_, ?w1) |- _ =>
        let tp := fresh "tp" in
        destruct (resolve_address_quiet cfg env resp w0) as (tp & Htp & Hc & _);
        rewrite H in Htp; cbn [fst snd sp trace] in Htp;
        let s1 := fresh "s" in let tr1 := fresh "tr" in destruct w1 as [s1 tr1];
        cbn [sp trace] in *;
        subst; clear H
    end.
  all: cbn [sp trace]; flatten_traces; rewrite ?drop_app_length, ?drop_all; cbn [app].
  all: intros Hin; rewrite ?in_app_iff in Hin; cbn [In] in Hin.
  all: try (exfalso;
            repeat (destruct Hin as [Hin | Hin]; try discriminate Hin; try done);
            first [ congruence
                  | match goal with
                    | Hc : count start_mark ?t = 0 |- _ =>
                        refine (count_zero_not_in _ t _ Hc _ Hin); reflexivity
                    end ]).
  all: repeat (destruct Hin as [Hin | Hin]; try discriminate Hin; try done).
  all: try (injection Hin as Hin); simplify_eq.
  all: repeat match goal with
              | H1 : exn_reason ?x = _, H2 : exn_reason ?x = _ |- _ =>
                  rewrite H1 in H2; simplify_eq
              end.
  all: destruct s; cbn;
    repeat match goal with H : exn_reason _ = _ |- _ => rewrite H end;
    (split; [done |]); by repeat split.
Qed.


(** X14. When the subclass's [_start] raises an exception whose [reason]
    attribute is [None] (an [HTTPError] or [ApiException] built without a
    reason), the handler fails at [reason.replace]: [start] raises
    [AttributeError] in place of the exception, no event is appended and the
    stop event is as it was. *)
Theorem start_failure_without_reason (w : World) (e : exn) :
  In (ERemoteStart (Raise e)) (since w (start cfg env w).2) ->
  is_ok (exn_reason e) = false ->
  (start cfg env w).1 = Raise AttributeError /\
  latest_events (sp (start cfg env w).2) = latest_events (sp w) /\
  stop_event (sp (start cfg env w).2) = stop_event (sp w).
Proof.
  intros Hin Hr. destruct (start_outcome w e Hin) as [Hp H].
  destruct (exn_reason e) as [r | e'] eqn:E; [done |].
  assert (e' = AttributeError) as -> by (destruct e as [| | | | | | ? [] | ? ? [] |]; cbn in E; by simplify_eq).
  exact H.
Qed.

End StartFailure.


Lemma start_failure_without_reason_witness :
  (start default_config (failing_start_env (HTTPError 503 "no capacity" None)) new_world).1
    = Raise AttributeError /\
  latest_events
    (sp (start default_config (failing_start_env (HTTPError 503 "no capacity" None))
           new_world).2) = [].
Proof.
  destruct (start_failure_without_reason default_config
              (failing_start_env (HTTPError 503 "no capacity" None)) new_world
              (HTTPError 503 "no capacity" None)) as (H1 & H2 & _).
  - right. left. reflexivity.
  - reflexivity.
  - split; [exact H1 | exact H2].
Defined.

(** ** Failures reported to the handlers *)

Ltac run_goal :=
  cbv beta iota zeta delta
    [bind ret raise lift get_self update_self try_except try_finally perform
     interact mark maybe_future datetime_now respond fst snd sp trace
     k8s call_hook resolve subprocess_cmd get_forward_cmd get_forward_remote_cmd
     cancel_start_function cancel].

Section Handlers.

Variable cfg : Config.
Variable env : Env.

Lemma stop_summary now cancel_ event (w : World) :
  already_stopped (sp w) = false ->
  exists r s' t,
    stop cfg env now cancel_ event w = (r, {| sp := s'; trace := (trace w ++ t)%list |}) /\
    already_stopped s' = true /\
    port_forward_info s' = port_forward_info (sp w) /\
    count is_remote_stop t = 1 /\
    count is_filter_call t = 0 /\
    (truthy event = true -> latest_events s' = (latest_events (sp w) ++ [event])%list).
Proof.
  intros Hg.
  destruct (stop_first cfg env now cancel_ event w Hg) as (t & Ht & Hset & Hstop & _).
  pose proof (stop_appends cfg env now cancel_ event w Hg) as Hev.
  assert (obeys (keeps is_filter_call port_forward_info) (stop cfg env now cancel_ event))
    as Hk by obeys_keeps.
  destruct (Hk w) as (t' & Ht' & Hc & Hp).
  destruct (stop cfg env now cancel_ event w) as [r [s' tr']]. cbn [fst snd sp trace] in *.
  subst tr'. apply app_inv_head in Ht' as <-.
  by exists r, s', t.
Qed.

(** X15. A report of a failure, sent while no stop is pending, stops the
    server with a cancel, whatever else the report says: the remote stop
    call is made, and the report is appended to the log as it was sent,
    neither filtered nor stamped (for a cancel by the user, the handler's
    own event function in its place); the configured event filter is not
    called.  When the stop returns the answer is 204. *)
Theorem failed_report_stops_server (event : dict) (m : string) (w : World) :
  is_failure event = true ->
  stop_already_pending (sp w) = false ->
  get_default "html_message" (VStr "") event = VStr m ->
  latest_events (sp (events_post cfg env true true (Some event) w).2)
    = (latest_events (sp w)
       ++ [if endswith user_cancel_message m then cancel_stop_event else VDict event])%list /\
  already_stopped (sp (events_post cfg env true true (Some event) w).2) = true /\
  count is_remote_stop (since w (events_post cfg env true true (Some event) w).2) = 1 /\
  count is_filter_call (since w (events_post cfg env true true (Some event) w).2) = 0 /\
  forall r, (events_post cfg env true true (Some event) w).1 = Ok r ->
            r = {| status := 204; written := "" |}.
Proof.
  intros Hf Hp Hm. destruct w as [s tr]. cbn [sp trace] in *.
  unfold events_post, since. cbn [negb]. run.
  unfold stop_already_pending in Hp. rewrite Hp.
  unfold is_failure in Hf. rewrite Hf, Hm.
  assert (already_stopped s = false) as Hg by (by apply orb_false_iff in Hp as [_ ?]).
  assert (truthy (VDict event) = true) as Hte by (by apply andb_true_iff in Hf as [? _]).
  destruct (endswith user_cancel_message m);
    match goal with |- context [stop cfg env ?a ?b ?ev ?w0] =>
      destruct (stop_summary a b ev w0 Hg) as (r & s' & t & Hs & H1 & H2 & H3 & H4 & H5);
      rewrite Hs end;
    destruct r as [[] | e]; run; cbn [sp trace]; rewrite drop_app_length;
    (split; [by apply H5 |]); repeat split; try done; by intros ? [= <-].
Qed.

Lemma prune_events_keeps {X} (g : Spawner -> X) (keys : list string) :
  (forall v s, g (set_events v s) = g s) ->
  obeys (keeps (fun _ => true) g) (prune_events env keys).
Proof.
  intros Hg.
  assert (forall v, obeys (keeps (fun _ => true) g) (update_self (set_events v))) as Hu
    by (intros v; apply obeys_update_self; intros s0; split; [reflexivity | apply Hg]).
  induction keys as [| key keys IH]; cbn [prune_events].
  - obeys_keeps.
  - apply obeys_bind; [typeclasses eauto | obeys_keeps |]. intros self.
    apply obeys_bind; [typeclasses eauto | | intros _; exact IH].
    repeat first [ apply Hu | obeys_step ].
Qed.

Lemma get_state_keeps {X} (g : Spawner -> X) (w : World) :
  (forall v s, g (set_events v s) = g s) ->
  exists r s',
    get_state env w = (r, {| sp := s'; trace := trace w |}) /\ g s' = g (sp w).
Proof.
  intros Hg.
  assert (obeys (keeps (fun _ => true) g) (get_state env)) as Hk.
  { unfold get_state.
    repeat first
      [ apply prune_events_keeps; exact Hg
      | apply obeys_update_self; intros s0; split; [reflexivity | apply Hg]
      | obeys_step ]. }
  destruct (Hk w) as (t & Ht & Hc & Hs).
  apply count_all_zero in Hc. subst t. rewrite app_nil_r in Ht.
  destruct (get_state env w) as [r [s' tr']]. cbn [fst snd sp trace] in *. subst tr'.
  by exists r, s'.
Qed.

(** X16. When [SetupTunnel] answers 400 without a text, setting up the
    tunnel has failed and the server has been stopped with a cancel: the
    remote stop call was made, the guard of [stop] is set, and an event
    that reports the failure is appended to the log.  The connection info
    keeps the payload that was merged into it. *)
Theorem tunnel_failure_stops_server (payload : dict) (w w' : World) :
  already_stopped (sp w) = false ->
  setup_tunnel_post cfg env true true (Some payload) w
    = (Ok {| status := 400; written := "" |}, w') ->
  already_stopped (sp w') = true /\
  port_forward_info (sp w') = merged_info (sp w) payload /\
  count is_remote_stop (since w w') = 1 /\
  exists t e,
    latest_events (sp w') = (latest_events (sp w) ++ [tunnel_failed_event t e])%list.
Proof.
  intros Hg. destruct w as [s tr]. cbn [sp trace] in *.
  unfold setup_tunnel_post, merged_info, since. cbn [negb]. run_goal.
  destruct (_stop_pending s); [intros [= _ _]; done |].
  destruct payload as [| kv payload]; [intros [= _ _]; done |]. cbn [truthy]. run_goal.
  assert (forall (t : datetime) (e : exn) (s0 : Spawner) (tr0 tf : list effect),
            tr0 = (tr ++ tf)%list ->
            already_stopped s0 = false ->
            port_forward_info s0 = dict_update (port_forward_info s) (kv :: payload) ->
            latest_events s0 = latest_events s ->
            count is_remote_stop tf = 0 ->
            match stop cfg env false true (tunnel_failed_event t e)
                    {| sp := s0; trace := tr0 |} with
            | (Ok _, w1) => (Ok {| status := 400; written := "" |}, w1)
            | (Raise e1, w1) => (Raise e1, w1)
            end = (Ok {| status := 400; written := "" |}, w') ->
            already_stopped (sp w') = true /\
            port_forward_info (sp w') = dict_update (port_forward_info s) (kv :: payload) /\
            count is_remote_stop (drop (List.length tr) (trace w')) = 1 /\
            exists t e,
              latest_events (sp w') = (latest_events s ++ [tunnel_failed_event t e])%list)
    as Hstop.
  { intros t e s0 tr0 tf -> H0 Hp Hl Hc.
    destruct (stop_summary false true (tunnel_failed_event t e)
                {| sp := s0; trace := (tr ++ tf)%list |} H0)
      as (r & s' & ts & Hs & H1 & H2 & H3 & _ & H5).
    rewrite Hs. destruct r as [[] | e1]; [| done]. intros [= <-]. cbn [sp trace] in *.
    rewrite <- app_assoc, drop_app_length, count_app, Hc, H3, H2, Hp, H5, Hl by done.
    repeat split; try done. by eexists _, _. }
  match goal with |- context [get_state env ?w0] =>
    destruct (get_state_keeps
                (fun s => (already_stopped s, latest_events s, port_forward_info s)) w0)
      as (r & s1 & Hgs & Hk); [by intros v []|]; rewrite Hgs; clear Hgs end.
  cbn [sp trace] in Hk. injection Hk as Hk1 Hk2 Hk3.
  assert (port_forward_info s1 = dict_update (port_forward_info s) (kv :: payload)) as Hp1
    by (rewrite Hk3; by destruct s).
  assert (already_stopped s1 = false) as Hs1 by (rewrite Hk1; by destruct s).
  assert (latest_events s1 = latest_events s) as Hl1 by (rewrite Hk2; by destruct s).
  destruct r as [state | e]; run_goal.
  { destruct (commit_at env _) as [[] | e]; run_goal.
    - match goal with |- context [run_ssh_forward cfg env true ?w0] =>
        destruct (forward_effect cfg env true w0) as (r & tf & Hf & Hc); rewrite Hf; clear Hf
      end.
      cbn [sp trace]. destruct r as [r | e]; run_goal; [intros [= _ _]; done |].
      apply (Hstop _ _ _ _ ([ESetOrmState state; EDbCommit (Ok tt)] ++ tf)%list); try done;
        first [ by rewrite <- !app_assoc | rewrite count_app, Hc; reflexivity ].
    - apply (Hstop _ _ _ _ [ESetOrmState state; EDbCommit (Raise e)]); try done;
        by rewrite <- !app_assoc. }
  apply (Hstop _ _ _ _ []); try done; by rewrite app_nil_r.
Qed.

End Handlers.


Lemma failed_report_stops_server_witness :
  latest_events
    (sp (events_post default_config (calm_env noon) true true (Some failure_report)
           new_world).2) = [VDict failure_report] /\
  already_stopped
    (sp (events_post default_config (calm_env noon) true true (Some failure_report)
           new_world).2) = true.
Proof.
  destruct (failed_report_stops_server default_config (calm_env noon) failure_report
              "<details><summary>Job failed</summary>out of memory</details>" new_world
              eq_refl eq_refl eq_refl) as (H1 & H2 & _).
  split; [exact H1 | exact H2].
Defined.

Lemma tunnel_failure_stops_server_witness :
  exists w',
    setup_tunnel_post default_config tunnel_env true true (Some bad_payload) new_world
      = (Ok {| status := 400; written := "" |}, w') /\
    already_stopped (sp w') = true /\
    port_forward_info (sp w') = bad_payload.
Proof.
  eexists.
  assert (setup_tunnel_post default_config tunnel_env true true (Some bad_payload) new_world
          = _) as H by (vm_compute; reflexivity).
  destruct (tunnel_failure_stops_server default_config tunnel_env bad_payload new_world _
              eq_refl H) as (H1 & H2 & _).
  split; [exact H |]. split; [exact H1 | exact H2].
Defined.

(** ** Service addresses *)

Lemma chars_of_chars (l : list ascii) : chars (of_chars l) = l.
Proof. apply list_ascii_of_string_of_list_ascii. Qed.

Lemma of_chars_chars (s : string) : of_chars (chars s) = s.
Proof. apply string_of_list_ascii_of_string. Qed.

Lemma chars_app (a b : string) : chars (a ++ b) = (chars a ++ chars b)%list.
Proof.
  induction a as [| c a IH]; [done |].
  change (chars (String c a ++ b)) with (c :: chars (a ++ b)). by rewrite IH.
Qed.

Lemma of_chars_app (a b : list ascii) : of_chars (a ++ b) = of_chars a ++ of_chars b.
Proof.
  induction a as [| c a IH]; [done |].
  change (of_chars ((c :: a) ++ b)) with (String c (of_chars (a ++ b))). by rewrite IH.
Qed.

Lemma split_chars_join (sep : ascii) (l1 l2 cur : list ascii) :
  sep ∉ l1 ->
  split_chars sep cur (l1 ++ sep :: l2)
  = of_chars (rev cur ++ l1) :: split_chars sep [] l2.
Proof.
  revert cur. induction l1 as [| c l1 IH]; intros cur Hn; cbn [split_chars app].
  - by rewrite Ascii.eqb_refl, app_nil_r.
  - apply not_elem_of_cons in Hn as [Hc Hn].
    destruct (Ascii.eqb_spec c sep) as [-> | _]; [done |].
    rewrite IH by done. cbn [rev]. by rewrite <- app_assoc.
Qed.

Lemma split_chars_whole (sep : ascii) (l cur : list ascii) :
  sep ∉ l -> split_chars sep cur l = [of_chars (rev cur ++ l)].
Proof.
  revert cur. induction l as [| c l IH]; intros cur Hn; cbn [split_chars].
  - by rewrite app_nil_r.
  - apply not_elem_of_cons in Hn as [Hc Hn].
    destruct (Ascii.eqb_spec c sep) as [-> | _]; [done |].
    rewrite IH by done. cbn [rev]. by rewrite <- app_assoc.
Qed.

Lemma split_chars_nonempty (sep : ascii) (l cur : list ascii) :
  split_chars sep cur l <> [].
Proof.
  revert cur. induction l as [| c l IH]; intros cur; cbn [split_chars]; [done |].
  destruct (Ascii.eqb c sep); [done | apply IH].
Qed.

Lemma split_chars_one (sep : ascii) (l cur : list ascii) (b : string) :
  split_chars sep cur l = [b] -> (sep ∉ l) /\ b = of_chars (rev cur ++ l).
Proof.
  revert cur. induction l as [| c l IH]; intros cur; cbn [split_chars].
  - intros [= <-]. rewrite app_nil_r. split; [apply not_elem_of_nil | done].
  - destruct (Ascii.eqb_spec c sep) as [-> | Hne].
    + intros [= _ H]. by apply split_chars_nonempty in H.
    + intros H. destruct (IH _ H) as [Hn ->]. split.
      * apply not_elem_of_cons. split; [congruence | done].
      * cbn [rev]. by rewrite <- app_assoc.
Qed.

Lemma split_chars_two (sep : ascii) (l cur : list ascii) (a b : string) :
  split_chars sep cur l = [a; b] ->
  exists l1 l2, l = (l1 ++ sep :: l2)%list /\ (sep ∉ l1) /\ (sep ∉ l2) /\
                a = of_chars (rev cur ++ l1) /\ b = of_chars l2.
Proof.
  revert cur. induction l as [| c l IH]; intros cur; cbn [split_chars]; [done |].
  destruct (Ascii.eqb_spec c sep) as [-> | Hne].
  - intros [= <- H]. apply split_chars_one in H as [Hn ->].
    exists [], l. rewrite app_nil_r. repeat split; try done. apply not_elem_of_nil.
  - intros H. destruct (IH _ H) as (l1 & l2 & -> & H1 & H2 & -> & ->).
    exists (c :: l1), l2. repeat split; try done.
    + apply not_elem_of_cons. split; [congruence | done].
    + cbn [rev]. by rewrite <- app_assoc.
Qed.

(** X17. [split_service_address] gives the host and the port exactly when,
    once a leading [https://] and then a leading [http://] are removed, the
    address is a host, one colon and a port, neither holding a colon.  Any
    other text (no port, an IPv6 literal, a path with a colon) raises
    [ValueError], and a missing address or one that is no text raises
    [AttributeError]. *)
Theorem split_service_address_spec (a : string) :
  (forall h p,
     split_service_address (Some (VStr a)) = Ok (h, p) <->
     removeprefix "http://" (removeprefix "https://" a) = h ++ ":" ++ p /\
     (":"%char ∉ chars h) /\ (":"%char ∉ chars p)) /\
  (split_service_address (Some (VStr a)) = Raise ValueError \/
   exists h p, split_service_address (Some (VStr a)) = Ok (h, p)) /\
  split_service_address None = Raise AttributeError /\
  (forall v, (forall s, v <> VStr s) -> split_service_address (Some v) = Raise AttributeError).
Proof.
  unfold split_service_address, str_split.
  set (b := removeprefix "http://" (removeprefix "https://" a)).
  split; [| split; [| split]].
  - intros h p. split.
    + destruct (split_chars ":" [] (chars b)) as [| x [| y [| z l]]] eqn:E; try done.
      intros [= -> ->]. apply split_chars_two in E as (l1 & l2 & Hb & H1 & H2 & -> & ->).
      cbn [rev app]. rewrite !chars_of_chars. split; [| done].
      rewrite <- (of_chars_chars b), Hb, of_chars_app. reflexivity.
    + intros (Hb & H1 & H2). rewrite Hb, !chars_app. cbn [chars list_ascii_of_string app].
      rewrite split_chars_join by done. rewrite split_chars_whole by done.
      cbn [rev app]. by rewrite !of_chars_chars.
  - destruct (split_chars ":" [] (chars b)) as [| x [| y [| z l]]]; eauto.
  - reflexivity.
  - intros v Hv. destruct v; try done. by destruct (Hv s).
Qed.
